(** * PaperTrade: the execution gateway, the scalper strategy and the quant engine

    A shallow embedding of the TypeScript sources

    - [src/execution.ts]                                 (class [ExecutionGateway], paper mode),
    - [src/strategies/ExpirationConvergenceStrategy.ts]  (class [ExpirationConvergenceStrategy]),
    - [src/services/quantEngine.ts]                      (class [QuantEngine]),
    - the configuration module                           ([loadConfig], [validateConfig]),
    - the bot's entry point                              ([TradingBot.tick]),

    together with the properties the specification states about them.

    Modelling conventions.

    - A JavaScript [number] holding a price, a size or an amount of cash is a
      rational [Q]; arithmetic is exact, so rounding of IEEE doubles is not
      modelled.  Square roots (volatility) land in [R].
    - [Date.now()] is an explicit argument [now : Z] (milliseconds).
    - The order book service is an explicit argument: a function from a token
      id to the book it would return, [None] when the call throws.
    - A JavaScript [Map] whose iteration order is observed is an association
      list in insertion order; a [Map] used only through get/set/delete is a
      [gmap]; a [Set] is a [gset].
    - Console output is not modelled. *)

From Stdlib Require Import QArith Qminmax Qround ZArith Lia Lqa.
From Stdlib Require Import DecimalString.
From Stdlib Require DecimalNat.
From Stdlib Require Import Reals Lra Qreals.
From stdpp Require Import base decidable option list strings gmap.

Local Open Scope Q_scope.

(** ** JavaScript numbers as rationals *)

Module JS.

(** [a < b] on numbers. *)
Definition ltb (a b : Q) : bool := negb (Qle_bool b a).
(** [a <= b] on numbers. *)
Definition leb (a b : Q) : bool := Qle_bool a b.
(** [a > b] and [a >= b]. *)
Definition gtb (a b : Q) : bool := ltb b a.
Definition geb (a b : Q) : bool := leb b a.

(** Truthiness of a number: [0] is falsy (so is an absent property). *)
Definition truthy_num (x : option Q) : bool :=
  match x with
  | Some q => negb (Qeq_bool q 0)
  | None => false
  end.

(** [x || d] for an optional number [x]. *)
Definition num_or (x : option Q) (d : Q) : Q :=
  match x with
  | Some q => if Qeq_bool q 0 then d else q
  | None => d
  end.

(** Truthiness of a string: the empty string is falsy. *)
Definition truthy_str (s : string) : bool := negb (bool_decide (s = EmptyString)).

(** [Math.round(x)]: the nearest integer, halves rounded up. *)
Definition Math_round (x : Q) : Z := Qfloor (x + (1 # 2)).

(** [Math.round(x * 10000) / 10000]. *)
Definition round4 (x : Q) : Q := inject_Z (Math_round (x * 10000)) / 10000.

(** Template-literal rendering of a non-negative counter and of a time stamp. *)
Definition show_nat (n : nat) : string := NilZero.string_of_uint (Nat.to_uint n).
Definition show_Z (z : Z) : string := NilZero.string_of_int (Z.to_int z).

End JS.

(** ** The execution gateway ([src/execution.ts]) *)

Inductive OrderSide := BUY | SELL.

Global Instance OrderSide_eq_dec : EqDecision OrderSide.
Proof. solve_decision. Defined.

Record Order := mkOrder {
  order_id : string;
  order_tokenId : string;
  order_side : OrderSide;
  order_price : Q;
  order_size : Q;
  order_timestamp : Z
}.

Record Position := mkPosition {
  pos_tokenId : string;
  pos_shares : Q;
  pos_entryPrice : Q;
  pos_entryTime : Z
}.

(** Insertion-ordered [Map<string, V>]. *)
Module JSMap.
Section Ops.
Context {V : Type}.

Fixpoint set (k : string) (v : V) (m : list (string * V)) : list (string * V) :=
  match m with
  | [] => [(k, v)]
  | (k', v') :: m' =>
      if bool_decide (k' = k) then (k, v) :: m' else (k', v') :: set k v m'
  end.

Fixpoint get (k : string) (m : list (string * V)) : option V :=
  match m with
  | [] => None
  | (k', v') :: m' => if bool_decide (k' = k) then Some v' else get k m'
  end.

Definition has (k : string) (m : list (string * V)) : bool :=
  match get k m with Some _ => true | None => false end.

Fixpoint delete (k : string) (m : list (string * V)) : list (string * V) :=
  match m with
  | [] => []
  | (k', v') :: m' =>
      if bool_decide (k' = k) then delete k m' else (k', v') :: delete k m'
  end.

Definition values (m : list (string * V)) : list V := map snd m.
Definition keys (m : list (string * V)) : list string := map fst m.
End Ops.
End JSMap.

(** The paper-trading fields of [ExecutionGateway]. [CONFIG.PAPER_TRADE] is
    [true] throughout: the routers [placeLimitOrder], [cancelOrder],
    [executeFAK] and [isOrderFilled] are modelled on their paper branch. *)
Record ExecutionGateway := mkGateway {
  paperCash : Q;
  paperPositions : gmap string Position;
  paperOrders : list (string * Order);
  filledPaperOrders : gset string;
  paperOrderCounter : nat;
  isExecutingTrade : bool
}.

Definition with_cash (c : Q) (g : ExecutionGateway) : ExecutionGateway :=
  mkGateway c (paperPositions g) (paperOrders g) (filledPaperOrders g)
            (paperOrderCounter g) (isExecutingTrade g).
Definition with_positions (p : gmap string Position) (g : ExecutionGateway) : ExecutionGateway :=
  mkGateway (paperCash g) p (paperOrders g) (filledPaperOrders g)
            (paperOrderCounter g) (isExecutingTrade g).
Definition with_orders (o : list (string * Order)) (g : ExecutionGateway) : ExecutionGateway :=
  mkGateway (paperCash g) (paperPositions g) o (filledPaperOrders g)
            (paperOrderCounter g) (isExecutingTrade g).
Definition with_filled (f : gset string) (g : ExecutionGateway) : ExecutionGateway :=
  mkGateway (paperCash g) (paperPositions g) (paperOrders g) f
            (paperOrderCounter g) (isExecutingTrade g).
Definition with_counter (n : nat) (g : ExecutionGateway) : ExecutionGateway :=
  mkGateway (paperCash g) (paperPositions g) (paperOrders g) (filledPaperOrders g)
            n (isExecutingTrade g).
Definition with_executing (b : bool) (g : ExecutionGateway) : ExecutionGateway :=
  mkGateway (paperCash g) (paperPositions g) (paperOrders g) (filledPaperOrders g)
            (paperOrderCounter g) b.

(** [new ExecutionGateway()] with [CONFIG.BANKROLL = bankroll]. *)
Definition newGateway (bankroll : Q) : ExecutionGateway :=
  mkGateway bankroll ∅ [] ∅ 0 false.

(** [placePaperOrder(tokenId, side, price, size, type)]; the time-in-force
    [type] is not stored and is left out. *)
Definition placePaperOrder (tokenId : string) (side : OrderSide) (price size : Q)
    (now : Z) (g : ExecutionGateway) : ExecutionGateway * string :=
  let orderId := ("PAPER_" +:+ JS.show_nat (paperOrderCounter g))%string in
  let g := with_counter (S (paperOrderCounter g)) g in
  let order := mkOrder orderId tokenId side price size now in
  (with_orders (JSMap.set orderId order (paperOrders g)) g, orderId).

(** [cancelPaperOrder(orderId)]. *)
Definition cancelPaperOrder (orderId : string) (g : ExecutionGateway)
    : ExecutionGateway * bool :=
  if JSMap.has orderId (paperOrders g)
  then (with_orders (JSMap.delete orderId (paperOrders g)) g, true)
  else (g, false).

(** [executePaperFAK(tokenId, side, price, size)]. *)
Definition executePaperFAK (tokenId : string) (side : OrderSide) (price size : Q)
    (now : Z) (g : ExecutionGateway) : ExecutionGateway * bool :=
  match side with
  | BUY =>
      let cost := price * size in
      if JS.geb (paperCash g) cost then
        let g := with_cash (paperCash g - cost) g in
        let g :=
          match paperPositions g !! tokenId with
          | Some existing =>
              let totalShares := pos_shares existing + size in
              let avgPrice :=
                ((pos_entryPrice existing * pos_shares existing) + (price * size))
                / totalShares in
              with_positions
                (<[tokenId := mkPosition tokenId totalShares avgPrice now]> (paperPositions g)) g
          | None =>
              with_positions
                (<[tokenId := mkPosition tokenId size price now]> (paperPositions g)) g
          end in
        (g, true)
      else (g, false)
  | SELL =>
      match paperPositions g !! tokenId with
      | Some position =>
          if JS.geb (pos_shares position) size then
            let proceeds := price * size in
            let g := with_cash (paperCash g + proceeds) g in
            let g :=
              if JS.ltb (pos_shares position - size) (1 # 1000000)
              then with_positions (delete tokenId (paperPositions g)) g
              else with_positions
                     (<[tokenId := mkPosition (pos_tokenId position)
                                     (pos_shares position - size)
                                     (pos_entryPrice position)
                                     (pos_entryTime position)]> (paperPositions g)) g in
            (g, true)
          else (g, false)
      | None => (g, false)
      end
  end.

(** The two ways [placeFOKOrder] can throw. *)
Inductive FOKError := TradeInProgress | FOKFailed.

(** [placeFOKOrder(tokenId, side, amount, price?)], paper branch.  The first
    [throw] happens before the [try], so the [finally] does not run for it. *)
Definition placeFOKOrder (tokenId : string) (side : OrderSide) (amount : Q)
    (price : option Q) (now : Z) (g : ExecutionGateway)
    : ExecutionGateway * (FOKError + string) :=
  if isExecutingTrade g then (g, inl TradeInProgress)
  else
    let g := with_executing true g in
    let size := match side with
                | BUY => amount / JS.num_or price (1 # 2)
                | SELL => amount
                end in
    let '(g, executed) := executePaperFAK tokenId side (JS.num_or price (1 # 2)) size now g in
    if executed then
      let orderId := ("PAPER_FOK_" +:+ JS.show_nat (paperOrderCounter g))%string in
      let g := with_counter (S (paperOrderCounter g)) g in
      let g := with_filled (filledPaperOrders g ∪ {[orderId]}) g in
      (with_executing false g, inr orderId)
    else (with_executing false g, inl FOKFailed).

(** The body of the [for] loop of [checkPaperFills], over the entries of
    [paperOrders] in insertion order.  Deleting the entry being visited does
    not disturb the iteration, so the loop runs over the entries as they were
    on entry.  A fill ends the loop ([return] inside the [for]). *)
Fixpoint checkPaperFills_loop (tokenId : string) (currentBestAsk currentBestBid : Q)
    (now : Z) (entries : list (string * Order)) (g : ExecutionGateway)
    : ExecutionGateway * option Position :=
  match entries with
  | [] => (g, None)
  | (orderId, order) :: rest =>
      if negb (bool_decide (order_tokenId order = tokenId)) then
        checkPaperFills_loop tokenId currentBestAsk currentBestBid now rest g
      else if bool_decide (orderId ∈ filledPaperOrders g) then
        checkPaperFills_loop tokenId currentBestAsk currentBestBid now rest
          (with_orders (JSMap.delete orderId (paperOrders g)) g)
      else if bool_decide (order_side order = BUY)
              && JS.gtb currentBestAsk 0
              && JS.leb currentBestAsk (order_price order) then
        let fillPrice := Qmin currentBestAsk (order_price order) in
        let cost := fillPrice * order_size order in
        let g := with_cash (paperCash g - cost) g in
        let g :=
          match paperPositions g !! tokenId with
          | Some existing =>
              let totalShares := pos_shares existing + order_size order in
              let avgPrice :=
                ((pos_entryPrice existing * pos_shares existing)
                 + (fillPrice * order_size order)) / totalShares in
              with_positions
                (<[tokenId := mkPosition (order_tokenId order) totalShares avgPrice now]>
                   (paperPositions g)) g
          | None =>
              with_positions
                (<[tokenId := mkPosition (order_tokenId order) (order_size order) fillPrice now]>
                   (paperPositions g)) g
          end in
        let g := with_filled (filledPaperOrders g ∪ {[orderId]}) g in
        let g := with_orders (JSMap.delete orderId (paperOrders g)) g in
        (g, paperPositions g !! tokenId)
      else if bool_decide (order_side order = SELL)
              && JS.gtb currentBestBid 0
              && JS.geb currentBestBid (order_price order) then
        let fillPrice := Qmax currentBestBid (order_price order) in
        let proceeds := fillPrice * order_size order in
        let g := with_cash (paperCash g + proceeds) g in
        let g :=
          match paperPositions g !! tokenId with
          | Some position =>
              if JS.leb (pos_shares position) (order_size order)
              then with_positions (delete tokenId (paperPositions g)) g
              else with_positions
                     (<[tokenId := mkPosition (pos_tokenId position)
                                     (pos_shares position - order_size order)
                                     (pos_entryPrice position)
                                     (pos_entryTime position)]> (paperPositions g)) g
          | None => g
          end in
        let g := with_filled (filledPaperOrders g ∪ {[orderId]}) g in
        let g := with_orders (JSMap.delete orderId (paperOrders g)) g in
        (g, paperPositions g !! tokenId)
      else
        checkPaperFills_loop tokenId currentBestAsk currentBestBid now rest g
  end.

(** [checkPaperFills(tokenId, currentBestAsk, currentBestBid)]. *)
Definition checkPaperFills (tokenId : string) (currentBestAsk currentBestBid : Q)
    (now : Z) (g : ExecutionGateway) : ExecutionGateway * option Position :=
  checkPaperFills_loop tokenId currentBestAsk currentBestBid now (paperOrders g) g.

(** [isOrderFilled(orderId)], [getPaperCash()], [clearAllState()]. *)
Definition isOrderFilled (orderId : string) (g : ExecutionGateway) : bool :=
  bool_decide (orderId ∈ filledPaperOrders g).

Definition getPaperCash (g : ExecutionGateway) : Q := paperCash g.

Definition clearAllState (g : ExecutionGateway) : ExecutionGateway :=
  mkGateway (paperCash g) ∅ [] ∅ (paperOrderCounter g) false.


(** ** Configuration *)

(** The numeric settings of [BotConfig] that the strategy reads. *)
Record Config := mkConfig {
  BANKROLL : Q;
  TRADE_SIZE_PCT : Q;
  MIN_ORDER_SIZE : Q;
  MIN_ENTRY_PRICE : Q;
  MAX_ENTRY_PRICE : Q;
  MAX_ALLOWED_SPREAD : Q;
  FIXED_PROFIT_TARGET : Q;
  FIXED_STOP_LOSS : Q;
  BREAKEVEN_TRIGGER : Q;
  STABILITY_TICKS_REQUIRED : Z;
  MIN_COOLDOWN_MS : Z;
  MIN_TRADE_INTERVAL_MS : Z;
  SESSION_PROFIT_TARGET : Q;
  SESSION_LOSS_LIMIT : Q;
  TREND_LOOKBACK_TICKS : Z
}.

(** The fallback defaults of [loadConfig] for those settings. *)
Definition defaultConfig : Config :=
  {| BANKROLL := 20;
     TRADE_SIZE_PCT := 10 # 100;
     MIN_ORDER_SIZE := 1;
     MIN_ENTRY_PRICE := 65 # 100;
     MAX_ENTRY_PRICE := 85 # 100;
     MAX_ALLOWED_SPREAD := 3 # 100;
     FIXED_PROFIT_TARGET := 2 # 100;
     FIXED_STOP_LOSS := 4 # 100;
     BREAKEVEN_TRIGGER := 15 # 1000;
     STABILITY_TICKS_REQUIRED := 15;
     MIN_COOLDOWN_MS := 15000;
     MIN_TRADE_INTERVAL_MS := 5000;
     SESSION_PROFIT_TARGET := 50 # 100;
     SESSION_LOSS_LIMIT := 40 # 100;
     TREND_LOOKBACK_TICKS := 5 |}.

(** [process.env]: a variable is absent ([None]) or holds a string. *)
Definition Env := string -> option string.

(** [process.env.X || d] on strings: absent and empty both give [d]. *)
Definition env_or (e : Env) (k d : string) : string :=
  match e k with
  | Some v => if bool_decide (v = EmptyString) then d else v
  | None => d
  end.

(** The fields of [BotConfig] that select the mode and that
    [validateConfig] inspects for it; the numeric fields are in [Config]. *)
Record ModeConfig := mkModeConfig {
  PAPER_TRADE : bool;
  HEDGE_ARBITRAGE_MODE : bool;
  SIGNER_PRIVATE_KEY : string;
  PROXY_ADDRESS : string;
  AUTO_DISCOVER_MARKETS : bool
}.

Definition zero_key : string :=
  "0x0000000000000000000000000000000000000000000000000000000000000000".
Definition zero_address : string :=
  "0x0000000000000000000000000000000000000000".

(** [loadConfig()], mode fields. *)
Definition loadConfig (e : Env) : ModeConfig :=
  {| PAPER_TRADE := bool_decide (e "PAPER_TRADE"%string = Some "true"%string);
     HEDGE_ARBITRAGE_MODE := bool_decide (e "HEDGE_ARBITRAGE_MODE"%string = Some "true"%string);
     SIGNER_PRIVATE_KEY := env_or e "SIGNER_PRIVATE_KEY" zero_key;
     PROXY_ADDRESS := env_or e "PROXY_ADDRESS" zero_address;
     AUTO_DISCOVER_MARKETS :=
       negb (bool_decide (e "AUTO_DISCOVER_MARKETS"%string = Some "false"%string)) |}.

(** The errors [validateConfig] collects for the mode: the two live-mode
    credential checks and the hedge-mode check. *)
Definition validateConfig_mode (c : ModeConfig) : list string :=
  (if negb (PAPER_TRADE c) then
     (if bool_decide (SIGNER_PRIVATE_KEY c = zero_key)
      then ["SIGNER_PRIVATE_KEY is required for live trading"%string] else [])
     ++ (if bool_decide (PROXY_ADDRESS c = zero_address)
         then ["PROXY_ADDRESS is required for live trading"%string] else [])
   else [])
  ++ (if HEDGE_ARBITRAGE_MODE c && negb (PAPER_TRADE c)
      then ["HEDGE_ARBITRAGE_MODE is currently supported only in PAPER_TRADE mode"%string]
      else []).

(** ** The quant engine ([src/services/quantEngine.ts]) *)

Record PricePoint := mkPricePoint { pp_price : Q; pp_timestamp : Z }.

Record QuantEngine := mkQuantEngine { qe_priceHistory : list PricePoint }.

Definition MAX_HISTORY_LENGTH : nat := 60.

(** [Array.prototype.shift]: drop the first element. *)
Definition shift {A} (l : list A) : list A := tl l.

(** [updatePrice(price)]. *)
Definition updatePrice (price : Q) (now : Z) (q : QuantEngine) : QuantEngine :=
  let h := qe_priceHistory q ++ [mkPricePoint price now] in
  mkQuantEngine (if (MAX_HISTORY_LENGTH <? length h)%nat then shift h else h).

(** The [for] loop building [changes]: [history[i].price - history[i-1].price]. *)
Fixpoint price_changes (h : list PricePoint) : list Q :=
  match h with
  | a :: ((b :: _) as t) => (pp_price b - pp_price a) :: price_changes t
  | _ => []
  end.

(** [changes.reduce((a, b) => a + b, 0) / changes.length]. *)
Definition meanChange (changes : list Q) : Q :=
  fold_left (fun a b => a + b) changes 0 / inject_Z (Z.of_nat (length changes)).

(** [changes.reduce((a, b) => a + Math.pow(b - meanChange, 2), 0) / changes.length]. *)
Definition variance (changes : list Q) : Q :=
  fold_left (fun a b => a + (b - meanChange changes) ^ 2) changes 0
  / inject_Z (Z.of_nat (length changes)).

(** [(history[last].timestamp - history[0].timestamp) / 1000]. *)
Definition timeSpanSeconds (h : list PricePoint) : Q :=
  match h, last h with
  | first :: _, Some lst => inject_Z (pp_timestamp lst - pp_timestamp first) / 1000
  | _, _ => 0
  end.

(** [timeSpanSeconds > 0 ? (history.length / timeSpanSeconds) * 60 : 60]. *)
Definition ticksPerMinute (h : list PricePoint) : Q :=
  if JS.gtb (timeSpanSeconds h) 0
  then (inject_Z (Z.of_nat (length h)) / timeSpanSeconds h) * 60
  else 60.

(** [getVolatilityPerMinute()]. *)
Definition getVolatilityPerMinute (q : QuantEngine) : R :=
  let h := qe_priceHistory q in
  if (length h <? 5)%nat then 10%R
  else
    let changes := price_changes h in
    let stdDevPerTick := sqrt (Q2R (variance changes)) in
    let volatilityPerMinute := (stdDevPerTick * sqrt (Q2R (ticksPerMinute h)))%R in
    Rmax 5 volatilityPerMinute.

(** ** The strategy ([src/strategies/ExpirationConvergenceStrategy.ts]) *)

Inductive TradeStatus := PENDING | FILLED | CANCELLED.
Inductive ExitType := LIMIT | STOP_LOSS | HOLD_TO_MATURITY | BREAKEVEN.
Inductive TokenType := UP | DOWN.
Inductive LockReason := PROFIT_TARGET | LOSS_LIMIT.

Global Instance TradeStatus_eq_dec : EqDecision TradeStatus.
Proof. solve_decision. Defined.
Global Instance ExitType_eq_dec : EqDecision ExitType.
Proof. solve_decision. Defined.
Global Instance TokenType_eq_dec : EqDecision TokenType.
Proof. solve_decision. Defined.

(** [TradeRecord], with the two properties the strategy attaches to a BUY
    record through [(record as any)]: [fixedStopDist] and
    [breakEvenTriggered] ([None] while the property is absent). *)
Record TradeRecord := mkTradeRecord {
  tr_id : string;
  tr_timestamp : Z;
  tr_marketSlug : string;
  tr_side : OrderSide;
  tr_tokenId : string;
  tr_tokenType : TokenType;
  tr_price : Q;
  tr_size : Q;
  tr_orderId : string;
  tr_status : TradeStatus;
  tr_pairedWith : option string;
  tr_exitType : option ExitType;
  tr_fixedStopDist : option Q;
  tr_breakEvenTriggered : option bool
}.

Definition set_status (st : TradeStatus) (r : TradeRecord) : TradeRecord :=
  mkTradeRecord (tr_id r) (tr_timestamp r) (tr_marketSlug r) (tr_side r) (tr_tokenId r)
    (tr_tokenType r) (tr_price r) (tr_size r) (tr_orderId r) st (tr_pairedWith r)
    (tr_exitType r) (tr_fixedStopDist r) (tr_breakEvenTriggered r).
Definition set_exitType (e : ExitType) (r : TradeRecord) : TradeRecord :=
  mkTradeRecord (tr_id r) (tr_timestamp r) (tr_marketSlug r) (tr_side r) (tr_tokenId r)
    (tr_tokenType r) (tr_price r) (tr_size r) (tr_orderId r) (tr_status r) (tr_pairedWith r)
    (Some e) (tr_fixedStopDist r) (tr_breakEvenTriggered r).
Definition set_fixedStopDist (d : Q) (r : TradeRecord) : TradeRecord :=
  mkTradeRecord (tr_id r) (tr_timestamp r) (tr_marketSlug r) (tr_side r) (tr_tokenId r)
    (tr_tokenType r) (tr_price r) (tr_size r) (tr_orderId r) (tr_status r) (tr_pairedWith r)
    (tr_exitType r) (Some d) (tr_breakEvenTriggered r).
Definition set_breakEvenTriggered (b : bool) (r : TradeRecord) : TradeRecord :=
  mkTradeRecord (tr_id r) (tr_timestamp r) (tr_marketSlug r) (tr_side r) (tr_tokenId r)
    (tr_tokenType r) (tr_price r) (tr_size r) (tr_orderId r) (tr_status r) (tr_pairedWith r)
    (tr_exitType r) (tr_fixedStopDist r) (Some b).

Record CircuitBreakerState := mkCircuitBreaker {
  isCoolingDown : bool;
  crashLowPrice : Q;
  stabilityCounter : Z;
  lastStopLossTime : Z;
  crashTokenId : string;
  lastTradeTime : Z
}.

Record SessionState := mkSessionState {
  sessionPnL : Q;
  sessionStartTime : Z;
  isSessionLocked : bool;
  lockReason : option LockReason;
  tradesThisSession : Z
}.

Record PriceHistoryBuffer := mkPriceHistory {
  upBids : list Q;
  downBids : list Q;
  maxSize : Z
}.

Record OrderBookData := mkOrderBook { bestAsk : Q; bestBid : Q }.

(** [orderBookService.getOrderBook(tokenId)]: [None] when the call throws. *)
Definition Books := string -> option OrderBookData.

Record MarketConfig := mkMarket {
  eventSlug : string;
  upTokenId : string;
  downTokenId : string
}.

Record Prices := mkPrices { upAsk : Q; upBid : Q; downAsk : Q; downBid : Q }.

(** The fields of [ExpirationConvergenceStrategy].

    [tradeRecords] is the [Map] from record id to record object, in insertion
    order.  [activePositions] maps a BUY record's id to the very object that
    [tradeRecords] holds under that id (both maps are filled with the same
    object and are only ever cleared together), so it is modelled by its keys,
    in insertion order; the object is read from, and mutated in,
    [tradeRecords]. *)
Record Strategy := mkStrategy {
  executionGateway : ExecutionGateway;
  quantEngine : QuantEngine;
  tradeRecords : list (string * TradeRecord);
  activePositions : list string;
  orderCounter : nat;
  isTradingLocked : bool;
  circuitBreaker : CircuitBreakerState;
  sessionState : SessionState;
  priceHistory : PriceHistoryBuffer
}.

Definition with_gateway (g : ExecutionGateway) (s : Strategy) : Strategy :=
  mkStrategy g (quantEngine s) (tradeRecords s) (activePositions s) (orderCounter s)
    (isTradingLocked s) (circuitBreaker s) (sessionState s) (priceHistory s).
Definition with_quantEngine (q : QuantEngine) (s : Strategy) : Strategy :=
  mkStrategy (executionGateway s) q (tradeRecords s) (activePositions s) (orderCounter s)
    (isTradingLocked s) (circuitBreaker s) (sessionState s) (priceHistory s).
Definition with_records (r : list (string * TradeRecord)) (s : Strategy) : Strategy :=
  mkStrategy (executionGateway s) (quantEngine s) r (activePositions s) (orderCounter s)
    (isTradingLocked s) (circuitBreaker s) (sessionState s) (priceHistory s).
Definition with_active (a : list string) (s : Strategy) : Strategy :=
  mkStrategy (executionGateway s) (quantEngine s) (tradeRecords s) a (orderCounter s)
    (isTradingLocked s) (circuitBreaker s) (sessionState s) (priceHistory s).
Definition with_orderCounter (n : nat) (s : Strategy) : Strategy :=
  mkStrategy (executionGateway s) (quantEngine s) (tradeRecords s) (activePositions s) n
    (isTradingLocked s) (circuitBreaker s) (sessionState s) (priceHistory s).
Definition with_lock (b : bool) (s : Strategy) : Strategy :=
  mkStrategy (executionGateway s) (quantEngine s) (tradeRecords s) (activePositions s)
    (orderCounter s) b (circuitBreaker s) (sessionState s) (priceHistory s).
Definition with_breaker (c : CircuitBreakerState) (s : Strategy) : Strategy :=
  mkStrategy (executionGateway s) (quantEngine s) (tradeRecords s) (activePositions s)
    (orderCounter s) (isTradingLocked s) c (sessionState s) (priceHistory s).
Definition with_session (x : SessionState) (s : Strategy) : Strategy :=
  mkStrategy (executionGateway s) (quantEngine s) (tradeRecords s) (activePositions s)
    (orderCounter s) (isTradingLocked s) (circuitBreaker s) x (priceHistory s).
Definition with_priceHistory (p : PriceHistoryBuffer) (s : Strategy) : Strategy :=
  mkStrategy (executionGateway s) (quantEngine s) (tradeRecords s) (activePositions s)
    (orderCounter s) (isTradingLocked s) (circuitBreaker s) (sessionState s) p.

(** The field initialisers of the class. *)
Definition initialCircuitBreaker : CircuitBreakerState :=
  mkCircuitBreaker false 0 0 0 "" 0.
Definition initialSessionState (now : Z) : SessionState :=
  mkSessionState 0 now false None 0.
Definition initialPriceHistory (cfg : Config) : PriceHistoryBuffer :=
  mkPriceHistory [] [] (TREND_LOOKBACK_TICKS cfg).

(** [new ExpirationConvergenceStrategy(executionGateway, orderBookService)]. *)
Definition newStrategy (cfg : Config) (now : Z) (g : ExecutionGateway) : Strategy :=
  mkStrategy g (mkQuantEngine []) [] [] 0 false initialCircuitBreaker
    (initialSessionState now) (initialPriceHistory cfg).

(** [activePositions.set(id, record)] and [activePositions.delete(id)] on the keys. *)
Definition active_set (id : string) (a : list string) : list string :=
  if bool_decide (id ∈ a) then a else a ++ [id].
Definition active_delete (id : string) (a : list string) : list string :=
  filter (fun k => k ≠ id) a.

(** In-place mutation of the record object stored under [id]. *)
Fixpoint mutate (id : string) (f : TradeRecord -> TradeRecord)
    (m : list (string * TradeRecord)) : list (string * TradeRecord) :=
  match m with
  | [] => []
  | (k, r) :: m' => if bool_decide (k = id) then (k, f r) :: m' else (k, r) :: mutate id f m'
  end.

Section WithConfig.
Variable cfg : Config.

(** [isInKillZone(upAsk, upBid, downAsk, downBid)]. *)
Definition isInKillZone (p : Prices) : bool :=
  let upPrice := if JS.gtb (upAsk p) 0 then upAsk p else upBid p in
  let downPrice := if JS.gtb (downAsk p) 0 then downAsk p else downBid p in
  let upInSafeZone :=
    JS.geb upPrice (MIN_ENTRY_PRICE cfg) && JS.leb upPrice (MAX_ENTRY_PRICE cfg) in
  let downInSafeZone :=
    JS.geb downPrice (MIN_ENTRY_PRICE cfg) && JS.leb downPrice (MAX_ENTRY_PRICE cfg) in
  negb upInSafeZone && negb downInSafeZone.

(** [updateSessionPnL(pnlChange)]. *)
Definition updateSessionPnL (pnlChange : Q) (x : SessionState) : SessionState :=
  let pnl := sessionPnL x + pnlChange in
  let x := mkSessionState pnl (sessionStartTime x) (isSessionLocked x) (lockReason x)
             (tradesThisSession x + 1) in
  let x := if JS.geb pnl (SESSION_PROFIT_TARGET cfg)
           then mkSessionState pnl (sessionStartTime x) true (Some PROFIT_TARGET)
                  (tradesThisSession x)
           else x in
  if JS.leb pnl (- SESSION_LOSS_LIMIT cfg)
  then mkSessionState pnl (sessionStartTime x) true (Some LOSS_LIMIT) (tradesThisSession x)
  else x.

(** One ring of [updatePriceHistory]: push, then [shift] when over [maxSize]. *)
Definition push_bounded (maxSize : Z) (x : Q) (l : list Q) : list Q :=
  let l := l ++ [x] in
  if (maxSize <? Z.of_nat (length l))%Z then shift l else l.

(** [updatePriceHistory(upBid, downBid)]. *)
Definition updatePriceHistory (upBid downBid : Q) (p : PriceHistoryBuffer)
    : PriceHistoryBuffer :=
  let ups := if JS.gtb upBid 0 then push_bounded (maxSize p) upBid (upBids p) else upBids p in
  let downs :=
    if JS.gtb downBid 0 then push_bounded (maxSize p) downBid (downBids p) else downBids p in
  mkPriceHistory ups downs (maxSize p).

(** [checkCircuitBreaker(currentBid)]: the new breaker state and the
    returned flag ([true]: skip trading this tick). *)
Definition checkCircuitBreaker (now : Z) (currentBid : Q) (c : CircuitBreakerState)
    : CircuitBreakerState * bool :=
  if negb (isCoolingDown c) then (c, false)
  else
    let timeSinceStopLoss := (now - lastStopLossTime c)%Z in
    if (timeSinceStopLoss <? MIN_COOLDOWN_MS cfg)%Z then
      if JS.ltb currentBid (crashLowPrice c) && JS.gtb currentBid 0 then
        (mkCircuitBreaker (isCoolingDown c) currentBid 0 (lastStopLossTime c)
           (crashTokenId c) (lastTradeTime c), true)
      else if JS.gtb currentBid (crashLowPrice c) then
        (mkCircuitBreaker (isCoolingDown c) (crashLowPrice c) (stabilityCounter c + 1)
           (lastStopLossTime c) (crashTokenId c) (lastTradeTime c), true)
      else (c, true)
    else if JS.ltb currentBid (crashLowPrice c) && JS.gtb currentBid 0 then
      (mkCircuitBreaker (isCoolingDown c) currentBid 0 (lastStopLossTime c)
         (crashTokenId c) (lastTradeTime c), true)
    else
      let c :=
        if JS.gtb currentBid (crashLowPrice c)
        then mkCircuitBreaker (isCoolingDown c) (crashLowPrice c) (stabilityCounter c + 1)
               (lastStopLossTime c) (crashTokenId c) (lastTradeTime c)
        else c in
      if (STABILITY_TICKS_REQUIRED cfg <=? stabilityCounter c)%Z then
        (mkCircuitBreaker false 0 0 (lastStopLossTime c) "" (lastTradeTime c), false)
      else (c, true).

(** [triggerCircuitBreaker(tokenId, crashPrice)]. *)
Definition triggerCircuitBreaker (tokenId : string) (crashPrice : Q) (now : Z)
    (c : CircuitBreakerState) : CircuitBreakerState :=
  mkCircuitBreaker true crashPrice 0 now tokenId (lastTradeTime c).

(** [records.find(r => r.pairedWith === id && r.status === st)]. *)
Definition find_paired (id : string) (st : TradeStatus) (records : list TradeRecord)
    : option TradeRecord :=
  List.find (fun r => bool_decide (tr_pairedWith r = Some id)
                      && bool_decide (tr_status r = st)) records.

(** [hasPendingTrades()]. *)
Definition hasPendingTrades (s : Strategy) : bool :=
  if isTradingLocked s then true
  else
    let records := JSMap.values (tradeRecords s) in
    let buyOrders :=
      List.filter (fun r => bool_decide (tr_side r = BUY)
                            && bool_decide (tr_status r = FILLED)) records in
    if existsb
         (fun buy =>
            match find_paired (tr_id buy) FILLED records with
            | Some _ => false
            | None =>
                match find_paired (tr_id buy) PENDING records with
                | Some _ => true
                | None => bool_decide (tr_id buy ∈ activePositions s)
                end
            end) buyOrders
    then true
    else if (0 <? length (activePositions s))%nat then true
    else
      let availableCash := getPaperCash (executionGateway s) in
      let minTradeAmount := availableCash * (10 # 100) in
      if JS.ltb availableCash minTradeAmount then true else false.

(** The result of [shouldEnterTrade]: [shouldTrade] and [direction]. *)
Record EntryDecision := mkDecision { shouldTrade : bool; direction : option TokenType }.

Definition reject : EntryDecision := mkDecision false None.

(** [shouldEnterTrade(spotPrice, strikePrice, timeRemainingSeconds, currentPrices?)]. *)
Definition shouldEnterTrade (spotPrice strikePrice timeRemainingSeconds : Q)
    (currentPrices : option Prices) (now : Z) (s : Strategy) : Strategy * EntryDecision :=
  if isSessionLocked (sessionState s) then (s, reject)
  else
    let distance := spotPrice - strikePrice in
    let dir := if JS.gtb distance 0 then UP else DOWN in
    let s1 := match currentPrices with
              | Some p => with_priceHistory
                            (updatePriceHistory (upBid p) (downBid p) (priceHistory s)) s
              | None => s
              end in
    let price_rejected :=
      match currentPrices with
      | Some p =>
          let currentAsk := match dir with UP => upAsk p | DOWN => downAsk p end in
          (JS.gtb currentAsk 0 && JS.ltb currentAsk (MIN_ENTRY_PRICE cfg))
          || (JS.gtb currentAsk 0 && JS.gtb currentAsk (MAX_ENTRY_PRICE cfg))
      | None => false
      end in
    if price_rejected then (s1, reject)
    else
      let s2 := with_quantEngine (updatePrice spotPrice now (quantEngine s1)) s1 in
      if isCoolingDown (circuitBreaker s2) then (s2, reject)
      else
        let timeSinceLastTrade := (now - lastTradeTime (circuitBreaker s2))%Z in
        if (0 <? lastTradeTime (circuitBreaker s2))%Z
           && (timeSinceLastTrade <? MIN_TRADE_INTERVAL_MS cfg)%Z
        then (s2, reject)
        else if hasPendingTrades s2 then (s2, reject)
        else if JS.leb timeRemainingSeconds 150 then (s2, reject)
        else (s2, mkDecision true (Some dir)).

(** [`trade_${this.orderCounter++}`]. *)
Definition next_trade_id (s : Strategy) : string :=
  ("trade_" +:+ JS.show_nat (orderCounter s))%string.

(** [executeTrade(marketInfo, spotPrice, strikePrice, direction)]: the result
    is [None] for [null], otherwise the pair of order ids. *)
Definition executeTrade (marketInfo : MarketConfig) (dir : TokenType) (books : Books)
    (now : Z) (s : Strategy) : Strategy * option (string * string) :=
  if hasPendingTrades s then (s, None)
  else if isCoolingDown (circuitBreaker s) then (s, None)
  else
    let s := with_lock true s in
    let tokenId := match dir with UP => upTokenId marketInfo | DOWN => downTokenId marketInfo end in
    match books tokenId with
    | None => (with_lock false s, None)
    | Some orderBook =>
        let buyPrice := bestAsk orderBook in
        let currentBid := bestBid orderBook in
        let spread := buyPrice - currentBid in
        if JS.leb buyPrice 0 then (with_lock false s, None)
        else if JS.gtb spread (MAX_ALLOWED_SPREAD cfg) then (with_lock false s, None)
        else
          let fixedProfitTarget := FIXED_PROFIT_TARGET cfg in
          let fixedStopLoss := FIXED_STOP_LOSS cfg in
          let availableCash := getPaperCash (executionGateway s) in
          let tradeAmount := availableCash * TRADE_SIZE_PCT cfg in
          if JS.ltb tradeAmount (MIN_ORDER_SIZE cfg)
             && negb (JS.geb availableCash (MIN_ORDER_SIZE cfg))
          then (with_lock false s, None)
          else
            let tradeAmount :=
              if JS.ltb tradeAmount (MIN_ORDER_SIZE cfg) then MIN_ORDER_SIZE cfg
              else tradeAmount in
            let buySize := tradeAmount / buyPrice in
            let roundedBuyPrice := JS.round4 buyPrice in
            let roundedBuySize := JS.round4 buySize in
            let finalBuyAmount := roundedBuyPrice * roundedBuySize in
            let shouldPlaceSell := JS.ltb buyPrice (99 # 100) in
            let sellPrice := JS.round4 (roundedBuyPrice + fixedProfitTarget) in
            let cappedSellPrice := Qmin sellPrice (99 # 100) in
            match placeFOKOrder tokenId BUY finalBuyAmount (Some roundedBuyPrice) now
                    (executionGateway s) with
            | (g, inl _) => (with_lock false (with_gateway g s), None)
            | (g, inr buyOrderId) =>
                let s := with_gateway g s in
                if negb (JS.truthy_str buyOrderId) then (with_lock false s, None)
                else
                  let c := circuitBreaker s in
                  let s := with_breaker
                             (mkCircuitBreaker (isCoolingDown c) (crashLowPrice c)
                                (stabilityCounter c) (lastStopLossTime c) (crashTokenId c) now) s in
                  let buyId := next_trade_id s in
                  let s := with_orderCounter (S (orderCounter s)) s in
                  let buyRecord :=
                    mkTradeRecord buyId now (eventSlug marketInfo) BUY tokenId dir
                      roundedBuyPrice roundedBuySize buyOrderId FILLED None None
                      (Some fixedStopLoss) None in
                  let s := with_records (JSMap.set buyId buyRecord (tradeRecords s)) s in
                  let s := with_active (active_set buyId (activePositions s)) s in
                  if shouldPlaceSell then
                    let '(g, sellOrderId) :=
                      placePaperOrder tokenId SELL cappedSellPrice roundedBuySize now
                        (executionGateway s) in
                    let s := with_gateway g s in
                    let sellId := next_trade_id s in
                    let s := with_orderCounter (S (orderCounter s)) s in
                    let sellRecord :=
                      mkTradeRecord sellId now (eventSlug marketInfo) SELL tokenId dir
                        cappedSellPrice roundedBuySize
                        (if JS.truthy_str sellOrderId then sellOrderId
                         else ("sell_pending_" +:+ JS.show_Z now)%string)
                        (if JS.truthy_str sellOrderId then PENDING else CANCELLED)
                        (Some buyId) (Some LIMIT) None None in
                    let s := with_records (JSMap.set sellId sellRecord (tradeRecords s)) s in
                    (s, Some (buyOrderId, sellOrderId))
                  else
                    (with_lock false s, Some (buyOrderId, ""%string))
            end
    end.

(** The [let stopDistance] block of the monitor: the stored
    [fixedStopDist] when that property is truthy, else the configured stop. *)
Definition stored_stopDistance (activePosition : TradeRecord) : Q :=
  if JS.truthy_num (tr_fixedStopDist activePosition)
  then default 0 (tr_fixedStopDist activePosition)
  else FIXED_STOP_LOSS cfg.

(** [(activePosition as any).breakEvenTriggered || false]. *)
Definition read_breakEvenTriggered (activePosition : TradeRecord) : bool :=
  default false (tr_breakEvenTriggered activePosition).

(** [tradeRecords.values().find(r => r.pairedWith === id && r.side === 'SELL'
    && r.status === 'PENDING')]. *)
Definition find_pendingSell (id : string) (records : list TradeRecord) : option TradeRecord :=
  List.find (fun r => bool_decide (tr_pairedWith r = Some id)
                      && bool_decide (tr_side r = SELL)
                      && bool_decide (tr_status r = PENDING)) records.

(** The stop price the monitor compares the bid with, for the record as it
    is stored and the bid observed: [entryPrice - stopDistance] after the
    breakeven block has run. *)
Definition stopLossPrice (activePosition : TradeRecord) (currentBid : Q) : Q :=
  let entryPrice := tr_price activePosition in
  let currentProfit := currentBid - entryPrice in
  let stopDistance :=
    if negb (read_breakEvenTriggered activePosition)
       && JS.geb currentProfit (BREAKEVEN_TRIGGER cfg)
    then 0
    else stored_stopDistance activePosition in
  entryPrice - stopDistance.

(** The stop-loss branch of the monitor ([if (currentBid > 0 && currentBid <
    stopLossPrice)]) for the position stored under [id]. *)
Definition exitPosition (id : string) (activePosition : TradeRecord)
    (breakEvenTriggered : bool) (currentBid : Q) (now : Z) (s : Strategy) : Strategy :=
  let entryPrice := tr_price activePosition in
  let isBreakeven := breakEvenTriggered && JS.geb currentBid (entryPrice - (5 # 1000)) in
  let s :=
    match find_pendingSell id (JSMap.values (tradeRecords s)) with
    | Some pendingSell =>
        let '(g, _) := cancelPaperOrder (tr_orderId pendingSell) (executionGateway s) in
        with_records (mutate (tr_id pendingSell) (set_status CANCELLED) (tradeRecords s))
          (with_gateway g s)
    | None => s
    end in
  let exitPrice := Qmax (1 # 100) (currentBid - (2 # 100)) in
  let exitSize := tr_size activePosition in
  let '(g, sold) :=
    executePaperFAK (tr_tokenId activePosition) SELL exitPrice exitSize now
      (executionGateway s) in
  let s := with_gateway g s in
  let s :=
    if sold then
      let recId := next_trade_id s in
      let s := with_orderCounter (S (orderCounter s)) s in
      let stopLossRecord :=
        mkTradeRecord recId now (tr_marketSlug activePosition) SELL
          (tr_tokenId activePosition) (tr_tokenType activePosition) exitPrice exitSize
          ((if isBreakeven then "BREAKEVEN" else "STOP_LOSS") +:+ "_" +:+ JS.show_Z now)%string
          FILLED (Some id) (Some (if isBreakeven then BREAKEVEN else STOP_LOSS)) None None in
      let s := with_records (JSMap.set recId stopLossRecord (tradeRecords s)) s in
      let s := with_active (active_delete id (activePositions s)) s in
      let pnl := (exitPrice - entryPrice) * exitSize in
      let s := with_session (updateSessionPnL pnl (sessionState s)) s in
      if negb isBreakeven
      then with_breaker
             (triggerCircuitBreaker (tr_tokenId activePosition) currentBid now
                (circuitBreaker s)) s
      else s
    else s in
  with_lock false s.

(** One iteration of the monitor's [for (const activePosition of
    activePositionsList)], for the position stored under [id]. *)
Definition monitorPosition (timeRemainingSeconds : option Q) (books : Books) (now : Z)
    (id : string) (s : Strategy) : Strategy :=
  match JSMap.get id (tradeRecords s) with
  | None => s
  | Some activePosition =>
      match books (tr_tokenId activePosition) with
      | None => s
      | Some orderBook =>
          let currentBid := bestBid orderBook in
          let entryPrice := tr_price activePosition in
          let currentProfit := currentBid - entryPrice in
          let breakEvenTriggered := read_breakEvenTriggered activePosition in
          let stop := stopLossPrice activePosition currentBid in
          let s :=
            if negb breakEvenTriggered && JS.geb currentProfit (BREAKEVEN_TRIGGER cfg)
            then with_records
                   (mutate id (fun r => set_fixedStopDist 0 (set_breakEvenTriggered true r))
                      (tradeRecords s)) s
            else s in
          if JS.gtb currentBid 0 && JS.ltb currentBid stop then
            exitPosition id activePosition breakEvenTriggered currentBid now s
          else
            match timeRemainingSeconds with
            | Some t =>
                if JS.ltb t 45 && JS.gtb currentBid (94 # 100) then
                  match find_pendingSell id (JSMap.values (tradeRecords s)) with
                  | Some pendingSell =>
                      let '(g, _) :=
                        cancelPaperOrder (tr_orderId pendingSell) (executionGateway s) in
                      with_lock false
                        (with_records
                           (mutate (tr_id pendingSell)
                              (fun r => set_exitType HOLD_TO_MATURITY (set_status CANCELLED r))
                              (tradeRecords s))
                           (with_gateway g s))
                  | None => s
                  end
                else s
            | None => s
            end
      end
  end.

(** One iteration of the final [for (const [tradeId, record] of
    tradeRecords.entries())], for the record stored under [tradeId]. *)
Definition syncRecord (tradeId : string) (s : Strategy) : Strategy :=
  match JSMap.get tradeId (tradeRecords s) with
  | None => s
  | Some record =>
      if bool_decide (tr_status record = PENDING)
         && isOrderFilled (tr_orderId record) (executionGateway s) then
        let s := with_records (mutate tradeId (set_status FILLED) (tradeRecords s)) s in
        match tr_side record with
        | BUY => with_active (active_set (tr_id record) (activePositions s)) s
        | SELL =>
            let s :=
              match tr_pairedWith record with
              | Some buyId =>
                  let s :=
                    match JSMap.get buyId (tradeRecords s) with
                    | Some buyOrder =>
                        let pnl := (tr_price record - tr_price buyOrder) * tr_size record in
                        with_session (updateSessionPnL pnl (sessionState s)) s
                    | None => s
                    end in
                  with_active (active_delete buyId (activePositions s)) s
              | None => s
              end in
            with_lock false s
        end
      else s
  end.

(** [updateOrderStatus(timeRemainingSeconds?)]. *)
Definition updateOrderStatus (timeRemainingSeconds : option Q) (books : Books) (now : Z)
    (s : Strategy) : Strategy :=
  let s :=
    if isCoolingDown (circuitBreaker s) && JS.truthy_str (crashTokenId (circuitBreaker s))
    then match books (crashTokenId (circuitBreaker s)) with
         | Some orderBook =>
             with_breaker (fst (checkCircuitBreaker now (bestBid orderBook) (circuitBreaker s))) s
         | None => s
         end
    else s in
  let activePositionsList := activePositions s in
  if (length activePositionsList =? 0)%nat then s
  else
    let s := fold_left (fun s id => monitorPosition timeRemainingSeconds books now id s)
               activePositionsList s in
    fold_left (fun s tradeId => syncRecord tradeId s) (JSMap.keys (tradeRecords s)) s.

(** [resetForNewMarket()]; its last statement calls the gateway's
    [clearAllState()]. *)
Definition resetForNewMarket (now : Z) (s : Strategy) : Strategy :=
  mkStrategy (clearAllState (executionGateway s)) (quantEngine s) [] [] (orderCounter s)
    false initialCircuitBreaker (initialSessionState now) (initialPriceHistory cfg).

(** A market rotation as the specification words it: [resetForNewMarket()]
    followed by the gateway's [clearAllState()].  (The bot's tick calls
    [resetForNewMarket()], which already ends with [clearAllState()].) *)
Definition rotate (now : Z) (s : Strategy) : Strategy :=
  let s := resetForNewMarket now s in
  with_gateway (clearAllState (executionGateway s)) s.

End WithConfig.

(** ** The main tick ([TradingBot.tick])

    The part of a tick that follows the market, spot and book look-ups: the
    paper fill checks on both tokens, [updateOrderStatus], the safe-zone
    filter, [shouldEnterTrade] and, when accepted, [executeTrade]. *)
Definition mainTick (cfg : Config) (marketInfo : MarketConfig)
    (spotPrice effectiveStrikePrice : Q) (prices : option Prices)
    (timeRemainingSeconds : Q) (books : Books) (now : Z) (s : Strategy) : Strategy :=
  let s :=
    match prices with
    | Some p =>
        let s :=
          if JS.gtb (upAsk p) 0 || JS.gtb (upBid p) 0
          then with_gateway
                 (fst (checkPaperFills (upTokenId marketInfo) (upAsk p) (upBid p) now
                         (executionGateway s))) s
          else s in
        if JS.gtb (downAsk p) 0 || JS.gtb (downBid p) 0
        then with_gateway
               (fst (checkPaperFills (downTokenId marketInfo) (downAsk p) (downBid p) now
                       (executionGateway s))) s
        else s
    | None => s
    end in
  let s := updateOrderStatus cfg (Some timeRemainingSeconds) books now s in
  let killZoneActive :=
    match prices with
    | Some p => isInKillZone cfg p
    | None => false
    end in
  let '(s, strategyCheck) :=
    shouldEnterTrade cfg spotPrice effectiveStrikePrice timeRemainingSeconds prices now s in
  let shouldTradeFinal := shouldTrade strategyCheck && negb killZoneActive in
  match shouldTradeFinal, direction strategyCheck with
  | true, Some dir => fst (executeTrade cfg marketInfo dir books now s)
  | _, _ => s
  end.

(** ** Vocabulary of the properties *)

(** The fill rule in the specification's words: a BUY fills iff
    [best_ask > 0] and [best_ask <= limit], a SELL iff [best_bid > 0] and
    [best_bid >= limit]. *)
Definition fill_condition (ask bid : Q) (order : Order) : Prop :=
  match order_side order with
  | BUY => 0 < ask /\ ask <= order_price order
  | SELL => 0 < bid /\ order_price order <= bid
  end.

(** The price the specification gives the fill: [min(best_ask, limit)] for a
    BUY, [max(best_bid, limit)] for a SELL. *)
Definition fill_price (ask bid : Q) (order : Order) : Q :=
  match order_side order with
  | BUY => Qmin ask (order_price order)
  | SELL => Qmax bid (order_price order)
  end.

(** The cash after a fill of [order] at price [p]: down by [p * size] for a
    BUY, up by it for a SELL. *)
Definition cash_after_fill (order : Order) (p : Q) (cash : Q) : Q :=
  match order_side order with
  | BUY => cash - p * order_size order
  | SELL => cash + p * order_size order
  end.



(** Every key of the open-order map was issued by [placePaperOrder]. *)
Definition open_ids_issued (g : ExecutionGateway) : Prop :=
  forall k, k ∈ JSMap.keys (paperOrders g) ->
    exists n : nat, k = ("PAPER_" +:+ JS.show_nat n)%string.

(** The calls a client can make on the paper gateway. *)
Inductive gateway_step : ExecutionGateway -> ExecutionGateway -> Prop :=
| gs_placeLimit tokenId side price size now g :
    gateway_step g (fst (placePaperOrder tokenId side price size now g))
| gs_placeFOK tokenId side amount price now g :
    gateway_step g (fst (placeFOKOrder tokenId side amount price now g))
| gs_cancel orderId g :
    gateway_step g (fst (cancelPaperOrder orderId g))
| gs_executeFAK tokenId side price size now g :
    gateway_step g (fst (executePaperFAK tokenId side price size now g))
| gs_checkFills tokenId ask bid now g :
    gateway_step g (fst (checkPaperFills tokenId ask bid now g))
| gs_clear g :
    gateway_step g (clearAllState g).

(** The states the paper gateway can reach from a fresh one. *)
Inductive gateway_reachable (bankroll : Q) : ExecutionGateway -> Prop :=
| gr_new : gateway_reachable bankroll (newGateway bankroll)
| gr_step g g' :
    gateway_reachable bankroll g -> gateway_step g g' -> gateway_reachable bankroll g'.

Definition ex_gateway_one_buy : ExecutionGateway :=
  fst (placePaperOrder "T" BUY (1 # 2) 2 0 (newGateway 20)).

(** The test the loop of [checkPaperFills] applies to an entry of the
    open-order map before filling it. *)
Definition fillableb (tokenId : string) (ask bid : Q) (filled : gset string)
    (e : string * Order) : bool :=
  bool_decide (order_tokenId e.2 = tokenId)
  && negb (bool_decide (e.1 ∈ filled))
  && ((bool_decide (order_side e.2 = BUY) && JS.gtb ask 0 && JS.leb ask (order_price e.2))
      || (bool_decide (order_side e.2 = SELL) && JS.gtb bid 0 && JS.geb bid (order_price e.2))).

(** At most one open order id passes that test. *)
Definition at_most_one_fillable (tokenId : string) (ask bid : Q) (g : ExecutionGateway)
    : Prop :=
  forall e1 e2, e1 ∈ paperOrders g -> e2 ∈ paperOrders g ->
    fillableb tokenId ask bid (filledPaperOrders g) e1 = true ->
    fillableb tokenId ask bid (filledPaperOrders g) e2 = true ->
    e1.1 = e2.1.

(** Two resting BUY orders on the same token. *)
Definition ex_gateway_two_buys : ExecutionGateway :=
  fst (placePaperOrder "T" BUY (1 # 2) 2 0
         (fst (placePaperOrder "T" BUY (1 # 2) 2 0 (newGateway 20)))).

(** A resting BUY order whose cost exceeds the bankroll. *)
Definition ex_gateway_big_buy : ExecutionGateway :=
  fst (placePaperOrder "T" BUY (1 # 2) 100 0 (newGateway 20)).

(** A market and the books used in the examples. *)
Definition ex_market : MarketConfig := mkMarket "btc-updown-15m" "UP_TOKEN" "DOWN_TOKEN".

Definition ex_books (ask bid : Q) : Books :=
  fun tokenId =>
    if bool_decide (tokenId = "UP_TOKEN"%string) then Some (mkOrderBook ask bid) else None.

(** Entry at an ask of 0.75 on the UP token, from a fresh strategy with a
    bankroll of 20.00. *)
Definition ex_entered : Strategy :=
  fst (executeTrade defaultConfig ex_market UP (ex_books (75 # 100) (74 # 100)) 1000
         (newStrategy defaultConfig 0 (newGateway 20))).

(** The monitor then sees a bid of 0.765: profit 0.015, the breakeven trigger. *)
Definition ex_triggered : Strategy :=
  updateOrderStatus defaultConfig (Some 400) (ex_books (775 # 1000) (765 # 1000)) 2000
    ex_entered.

(** A fresh strategy whose gateway holds 0.50 in cash. *)
Definition ex_poor : Strategy := newStrategy defaultConfig 0 (newGateway (1 # 2)).

Definition ex_prices : Prices := mkPrices (68 # 100) (66 # 100) (34 # 100) (32 # 100).

(** A strategy that has evaluated one entry decision, and so has fed one
    spot price to its quant engine. *)
Definition ex_sampled : Strategy :=
  fst (shouldEnterTrade defaultConfig 89800 89750 400 (Some ex_prices) 1000
         (newStrategy defaultConfig 0 (newGateway 20))).

(** An environment without any variable, and one that only carries the
    live-mode credentials. *)
Definition env_empty : Env := fun _ => None.
Definition env_credentials : Env :=
  fun k =>
    if bool_decide (k = "SIGNER_PRIVATE_KEY"%string) then Some "0xabc"%string
    else if bool_decide (k = "PROXY_ADDRESS"%string) then Some "0xdef"%string
    else None.

(** The quantities the specification names for the volatility: the first
    differences of the sampled prices, their population standard deviation
    [sqrt (Σ (Δ - μ)² / n)], and the observed span of the samples in seconds. *)
Definition first_differences (prices : list Q) : list Q :=
  zip_with (fun a b => b - a) prices (tl prices).

Fixpoint Qsum (l : list Q) : Q :=
  match l with
  | [] => 0
  | x :: l => x + Qsum l
  end.

Definition pop_mean (l : list Q) : Q := Qsum l / inject_Z (Z.of_nat (length l)).

Definition pop_variance (l : list Q) : Q :=
  Qsum (map (fun x => (x - pop_mean l) ^ 2) l) / inject_Z (Z.of_nat (length l)).

Definition pop_std_dev (l : list Q) : R := sqrt (Q2R (pop_variance l)).

Definition observed_span_seconds (h : list PricePoint) : Q :=
  match h, last h with
  | first :: _, Some lst => inject_Z (pp_timestamp lst - pp_timestamp first) / 1000
  | _, _ => 0
  end.

(** Five samples one second apart, and five samples taken within one
    millisecond. *)
Definition ex_engine_spread : QuantEngine :=
  mkQuantEngine [mkPricePoint 0 0; mkPricePoint 1 1000; mkPricePoint 0 2000;
                 mkPricePoint 1 3000; mkPricePoint 0 4000].
Definition ex_engine_burst : QuantEngine :=
  mkQuantEngine [mkPricePoint 0 7; mkPricePoint 1 7; mkPricePoint 0 7;
                 mkPricePoint 1 7; mkPricePoint 0 7].

(** A FILLED BUY record, and the keys under which the ledger holds one. *)
Definition is_filled_buy (r : TradeRecord) : bool :=
  bool_decide (tr_side r = BUY) && bool_decide (tr_status r = FILLED).

Definition filledBuys (s : Strategy) : list string :=
  map fst (List.filter (fun kr => is_filled_buy kr.2) (tradeRecords s)).

(** No BUY record of the ledger is PENDING. *)
Definition no_pending_buy (records : list (string * TradeRecord)) : Prop :=
  Forall (fun kr => tr_side kr.2 = BUY -> tr_status kr.2 ≠ PENDING) records.

(** The ledger has no PENDING BUY and its FILLED BUY records are among [X]. *)
Definition ledger_ok (X : list string) (records : list (string * TradeRecord)) : Prop :=
  no_pending_buy records
  /\ forall k, k ∈ map fst (List.filter (fun kr => is_filled_buy kr.2) records) -> k ∈ X.

(** What one main tick does to the strategy and to its gateway, call by
    call: the paper fill check, [updateOrderStatus], [shouldEnterTrade] and
    [executeTrade], all at the clock and the books of that tick. *)
Inductive tick_step (cfg : Config) (now : Z) (books : Books) : Strategy -> Strategy -> Prop :=
| ts_checkFills tokenId ask bid s :
    tick_step cfg now books s
      (with_gateway (fst (checkPaperFills tokenId ask bid now (executionGateway s))) s)
| ts_updateOrderStatus timeRemainingSeconds s :
    tick_step cfg now books s (updateOrderStatus cfg timeRemainingSeconds books now s)
| ts_shouldEnterTrade spotPrice strikePrice timeRemainingSeconds currentPrices s :
    tick_step cfg now books s
      (fst (shouldEnterTrade cfg spotPrice strikePrice timeRemainingSeconds currentPrices now s))
| ts_executeTrade marketInfo dir s :
    tick_step cfg now books s (fst (executeTrade cfg marketInfo dir books now s)).

(** The states of the strategy reachable from a fresh one by tick steps and
    market rotations (the emergency exit before a rotation is a FAK on the
    gateway). *)
Inductive reachable (cfg : Config) : Strategy -> Prop :=
| reach_new now bankroll :
    reachable cfg (newStrategy cfg now (newGateway bankroll))
| reach_tick now books s s' :
    reachable cfg s -> tick_step cfg now books s s' -> reachable cfg s'
| reach_emergency tokenId price size now s :
    reachable cfg s ->
    reachable cfg
      (with_gateway (fst (executePaperFAK tokenId SELL price size now (executionGateway s))) s)
| reach_rotate now s :
    reachable cfg s -> reachable cfg (resetForNewMarket cfg now s).

(** The stability gate as the breaker sees it at an observation [bid]: the
    counter, after counting this observation when it is above the crash-low. *)
Definition stability_count (c : CircuitBreakerState) (bid : Q) : Z :=
  (stabilityCounter c + (if JS.gtb bid (crashLowPrice c) then 1 else 0))%Z.


(** The breaker fed a sequence of observations [(now, bid)] of the crashed
    token, as successive calls of [checkCircuitBreaker] do. *)
Definition observe (cfg : Config) (obs : list (Z * Q)) (c : CircuitBreakerState)
    : CircuitBreakerState :=
  fold_left (fun c o => fst (checkCircuitBreaker cfg o.1 o.2 c)) obs c.

(** How many of the observed bids lie above [low]. *)
Definition count_above (low : Q) (obs : list (Z * Q)) : Z :=
  Z.of_nat (length (List.filter (fun o => JS.gtb o.2 low) obs)).

(** * Further code and vocabulary *)

(** ** The gateway's order ids and positions *)

(** An id the gateway has issued while its counter was below [c]. *)
Definition issued_id (c : nat) (k : string) : Prop :=
  exists n : nat, (n < c)%nat
    /\ (k = ("PAPER_" +:+ JS.show_nat n)%string \/ k = ("PAPER_FOK_" +:+ JS.show_nat n)%string).

(** The bookkeeping of order ids: the open-order keys are distinct, none of
    them is in the filled index, and every id in either was issued below the
    current counter. *)
Definition ids_coherent (g : ExecutionGateway) : Prop :=
  NoDup (JSMap.keys (paperOrders g))
  /\ (forall k, k ∈ JSMap.keys (paperOrders g) -> k ∉ filledPaperOrders g)
  /\ (forall k, k ∈ JSMap.keys (paperOrders g) \/ k ∈ filledPaperOrders g ->
        issued_id (paperOrderCounter g) k).

(** Every position holds a positive number of shares; every open order has
    a positive size. *)
Definition positions_positive (g : ExecutionGateway) : Prop :=
  forall tokenId p, paperPositions g !! tokenId = Some p -> 0 < pos_shares p.

Definition orders_positive (g : ExecutionGateway) : Prop :=
  Forall (fun e => 0 < order_size e.2) (paperOrders g).

(** Gateway calls whose sizes are positive. *)
Inductive gateway_step_sized : ExecutionGateway -> ExecutionGateway -> Prop :=
| gss_placeLimit tokenId side price size now g :
    0 < size ->
    gateway_step_sized g (fst (placePaperOrder tokenId side price size now g))
| gss_placeFOK_buy tokenId amount price now g :
    0 < amount -> 0 < JS.num_or price (1 # 2) ->
    gateway_step_sized g (fst (placeFOKOrder tokenId BUY amount price now g))
| gss_placeFOK_sell tokenId amount price now g :
    0 < amount ->
    gateway_step_sized g (fst (placeFOKOrder tokenId SELL amount price now g))
| gss_cancel orderId g :
    gateway_step_sized g (fst (cancelPaperOrder orderId g))
| gss_executeFAK tokenId side price size now g :
    0 < size ->
    gateway_step_sized g (fst (executePaperFAK tokenId side price size now g))
| gss_checkFills tokenId ask bid now g :
    gateway_step_sized g (fst (checkPaperFills tokenId ask bid now g))
| gss_clear g :
    gateway_step_sized g (clearAllState g).

(** An id that was issued and is by now neither open nor filled. *)
Definition retired_id (k : string) (g : ExecutionGateway) : Prop :=
  issued_id (paperOrderCounter g) k
  /\ (k ∉ JSMap.keys (paperOrders g))
  /\ (k ∉ filledPaperOrders g).


(** ** The strategy's paper account *)

(** The emergency exit of a market rotation ([TradingBot.tick]): the held
    position is sold fill-and-kill at the best bid of its token, or at 0.50
    when the book shows no bid.  A failing book look-up is caught. *)
Definition emergencyExit (oldMarketInfo : MarketConfig) (paperPosition : Position)
    (books : Books) (now : Z) (g : ExecutionGateway) : ExecutionGateway :=
  let tokenId :=
    if bool_decide (pos_tokenId paperPosition = upTokenId oldMarketInfo)
    then upTokenId oldMarketInfo else downTokenId oldMarketInfo in
  match books tokenId with
  | Some orderBook =>
      let exitPrice := if JS.gtb (bestBid orderBook) 0 then bestBid orderBook else 1 # 2 in
      let exitSize := pos_shares paperPosition in
      fst (executePaperFAK tokenId SELL exitPrice exitSize now g)
  | None => g
  end.

(** The account is sound: the cash is not negative, every open order is a
    SELL of a non-negative size, and no position holds a negative number of
    shares. *)
Definition account_sound (g : ExecutionGateway) : Prop :=
  0 <= paperCash g
  /\ Forall (fun e => order_side e.2 = SELL /\ 0 <= order_size e.2) (paperOrders g)
  /\ (forall tokenId p, paperPositions g !! tokenId = Some p -> 0 <= pos_shares p).

(** No record of the ledger has a negative size. *)
Definition ledger_sized (records : list (string * TradeRecord)) : Prop :=
  Forall (fun kr => 0 <= tr_size kr.2) records.

(** The states the strategy reaches when it is started on a bankroll that is
    not negative: tick steps, the emergency exit on one of the held
    positions, and market rotations. *)
Inductive traded (cfg : Config) : Strategy -> Prop :=
| traded_new now bankroll :
    0 <= bankroll -> traded cfg (newStrategy cfg now (newGateway bankroll))
| traded_tick now books s s' :
    traded cfg s -> tick_step cfg now books s s' -> traded cfg s'
| traded_emergency oldMarketInfo tokenId paperPosition books now s :
    traded cfg s ->
    paperPositions (executionGateway s) !! tokenId = Some paperPosition ->
    traded cfg
      (with_gateway (emergencyExit oldMarketInfo paperPosition books now (executionGateway s)) s)
| traded_rotate now s :
    traded cfg s -> traded cfg (resetForNewMarket cfg now s).

(** The strategy's books are sound: the gateway's account is, and the ledger
    has no record of a negative size. *)
Definition strategy_sound (s : Strategy) : Prop :=
  account_sound (executionGateway s) /\ ledger_sized (tradeRecords s).

(** ** The quant engine's sample ring and fair value *)

(** The engine after the samples have been fed to [updatePrice], oldest
    first; a sample is the spot price and the time of the call. *)
Definition feed (samples : list PricePoint) (q : QuantEngine) : QuantEngine :=
  fold_left (fun q p => updatePrice (pp_price p) (pp_timestamp p) q) samples q.

(** [hasMinimumHistory()] and [getHistoryLength()]. *)
Definition hasMinimumHistory (q : QuantEngine) : bool :=
  (5 <=? length (qe_priceHistory q))%nat.

Definition getHistoryLength (q : QuantEngine) : nat := length (qe_priceHistory q).

(** [normalCDF(z)], over the reals. *)
Definition normalCDF (z : R) : R :=
  let p := 0.2316419%R in
  let b1 := 0.319381530%R in
  let b2 := (- 0.356563782)%R in
  let b3 := 1.781477937%R in
  let b4 := (- 1.821255978)%R in
  let b5 := 1.330274429%R in
  let t := (1 / (1 + p * Rabs z))%R in
  let t_poly :=
    (1 - (1 / sqrt (2 * PI)) * exp ((- z) * z / 2)
         * (b1 * t + b2 * t ^ 2 + b3 * t ^ 3 + b4 * t ^ 4 + b5 * t ^ 5))%R in
  if Rle_dec 0 z then t_poly else (1 - t_poly)%R.

(** [calculateFairValue(spotPrice, strikePrice, timeRemainingSeconds,
    volatility, direction)], over the reals.  The division by
    [expectedMove] is the real one: the model is that of the code for a
    volatility other than 0 (the engine's own is at least 5). *)
Definition calculateFairValue (spotPrice strikePrice timeRemainingSeconds volatility : R)
    (direction : TokenType) : R :=
  if Rle_dec timeRemainingSeconds 0 then
    let win := match direction with
               | UP => if Rgt_dec spotPrice strikePrice then true else false
               | DOWN => if Rlt_dec spotPrice strikePrice then true else false
               end in
    if win then 1%R else 0%R
  else
    let timeInMinutes := Rmax 0.01 (timeRemainingSeconds / 60) in
    let timeFactor := sqrt timeInMinutes in
    let distance := match direction with
                    | UP => (spotPrice - strikePrice)%R
                    | DOWN => (strikePrice - spotPrice)%R
                    end in
    let expectedMove := (volatility * timeFactor)%R in
    let zScore := (distance / expectedMove)%R in
    normalCDF zScore.

(** Five samples of a price that rises by 2 at every tick. *)
Definition ex_engine_trend : QuantEngine :=
  mkQuantEngine [mkPricePoint 100 0; mkPricePoint 102 1000; mkPricePoint 104 2000;
                 mkPricePoint 106 3000; mkPricePoint 108 4000].

(** ** The trend buffer *)

(** The settings of [BotConfig] read by the trend and risk helpers. *)
Record RiskConfig := mkRiskConfig {
  MIN_TREND_DELTA : Q;
  BASE_RISK_PREMIUM : Q;
  MAX_TOLERABLE_STOP : Q;
  STOP_LOSS_SPREAD_MULTIPLIER : Q;
  MIN_STOP_DISTANCE : Q
}.

(** The defaults of [loadConfig] for them. *)
Definition defaultRiskConfig : RiskConfig :=
  mkRiskConfig (2 # 100) (2 # 100) (10 # 100) (25 # 10) (5 # 100).

(** The buffer after the bids of a series of ticks, oldest first; a tick
    brings the best bid of UP and that of DOWN. *)
Definition observeBids (obs : list (Q * Q)) (p : PriceHistoryBuffer) : PriceHistoryBuffer :=
  fold_left (fun p o => updatePriceHistory o.1 o.2 p) obs p.

(** The result of [checkTrendConfirmation]; [trendDelta] is [None] for NaN
    (an empty buffer read at index 0). *)
Record TrendCheck := mkTrendCheck { confirmed : bool; trendDelta : option Q }.

(** [checkTrendConfirmation(direction)]. *)
Definition checkTrendConfirmation (cfg : Config) (rc : RiskConfig) (direction : TokenType)
    (p : PriceHistoryBuffer) : TrendCheck :=
  let history := match direction with UP => upBids p | DOWN => downBids p end in
  if (Z.of_nat (length history) <? TREND_LOOKBACK_TICKS cfg)%Z then mkTrendCheck false (Some 0)
  else
    match head history, last history with
    | Some oldestPrice, Some currentPrice =>
        let trendDelta := currentPrice - oldestPrice in
        if JS.geb trendDelta (MIN_TREND_DELTA rc) then mkTrendCheck true (Some trendDelta)
        else mkTrendCheck false (Some trendDelta)
    | _, _ => mkTrendCheck false None
    end.

(** The bids of a series that the buffer takes in: the positive ones. *)
Definition positive_bids (bids : list Q) : list Q :=
  List.filter (fun b => JS.gtb b 0) bids.

(** ** The slug oracle ([src/slugOracle.ts]) and the market clock *)

(** The head of [getActiveMarket()]: the 15-minute boundaries around [now]
    (milliseconds), in seconds, and the time stamps of the slugs tried, in the
    order they are tried.  A slug carries the END time of its market. *)
Definition interval : Z := (15 * 60)%Z.
Definition nowSec (now : Z) : Z := (now / 1000)%Z.
Definition currentBoundary (now : Z) : Z := (nowSec now / interval * interval)%Z.
Definition nextBoundary (now : Z) : Z := (currentBoundary now + interval)%Z.
Definition prevBoundary (now : Z) : Z := (currentBoundary now - interval)%Z.

Definition slugsToTry (now : Z) : list Z :=
  [nextBoundary now; currentBoundary now; prevBoundary now; (prevBoundary now - interval)%Z].

(** The 15-minute market that ends at [timestamp] (seconds) is running at
    [now] (milliseconds). *)
Definition window_contains (timestamp now : Z) : Prop :=
  ((timestamp - interval) * 1000 <= now /\ now < timestamp * 1000)%Z.

(** [isMarketExpiring(endDate, thresholdSeconds)], [getTimeRemaining(endDate)]
    (minutes) and [isMarketValid(config)]; dates are in milliseconds and
    [now] is the clock read by [new Date()]. *)
Definition isMarketExpiring (endDate : Z) (thresholdSeconds : Q) (now : Z) : bool :=
  let timeToClose := (endDate - now)%Z in
  JS.ltb (inject_Z timeToClose) (thresholdSeconds * 1000).

Definition getTimeRemaining (endDate now : Z) : Q :=
  let diffMs := (endDate - now)%Z in
  if (diffMs <=? 0)%Z then 0 else inject_Z diffMs / 1000 / 60.

Definition isMarketValid (endDate now : Z) : bool := (now <? endDate)%Z.

(** ** Strategy statistics ([getStats]) *)

Record StrategyStats := mkStats {
  totalBuyOrders : nat;
  totalSellOrders : nat;
  executedBuyOrders : nat;
  executedSellOrders : nat;
  stopLossExits : nat;
  limitSellFills : nat;
  cancelledSells : nat;
  nakedPositions : nat;
  totalTrades : nat;
  totalInvested : Q;
  totalProceeds : Q;
  netPNL : Q;
  realizedPNL : Q;
  unrealizedPNL : Q
}.

(** [sellOrders.find(s => s.pairedWith === buy.id && s.status === 'FILLED')]. *)
Definition filledSell (sellOrders : list TradeRecord) (buy : TradeRecord) : option TradeRecord :=
  List.find (fun s => bool_decide (tr_pairedWith s = Some (tr_id buy))
                      && bool_decide (tr_status s = FILLED)) sellOrders.

(** The mark-to-market value of a naked position: at the current best bid of
    its token when that is positive, else at its buy price.  Of
    [currentPrices] only [upBid] and [downBid] are read. *)
Definition marketValue (currentPrices : option Prices) (pos : TradeRecord) : Q :=
  match currentPrices with
  | Some p =>
      let currentBid := match tr_tokenType pos with UP => upBid p | DOWN => downBid p end in
      if JS.gtb currentBid 0 then currentBid * tr_size pos
      else tr_price pos * tr_size pos
  | None => tr_price pos * tr_size pos
  end.

(** [getStats(currentPrices?)]. *)
Definition getStats (currentPrices : option Prices) (s : Strategy) : StrategyStats :=
  let records := JSMap.values (tradeRecords s) in
  let buyOrders := List.filter (fun r => bool_decide (tr_side r = BUY)) records in
  let sellOrders := List.filter (fun r => bool_decide (tr_side r = SELL)) records in
  let executedBuys := List.filter (fun r => bool_decide (tr_status r = FILLED)) buyOrders in
  let executedSells := List.filter (fun r => bool_decide (tr_status r = FILLED)) sellOrders in
  let stopLossExits :=
    length (List.filter (fun r => bool_decide (tr_status r = FILLED)
                                  && bool_decide (tr_exitType r = Some STOP_LOSS)) sellOrders) in
  let limitSellFills :=
    length (List.filter (fun r => bool_decide (tr_status r = FILLED)
                                  && bool_decide (tr_exitType r = Some LIMIT)) sellOrders) in
  let cancelledSells :=
    length (List.filter (fun r => bool_decide (tr_status r = CANCELLED)) sellOrders) in
  let totalInvested :=
    fold_left (fun sum buy => sum + tr_price buy * tr_size buy) executedBuys 0 in
  let totalProceeds :=
    fold_left (fun sum sell => sum + tr_price sell * tr_size sell) executedSells 0 in
  let realizedPNL :=
    fold_left
      (fun acc buy =>
         match filledSell sellOrders buy with
         | Some pairedSell =>
             let buyCost := tr_price buy * tr_size buy in
             let sellProceeds := tr_price pairedSell * tr_size pairedSell in
             acc + (sellProceeds - buyCost)
         | None => acc
         end) executedBuys 0 in
  let nakedPositions :=
    List.filter (fun buy => match filledSell sellOrders buy with
                            | Some _ => false
                            | None => true
                            end) executedBuys in
  let unrealizedPNL :=
    fold_left
      (fun acc pos =>
         let buyCost := tr_price pos * tr_size pos in
         acc + (marketValue currentPrices pos - buyCost)) nakedPositions 0 in
  let netPNL := realizedPNL + unrealizedPNL in
  mkStats (length buyOrders) (length sellOrders) (length executedBuys) (length executedSells)
    stopLossExits limitSellFills cancelledSells (length nakedPositions) (length records)
    totalInvested totalProceeds netPNL realizedPNL unrealizedPNL.

(** The BUY record of [ex_entered] and the position its gateway holds. *)
Definition ex_entry_record : TradeRecord :=
  mkTradeRecord "trade_0" 1000 (eventSlug ex_market) BUY (upTokenId ex_market) UP
    (JS.round4 (75 # 100)) (JS.round4 (2 / (75 # 100))) "PAPER_FOK_0" FILLED None None
    (Some (4 # 100)) None.

Definition ex_entry_position : Position :=
  default (mkPosition "" 0 0 0)
    (paperPositions (executionGateway ex_entered) !! upTokenId ex_market).


(** The SELL record of [ex_entered]. *)
Definition ex_sell_record : TradeRecord :=
  mkTradeRecord "trade_1" 1000 (eventSlug ex_market) SELL (upTokenId ex_market) UP
    (Qmin (JS.round4 (JS.round4 (75 # 100) + (2 # 100))) (99 # 100))
    (JS.round4 (2 / (75 # 100))) "PAPER_1" PENDING (Some "trade_0"%string) (Some LIMIT)
    None None.

(** ** The ledger and the active positions *)

(** A trade id handed out while the strategy's counter was below [c]. *)
Definition trade_issued (c : nat) (k : string) : Prop :=
  exists n : nat, (n < c)%nat /\ k = ("trade_" +:+ JS.show_nat n)%string.

(** The ledger is keyed: no key occurs twice, and every record is stored
    under its own id, which was handed out below the counter [c]. *)
Definition ledger_keyed (c : nat) (records : list (string * TradeRecord)) : Prop :=
  NoDup (JSMap.keys records)
  /\ Forall (fun kr => tr_id kr.2 = kr.1 /\ trade_issued c kr.1) records.

(** Every active position is a FILLED BUY of the ledger. *)
Definition active_filled_buys (active : list string)
    (records : list (string * TradeRecord)) : Prop :=
  forall id, id ∈ active ->
    exists r, JSMap.get id records = Some r
              /\ tr_id r = id /\ tr_side r = BUY /\ tr_status r = FILLED.

Definition ledger_consistent (s : Strategy) : Prop :=
  ledger_keyed (orderCounter s) (tradeRecords s)
  /\ active_filled_buys (activePositions s) (tradeRecords s).

(** The position of [ex_entered] shortly before expiry, with the bid at 0.95. *)
Definition ex_held_to_maturity : Strategy :=
  monitorPosition defaultConfig (Some 30) (ex_books (96 # 100) (95 # 100)) 800000
    "trade_0" ex_entered.
(** * Properties *)

(** ** Comparisons on numbers *)

Lemma ltb_lt a b : JS.ltb a b = true <-> a < b.
Proof.
  unfold JS.ltb. rewrite negb_true_iff, <- not_true_iff_false, Qle_bool_iff.
  split; [apply Qnot_le_lt | apply Qlt_not_le].
Qed.

Lemma leb_le a b : JS.leb a b = true <-> a <= b.
Proof. apply Qle_bool_iff. Qed.

Lemma gtb_gt a b : JS.gtb a b = true <-> b < a.
Proof. apply ltb_lt. Qed.

Lemma geb_ge a b : JS.geb a b = true <-> b <= a.
Proof. apply leb_le. Qed.

Lemma ltb_nlt a b : JS.ltb a b = false <-> ~ a < b.
Proof. rewrite <- ltb_lt. destruct (JS.ltb a b); intuition congruence. Qed.

Lemma leb_nle a b : JS.leb a b = false <-> ~ a <= b.
Proof. rewrite <- leb_le. destruct (JS.leb a b); intuition congruence. Qed.

Lemma gtb_ngt a b : JS.gtb a b = false <-> ~ b < a.
Proof. apply ltb_nlt. Qed.

Lemma geb_nge a b : JS.geb a b = false <-> ~ b <= a.
Proof. apply leb_nle. Qed.

(** ** The fill rule of the paper simulator *)


Lemma JSMap_has_delete {V} k (m : list (string * V)) :
  JSMap.has k (JSMap.delete k m) = false.
Proof.
  unfold JSMap.has. induction m as [|[k' v'] m IH]; simpl; [done|].
  case_bool_decide; [done|]. simpl. by rewrite bool_decide_false.
Qed.

Lemma loop_head_fills tokenId ask bid now orderId order rest g :
  order_tokenId order = tokenId ->
  orderId ∉ filledPaperOrders g ->
  fill_condition ask bid order ->
  let g' := fst (checkPaperFills_loop tokenId ask bid now ((orderId, order) :: rest) g) in
  paperCash g' = cash_after_fill order (fill_price ask bid order) (paperCash g)
  /\ filledPaperOrders g' = filledPaperOrders g ∪ {[orderId]}
  /\ paperOrders g' = JSMap.delete orderId (paperOrders g).
Proof.
  intros Htok Hnf Hc. unfold fill_condition, fill_price, cash_after_fill in *.
  cbn [checkPaperFills_loop].
  rewrite (bool_decide_true _ Htok), (bool_decide_false _ Hnf). cbn [negb].
  destruct (order_side order) eqn:Hs.
  - destruct Hc as [H1 H2].
    rewrite (bool_decide_true (BUY = BUY)) by done.
    rewrite (proj2 (gtb_gt _ _) H1), (proj2 (leb_le _ _) H2). cbn [andb].
    destruct (paperPositions _ !! tokenId); cbn; done.
  - destruct Hc as [H1 H2].
    rewrite (bool_decide_false (SELL = BUY)) by done.
    rewrite (bool_decide_true (SELL = SELL)) by done.
    rewrite (proj2 (gtb_gt _ _) H1), (proj2 (geb_ge _ _) H2). cbn [andb].
    destruct (paperPositions _ !! tokenId) as [p|]; cbn; [|done].
    destruct (JS.leb _ _); cbn; done.
Qed.


Lemma loop_filled_from_entries tokenId ask bid now entries :
  forall g k,
    k ∈ filledPaperOrders (fst (checkPaperFills_loop tokenId ask bid now entries g)) ->
    k ∈ filledPaperOrders g \/ k ∈ JSMap.keys entries.
Proof.
  induction entries as [|[orderId order] rest IH]; intros g k; cbn [checkPaperFills_loop].
  - intros H. by left.
  - unfold JSMap.keys. cbn [map fst].
    destruct (negb (bool_decide (order_tokenId order = tokenId))).
    { intros H. destruct (IH _ _ H) as [?|?]; [by left | right; by apply elem_of_cons; right]. }
    destruct (bool_decide (orderId ∈ filledPaperOrders g)).
    { intros H. destruct (IH _ _ H) as [?|?]; [by left | right; by apply elem_of_cons; right]. }
    destruct (bool_decide (order_side order = BUY) && JS.gtb ask 0
              && JS.leb ask (order_price order)).
    { destruct (paperPositions _ !! tokenId); cbn; intros H;
        (apply elem_of_union in H as [H|H];
         [by left | right; apply elem_of_singleton in H; subst; by apply elem_of_cons; left]). }
    destruct (bool_decide (order_side order = SELL) && JS.gtb bid 0
              && JS.geb bid (order_price order)).
    { destruct (paperPositions _ !! tokenId) as [p|]; cbn; [destruct (JS.leb _ _); cbn|];
        intros H;
        (apply elem_of_union in H as [H|H];
         [by left | right; apply elem_of_singleton in H; subst; by apply elem_of_cons; left]). }
    intros H. destruct (IH _ _ H) as [?|?]; [by left | right; by apply elem_of_cons; right].
Qed.



(** ** Fill-or-kill orders *)

Lemma num_or_nonzero price d : ~ d == 0 -> ~ JS.num_or price d == 0.
Proof.
  intros Hd. destruct price as [q|]; cbn; [|done].
  destruct (Qeq_bool q 0) eqn:E; [done|].
  intros H. apply Qeq_bool_iff in H. congruence.
Qed.

Lemma fok_buy_cost price amount :
  JS.num_or price (1 # 2) * (amount / JS.num_or price (1 # 2)) == amount.
Proof. apply Qmult_div_r. by apply num_or_nonzero. Qed.


Lemma show_nat_not_F n s : JS.show_nat n ≠ String (Ascii.ascii_of_nat 70) s.
Proof.
  unfold JS.show_nat. destruct (Nat.to_uint n); cbn; discriminate.
Qed.

Lemma fok_id_not_issued n m :
  ("PAPER_FOK_" +:+ JS.show_nat n)%string ≠ ("PAPER_" +:+ JS.show_nat m)%string.
Proof.
  intros H. cbn in H. injection H as H. symmetry in H. by apply show_nat_not_F in H.
Qed.

Lemma JSMap_has_keys {V} k (m : list (string * V)) :
  JSMap.has k m = true -> k ∈ JSMap.keys m.
Proof.
  unfold JSMap.has, JSMap.keys. induction m as [|[k' v'] m IH]; cbn; [done|].
  case_bool_decide; subst.
  - intros _. by apply elem_of_cons; left.
  - intros Hh. apply elem_of_cons; right. by apply IH.
Qed.



Lemma JSMap_keys_set {V} k (v : V) m k' :
  k' ∈ JSMap.keys (JSMap.set k v m) -> k' = k \/ k' ∈ JSMap.keys m.
Proof.
  unfold JSMap.keys. induction m as [|[k0 v0] m IH]; cbn.
  - intros Hin. apply list_elem_of_singleton in Hin. by left.
  - case_bool_decide; cbn; intros Hin; apply elem_of_cons in Hin as [Hin|Hin].
    + by left.
    + right. by apply elem_of_cons; right.
    + right. by apply elem_of_cons; left.
    + destruct (IH Hin) as [?|?]; [by left | right; by apply elem_of_cons; right].
Qed.

Lemma JSMap_keys_delete {V} k (m : list (string * V)) k' :
  k' ∈ JSMap.keys (JSMap.delete k m) -> k' ∈ JSMap.keys m.
Proof.
  unfold JSMap.keys. induction m as [|[k0 v0] m IH]; cbn; [done|].
  case_bool_decide; cbn; intros Hin.
  - apply elem_of_cons; right. by apply IH.
  - apply elem_of_cons in Hin as [Hin|Hin]; apply elem_of_cons; [by left | right; by apply IH].
Qed.

Lemma executePaperFAK_orders tokenId side price size now g :
  paperOrders (fst (executePaperFAK tokenId side price size now g)) = paperOrders g.
Proof.
  unfold executePaperFAK. destruct side.
  - destruct (JS.geb _ _); [|done]. cbn. by destruct (paperPositions g !! tokenId).
  - destruct (paperPositions g !! tokenId) as [p|]; [|done].
    destruct (JS.geb _ _); [|done]. by destruct (JS.ltb _ _).
Qed.

Lemma loop_orders_keys tokenId ask bid now entries :
  forall g k,
    k ∈ JSMap.keys (paperOrders (fst (checkPaperFills_loop tokenId ask bid now entries g))) ->
    k ∈ JSMap.keys (paperOrders g).
Proof.
  induction entries as [|[orderId order] rest IH]; intros g k; cbn [checkPaperFills_loop];
    [done|].
  destruct (negb (bool_decide (order_tokenId order = tokenId))); [apply IH|].
  destruct (bool_decide (orderId ∈ filledPaperOrders g)).
  { intros Hin. apply IH in Hin. cbn in Hin. by apply JSMap_keys_delete in Hin. }
  destruct (bool_decide (order_side order = BUY) && JS.gtb ask 0
            && JS.leb ask (order_price order)).
  { destruct (paperPositions _ !! tokenId); cbn; apply JSMap_keys_delete. }
  destruct (bool_decide (order_side order = SELL) && JS.gtb bid 0
            && JS.geb bid (order_price order)).
  { destruct (paperPositions _ !! tokenId) as [p|]; cbn; [destruct (JS.leb _ _); cbn|];
      apply JSMap_keys_delete. }
  apply IH.
Qed.

Lemma gateway_step_issued g g' :
  gateway_step g g' -> open_ids_issued g -> open_ids_issued g'.
Proof.
  unfold open_ids_issued. intros Hstep Hg k Hk. destruct Hstep.
  - cbn in Hk. apply JSMap_keys_set in Hk as [->|Hk]; [eauto | by apply Hg].
  - apply Hg. revert Hk. unfold placeFOKOrder.
    destruct (isExecutingTrade g); [done|].
    pose proof (executePaperFAK_orders tokenId side
                  (JS.num_or price (1 # 2))
                  (match side with BUY => amount / JS.num_or price (1 # 2) | SELL => amount end)
                  now (with_executing true g)) as Ho.
    destruct (executePaperFAK _ _ _ _ _ _) as [g1 [|]]; cbn in *; by rewrite Ho.
  - apply Hg. revert Hk. unfold cancelPaperOrder.
    destruct (JSMap.has _ _); cbn; [apply JSMap_keys_delete | done].
  - apply Hg. by rewrite executePaperFAK_orders in Hk.
  - apply Hg. by apply loop_orders_keys in Hk.
  - cbn in Hk. by apply elem_of_nil in Hk.
Qed.

Lemma gateway_reachable_issued bankroll g :
  gateway_reachable bankroll g -> open_ids_issued g.
Proof.
  induction 1 as [|g g' _ IH Hstep].
  - intros k Hk. cbn in Hk. by apply elem_of_nil in Hk.
  - by apply (gateway_step_issued g g').
Qed.

(** ** Repeating the fill check *)

Lemma loop_no_fill tokenId ask bid now entries :
  forall g,
    (forall e, e ∈ entries -> fillableb tokenId ask bid (filledPaperOrders g) e = false) ->
    let g' := fst (checkPaperFills_loop tokenId ask bid now entries g) in
    paperCash g' = paperCash g
    /\ paperPositions g' = paperPositions g
    /\ filledPaperOrders g' = filledPaperOrders g.
Proof.
  induction entries as [|[orderId order] rest IH]; intros g Hall; cbn [checkPaperFills_loop];
    [done|].
  assert (Hrest : forall g0, filledPaperOrders g0 = filledPaperOrders g ->
            forall e, e ∈ rest -> fillableb tokenId ask bid (filledPaperOrders g0) e = false).
  { intros g0 -> e He. apply Hall. by apply elem_of_cons; right. }
  pose proof (Hall (orderId, order) ltac:(by apply elem_of_cons; left)) as Hh.
  unfold fillableb in Hh. cbn [fst snd] in Hh.
  destruct (bool_decide (order_tokenId order = tokenId)); cbn [negb andb] in *;
    [|by apply IH, Hrest].
  destruct (bool_decide (orderId ∈ filledPaperOrders g)); cbn [negb andb] in *.
  { destruct (IH (with_orders (JSMap.delete orderId (paperOrders g)) g)) as (?&?&?);
      [by apply Hrest | done]. }
  apply orb_false_iff in Hh as [-> ->]. by apply IH, Hrest.
Qed.

Lemma JSMap_delete_elem {V} k (m : list (string * V)) e :
  e ∈ JSMap.delete k m -> e ∈ m /\ e.1 ≠ k.
Proof.
  induction m as [|[k0 v0] m IH]; cbn; [by intros ?%elem_of_nil|].
  case_bool_decide as Hk; intros Hin.
  - destruct (IH Hin). split; [by apply elem_of_cons; right | done].
  - apply elem_of_cons in Hin as [->|Hin].
    + split; [by apply elem_of_cons; left | done].
    + destruct (IH Hin). split; [by apply elem_of_cons; right | done].
Qed.

Lemma loop_after tokenId ask bid now entries :
  forall g,
    let g1 := fst (checkPaperFills_loop tokenId ask bid now entries g) in
    (forall e, e ∈ paperOrders g1 -> e ∈ paperOrders g)
    /\ ((forall e, e ∈ entries -> fillableb tokenId ask bid (filledPaperOrders g) e = false)
        /\ filledPaperOrders g1 = filledPaperOrders g
        \/ exists e0, e0 ∈ entries
             /\ fillableb tokenId ask bid (filledPaperOrders g) e0 = true
             /\ filledPaperOrders g1 = filledPaperOrders g ∪ {[e0.1]}
             /\ forall e, e ∈ paperOrders g1 -> e.1 ≠ e0.1).
Proof.
  induction entries as [|[orderId order] rest IH]; intros g; cbn [checkPaperFills_loop].
  { split; [done|]. left. split; [by intros e ?%elem_of_nil | done]. }
  assert (Hskip : fillableb tokenId ask bid (filledPaperOrders g) (orderId, order) = false ->
    forall g0, filledPaperOrders g0 = filledPaperOrders g ->
      (forall e, e ∈ paperOrders g0 -> e ∈ paperOrders g) ->
      let g1 := fst (checkPaperFills_loop tokenId ask bid now rest g0) in
      (forall e, e ∈ paperOrders g1 -> e ∈ paperOrders g)
      /\ ((forall e, e ∈ (orderId, order) :: rest ->
             fillableb tokenId ask bid (filledPaperOrders g) e = false)
          /\ filledPaperOrders g1 = filledPaperOrders g
          \/ exists e0, e0 ∈ (orderId, order) :: rest
               /\ fillableb tokenId ask bid (filledPaperOrders g) e0 = true
               /\ filledPaperOrders g1 = filledPaperOrders g ∪ {[e0.1]}
               /\ forall e, e ∈ paperOrders g1 -> e.1 ≠ e0.1)).
  { intros Hf g0 Hfilled Hsub. destruct (IH g0) as [Ho Hc]. cbn zeta. split; [by auto|].
    rewrite Hfilled in Hc. destruct Hc as [[Hall Heq]|(e0 & Hin & Hfe & Heq & Hne)].
    - left. split; [|done]. intros e [->|He]%elem_of_cons; [done | by apply Hall].
    - right. exists e0. split; [by apply elem_of_cons; right | done]. }
  unfold fillableb in Hskip. cbn [fst snd] in Hskip.
  destruct (bool_decide (order_tokenId order = tokenId)) eqn:Htok; cbn [negb andb] in *;
    [|by apply Hskip].
  destruct (bool_decide (orderId ∈ filledPaperOrders g)) eqn:Hfil; cbn [negb andb] in *.
  { apply Hskip; [done..|]. cbn. intros e He. by apply JSMap_delete_elem in He as [? _]. }
  set (cb := bool_decide (order_side order = BUY) && JS.gtb ask 0
             && JS.leb ask (order_price order)) in *.
  set (cs := bool_decide (order_side order = SELL) && JS.gtb bid 0
             && JS.geb bid (order_price order)) in *.
  assert (Hfill : cb || cs = true ->
    forall g1, filledPaperOrders g1 = filledPaperOrders g ∪ {[orderId]} ->
      paperOrders g1 = JSMap.delete orderId (paperOrders g) ->
      (forall e, e ∈ paperOrders g1 -> e ∈ paperOrders g)
      /\ ((forall e, e ∈ (orderId, order) :: rest ->
             fillableb tokenId ask bid (filledPaperOrders g) e = false)
          /\ filledPaperOrders g1 = filledPaperOrders g
          \/ exists e0, e0 ∈ (orderId, order) :: rest
               /\ fillableb tokenId ask bid (filledPaperOrders g) e0 = true
               /\ filledPaperOrders g1 = filledPaperOrders g ∪ {[e0.1]}
               /\ forall e, e ∈ paperOrders g1 -> e.1 ≠ e0.1)).
  { intros Hc g1 Hf1 Ho1. rewrite Ho1. split.
    - intros e He. by apply JSMap_delete_elem in He as [? _].
    - right. exists (orderId, order). split; [by apply elem_of_cons; left|].
      split; [|split; [done|]].
      + unfold fillableb. cbn [fst snd]. rewrite Htok, Hfil. cbn [negb andb]. exact Hc.
      + intros e He. by apply JSMap_delete_elem in He as [_ ?]. }
  destruct cb.
  { destruct (paperPositions _ !! tokenId); by apply Hfill. }
  destruct cs.
  { destruct (paperPositions _ !! tokenId) as [p|]; [destruct (JS.leb _ _)|]; by apply Hfill. }
  by apply Hskip.
Qed.

Lemma fillableb_mono tokenId ask bid (f1 f2 : gset string) e :
  f1 ⊆ f2 -> fillableb tokenId ask bid f2 e = true -> fillableb tokenId ask bid f1 e = true.
Proof.
  unfold fillableb. intros Hsub.
  destruct (bool_decide (order_tokenId e.2 = tokenId)); cbn [andb]; [|done].
  destruct (decide (e.1 ∈ f2)) as [H2|H2].
  - by rewrite (bool_decide_true _ H2).
  - assert (H1 : e.1 ∉ f1) by (intros H1; apply H2; by apply Hsub).
    by rewrite (bool_decide_false _ H2), (bool_decide_false _ H1).
Qed.

(** C5 (amended). When at most one open order id for the token passes the
    fill test, running [checkPaperFills] a second time with the same
    arguments leaves cash and positions as the first run left them. *)
Theorem checkPaperFills_twice tokenId ask bid now now' g :
  at_most_one_fillable tokenId ask bid g ->
  let g1 := fst (checkPaperFills tokenId ask bid now g) in
  let g2 := fst (checkPaperFills tokenId ask bid now' g1) in
  paperCash g2 = paperCash g1 /\ paperPositions g2 = paperPositions g1.
Proof.
  intros Hone g1 g2. subst g2. unfold checkPaperFills at 1.
  destruct (loop_no_fill tokenId ask bid now' (paperOrders g1) g1) as (Hc & Hp & _); [|done].
  intros e He.
  destruct (loop_after tokenId ask bid now (paperOrders g) g) as [Hsub Hcase].
  fold (checkPaperFills tokenId ask bid now g) in Hsub, Hcase. fold g1 in Hsub, Hcase.
  destruct Hcase as [[Hall Heq]|(e0 & Hin & Hfe & Heq & Hne)].
  - rewrite Heq. by apply Hall, Hsub.
  - destruct (fillableb tokenId ask bid (filledPaperOrders g1) e) eqn:Hf; [|done].
    exfalso. apply (Hne e He). apply Hone; [by apply Hsub | done | | done].
    apply (fillableb_mono _ _ _ _ (filledPaperOrders g1)); [|done].
    rewrite Heq. intros x Hx. apply elem_of_union. by left.
Qed.

Lemma checkPaperFills_twice_witness :
  let g1 := fst (checkPaperFills "T" (49 # 100) (48 # 100) 1 ex_gateway_one_buy) in
  let g2 := fst (checkPaperFills "T" (49 # 100) (48 # 100) 2 g1) in
  paperCash g2 = paperCash g1 /\ paperPositions g2 = paperPositions g1.
Proof.
  apply (checkPaperFills_twice "T" (49 # 100) (48 # 100) 1 2 ex_gateway_one_buy).
  intros e1 e2 H1 H2 _ _.
  apply list_elem_of_singleton in H1. apply list_elem_of_singleton in H2.
  by rewrite H1, H2.
Defined.

(** C5 as stated fails: with two resting BUY orders on one token that the
    ask both satisfies, the first run fills one order and the second run
    fills the other, so the cash after two runs is not the cash after one. *)
Lemma checkPaperFills_not_idempotent :
  let g1 := fst (checkPaperFills "T" (49 # 100) (48 # 100) 1 ex_gateway_two_buys) in
  let g2 := fst (checkPaperFills "T" (49 # 100) (48 # 100) 1 g1) in
  ~ (paperCash g2 == paperCash g1 /\ paperPositions g2 = paperPositions g1).
Proof.
  intros g1 g2 [H _]. vm_compute in H. discriminate H.
Qed.

(** ** Limit BUY orders are not checked against cash *)

(** C10. In paper mode a limit BUY is accepted by [placePaperOrder] whatever
    the cash, and when the loop of [checkPaperFills] looks at it with
    [0 < best_ask <= limit] the cash goes down by [min(best_ask, limit) *
    size] whatever it was.  From a fresh gateway with 20.00, placing a BUY of
    100 shares at 0.50 and checking fills at an ask of 0.50 is a run of the
    gateway that ends with negative cash, while the FOK order of the same cost
    is refused and changes nothing. *)
Theorem limit_buy_ignores_cash :
  (forall tokenId price size now g,
     let r := placePaperOrder tokenId BUY price size now g in
     JSMap.get (snd r) (paperOrders (fst r))
     = Some (mkOrder (snd r) tokenId BUY price size now)
     /\ paperCash (fst r) = paperCash g)
  /\ (forall tokenId ask bid now orderId order rest g,
        order_tokenId order = tokenId ->
        orderId ∉ filledPaperOrders g ->
        order_side order = BUY ->
        0 < ask -> ask <= order_price order ->
        paperCash (fst (checkPaperFills_loop tokenId ask bid now ((orderId, order) :: rest) g))
        = paperCash g - Qmin ask (order_price order) * order_size order)
  /\ gateway_reachable 20 (fst (checkPaperFills "T" (1 # 2) (4 # 10) 1 ex_gateway_big_buy))
  /\ paperCash (fst (checkPaperFills "T" (1 # 2) (4 # 10) 1 ex_gateway_big_buy)) < 0
  /\ placeFOKOrder "T" BUY 50 (Some (1 # 2)) 0 (newGateway 20) = (newGateway 20, inl FOKFailed).
Proof.
  split; [|split; [|split; [|split]]].
  - intros tokenId price size now g. cbn. split; [|done].
    induction (paperOrders g) as [|[k v] m IH]; cbn.
    + by rewrite bool_decide_true.
    + case_bool_decide as Hk; cbn.
      * by rewrite bool_decide_true.
      * by rewrite (bool_decide_false _ Hk).
  - intros tokenId ask bid now orderId order rest g Htok Hnf Hs H1 H2.
    destruct (loop_head_fills tokenId ask bid now orderId order rest g Htok Hnf) as (Hc & _).
    { unfold fill_condition. by rewrite Hs. }
    rewrite Hc. unfold cash_after_fill, fill_price. by rewrite Hs.
  - eapply gr_step; [|apply gs_checkFills].
    eapply gr_step; [apply gr_new|]. apply gs_placeLimit.
  - vm_compute. reflexivity.
  - vm_compute. reflexivity.
Qed.

Lemma limit_buy_ignores_cash_witness :
  paperCash (fst (checkPaperFills_loop "T" (1 # 2) (4 # 10) 1
                    [("PAPER_0"%string, mkOrder "PAPER_0" "T" BUY (1 # 2) 100 0)]
                    ex_gateway_big_buy))
  = paperCash ex_gateway_big_buy
    - Qmin (1 # 2) (order_price (mkOrder "PAPER_0" "T" BUY (1 # 2) 100 0))
      * order_size (mkOrder "PAPER_0" "T" BUY (1 # 2) 100 0).
Proof.
  apply (proj1 (proj2 limit_buy_ignores_cash)).
  - reflexivity.
  - cbn. apply not_elem_of_empty.
  - reflexivity.
  - reflexivity.
  - discriminate.
Defined.

(** ** The stop after the breakeven trigger *)

Lemma stop_after_breakeven cfg (r : TradeRecord) bid :
  tr_breakEvenTriggered r = Some true ->
  tr_fixedStopDist r = Some 0 ->
  stopLossPrice cfg r bid = tr_price r - FIXED_STOP_LOSS cfg.
Proof.
  intros Hb Hd. unfold stopLossPrice, read_breakEvenTriggered, stored_stopDistance.
  by rewrite Hb, Hd.
Qed.

(** Once the trigger has fired, the monitor leaves a position alone as long
    as the bid is not below [entry - FIXED_STOP_LOSS], also when it is below
    the entry. *)
Lemma monitor_after_breakeven cfg books now id s r ob :
  JSMap.get id (tradeRecords s) = Some r ->
  books (tr_tokenId r) = Some ob ->
  tr_breakEvenTriggered r = Some true ->
  tr_fixedStopDist r = Some 0 ->
  tr_price r - FIXED_STOP_LOSS cfg <= bestBid ob ->
  monitorPosition cfg None books now id s = s.
Proof.
  intros Hget Hbook Hb Hd Hbid. unfold monitorPosition. rewrite Hget, Hbook.
  rewrite (stop_after_breakeven cfg r (bestBid ob) Hb Hd).
  unfold read_breakEvenTriggered. rewrite Hb. cbn [default negb andb].
  apply Qle_not_lt, ltb_nlt in Hbid. rewrite Hbid. by rewrite andb_false_r.
Qed.

(** C1 (the code departs from the claim). Entry at 0.75; the monitor sees a
    bid of 0.765 and fires the breakeven trigger, which stores
    [breakEvenTriggered = true] and [fixedStopDist = 0] on the position.  At
    the next evaluation, with a bid of 0.745 (above 0 and below the entry), the
    stop price the monitor uses is 0.71, not the entry price 0.75: the stored
    distance 0 is falsy, so the configured 0.04 is used.  The exit path is not
    taken: the strategy state is unchanged and the position stays active. *)
Theorem breakeven_stop_falls_back :
  (exists r, JSMap.get "trade_0" (tradeRecords ex_triggered) = Some r
             /\ tr_price r == 75 # 100
             /\ tr_breakEvenTriggered r = Some true
             /\ tr_fixedStopDist r = Some 0
             /\ stopLossPrice defaultConfig r (745 # 1000) == 71 # 100)
  /\ activePositions ex_triggered = ["trade_0"%string]
  /\ updateOrderStatus defaultConfig (Some 399) (ex_books (755 # 1000) (745 # 1000)) 3000
       ex_triggered = ex_triggered.
Proof.
  split; [|split].
  - eexists. split; [vm_compute; reflexivity|].
    repeat split; vm_compute; reflexivity.
  - vm_compute. reflexivity.
  - vm_compute. reflexivity.
Qed.

(** ** Entry with too little cash *)

Lemma cash_test_vacuous (cash : Q) :
  0 <= cash -> JS.ltb cash (cash * (10 # 100)) = false.
Proof.
  intros H. apply ltb_nlt. Lqa.lra.
Qed.

(** Whatever non-negative cash the gateway holds, an idle strategy with an
    empty ledger accepts the entry. *)
Lemma shouldEnterTrade_ignores_cash cfg spot strike t now s :
  isSessionLocked (sessionState s) = false ->
  isCoolingDown (circuitBreaker s) = false ->
  lastTradeTime (circuitBreaker s) = 0%Z ->
  isTradingLocked s = false ->
  tradeRecords s = [] ->
  activePositions s = [] ->
  150 < t ->
  0 <= getPaperCash (executionGateway s) ->
  shouldTrade (snd (shouldEnterTrade cfg spot strike t None now s)) = true.
Proof.
  intros Hl Hc Ht Hk Hr Ha Htime Hcash. unfold shouldEnterTrade.
  rewrite Hl. cbn [with_quantEngine circuitBreaker]. rewrite Hc, Ht. cbn [Z.ltb andb].
  unfold hasPendingTrades. cbn [with_quantEngine isTradingLocked tradeRecords activePositions
                                  executionGateway]. rewrite Hk, Hr, Ha. cbn.
  rewrite (cash_test_vacuous _ Hcash).
  apply Qlt_not_le, leb_nle in Htime. by rewrite Htime.
Qed.

(** C7 (the code departs from the claim). With 0.50 in cash, below
    [MIN_ORDER_SIZE = 1.00], an unlocked session, an ask of 0.68 inside the
    price band, no cooldown, no earlier trade, an empty ledger, no active
    position and 400 seconds left, [shouldEnterTrade] answers "trade", where
    the claim has it answer "do not trade". *)
Theorem shouldEnterTrade_accepts_without_cash :
  JS.ltb (getPaperCash (executionGateway ex_poor)) (MIN_ORDER_SIZE defaultConfig) = true
  /\ hasPendingTrades ex_poor = false
  /\ snd (shouldEnterTrade defaultConfig 89800 89750 400 (Some ex_prices) 1000 ex_poor)
     = mkDecision true (Some UP).
Proof. repeat split; vm_compute; reflexivity. Qed.

(** ** Market rotation *)

(** C6 (amended). After a market rotation the ledger, the active-position
    index, the trading lock, the circuit breaker, the session state and the
    strategy's bid rings are empty or at their defaults, and the gateway's
    open orders, positions and filled index are empty; the quant engine's
    ring of spot prices is left as it was. *)
Theorem rotation_resets_strategy cfg now s :
  let s' := rotate cfg now s in
  tradeRecords s' = []
  /\ activePositions s' = []
  /\ isTradingLocked s' = false
  /\ circuitBreaker s' = initialCircuitBreaker
  /\ sessionPnL (sessionState s') = 0
  /\ isSessionLocked (sessionState s') = false
  /\ sessionState s' = initialSessionState now
  /\ upBids (priceHistory s') = [] /\ downBids (priceHistory s') = []
  /\ paperOrders (executionGateway s') = []
  /\ paperPositions (executionGateway s') = ∅
  /\ filledPaperOrders (executionGateway s') = ∅
  /\ quantEngine s' = quantEngine s.
Proof. cbn. repeat split. Qed.

(** C6 as stated fails: the quant engine's ring is not emptied by a
    rotation. *)
Lemma rotation_keeps_quant_ring :
  qe_priceHistory (quantEngine (rotate defaultConfig 2000 ex_sampled)) ≠ [].
Proof. vm_compute. discriminate. Qed.

(** ** Selecting the mode *)

(** C8 (amended). When [PAPER_TRADE] is absent the loader selects live mode;
    paper mode is selected exactly when the variable is the string [true].
    What then keeps the engine from running live is validation, which
    reports an error when [SIGNER_PRIVATE_KEY] or [PROXY_ADDRESS] is absent
    too. *)
Theorem paper_mode_is_opt_in (e : Env) :
  (PAPER_TRADE (loadConfig e) = true <-> e "PAPER_TRADE"%string = Some "true"%string)
  /\ (e "PAPER_TRADE"%string = None ->
      PAPER_TRADE (loadConfig e) = false
      /\ (e "SIGNER_PRIVATE_KEY"%string = None \/ e "PROXY_ADDRESS"%string = None ->
          validateConfig_mode (loadConfig e) ≠ [])).
Proof.
  split.
  - cbn. apply bool_decide_eq_true.
  - intros Habs. cbn [loadConfig PAPER_TRADE]. rewrite Habs.
    split; [by apply bool_decide_eq_false|].
    unfold validateConfig_mode. cbn [loadConfig PAPER_TRADE SIGNER_PRIVATE_KEY PROXY_ADDRESS
                                     HEDGE_ARBITRAGE_MODE].
    rewrite Habs. rewrite (bool_decide_false (None = Some "true"%string)) by done.
    cbn [negb]. unfold env_or. intros [->| ->].
    + rewrite (bool_decide_true (zero_key = zero_key)) by done. discriminate.
    + rewrite (bool_decide_true (zero_address = zero_address)) by done.
      destruct (bool_decide _); discriminate.
Qed.

Lemma paper_mode_is_opt_in_witness :
  PAPER_TRADE (loadConfig env_empty) = false
  /\ (env_empty "SIGNER_PRIVATE_KEY"%string = None \/ env_empty "PROXY_ADDRESS"%string = None ->
      validateConfig_mode (loadConfig env_empty) ≠ []).
Proof.
  apply (proj2 (paper_mode_is_opt_in env_empty)). reflexivity.
Defined.

(** C8 as stated fails: with [PAPER_TRADE] absent and the two credentials
    set, the loader selects live mode and validation has nothing to object
    to. *)
Lemma absent_PAPER_TRADE_is_live :
  env_credentials "PAPER_TRADE"%string = None
  /\ PAPER_TRADE (loadConfig env_credentials) ≠ true
  /\ validateConfig_mode (loadConfig env_credentials) = [].
Proof. repeat split; vm_compute; (reflexivity || discriminate). Qed.

(** ** Volatility *)

Lemma price_changes_first_differences h :
  price_changes h = first_differences (map pp_price h).
Proof.
  unfold first_differences. induction h as [|a h IH]; [done|].
  destruct h as [|b t]; [done|].
  change (price_changes (a :: b :: t))
    with ((pp_price b - pp_price a) :: price_changes (b :: t)).
  by rewrite IH.
Qed.

Lemma fold_left_Qsum (f : Q -> Q) l :
  forall a, fold_left (fun a b => a + f b) l a == a + Qsum (map f l).
Proof.
  induction l as [|x l IH]; intros a; cbn.
  - Lqa.lra.
  - rewrite IH. Lqa.lra.
Qed.

Lemma Qsum_map_ext (f g : Q -> Q) l :
  (forall x, f x == g x) -> Qsum (map f l) == Qsum (map g l).
Proof.
  intros Hfg. induction l as [|x l IH]; cbn; [done|]. by rewrite Hfg, IH.
Qed.

Lemma meanChange_pop_mean l : meanChange l == pop_mean l.
Proof.
  unfold meanChange, pop_mean.
  rewrite (fold_left_Qsum (fun b => b) l 0), map_id. by rewrite Qplus_0_l.
Qed.

Lemma variance_pop_variance l : variance l == pop_variance l.
Proof.
  unfold variance, pop_variance.
  rewrite (fold_left_Qsum (fun b => (b - meanChange l) ^ 2) l 0), Qplus_0_l.
  rewrite (Qsum_map_ext _ (fun x => (x - pop_mean l) ^ 2)); [done|].
  intros x. by rewrite meanChange_pop_mean.
Qed.

Lemma stdDev_pop_std_dev h :
  sqrt (Q2R (variance (price_changes h)))
  = pop_std_dev (first_differences (map pp_price h)).
Proof.
  unfold pop_std_dev. rewrite <- price_changes_first_differences.
  f_equal. apply Qeq_eqR, variance_pop_variance.
Qed.

Lemma Q2R_60 : Q2R 60 = 60%R.
Proof. unfold Q2R. cbn. lra. Qed.

(** C9 (amended). With fewer than 5 samples [getVolatilityPerMinute] returns
    10.  Otherwise it returns [max(5, σ_tick * sqrt(ticks_per_minute))],
    where [σ_tick] is the population standard deviation of the first
    differences of the sampled prices, and [ticks_per_minute] is
    [(n / observed_span_seconds) * 60] for [n] samples when the observed span
    is positive, and 60 when it is not.  The result is at least 5 in all
    cases. *)
Theorem volatility_per_minute (q : QuantEngine) :
  let h := qe_priceHistory q in
  let sigma := pop_std_dev (first_differences (map pp_price h)) in
  let n := inject_Z (Z.of_nat (length h)) in
  ((length h < 5)%nat -> getVolatilityPerMinute q = 10%R)
  /\ ((5 <= length h)%nat -> 0 < observed_span_seconds h ->
      getVolatilityPerMinute q
      = Rmax 5 (sigma * sqrt (Q2R (n / observed_span_seconds h * 60))))
  /\ ((5 <= length h)%nat -> ~ 0 < observed_span_seconds h ->
      getVolatilityPerMinute q = Rmax 5 (sigma * sqrt 60))
  /\ (5 <= getVolatilityPerMinute q)%R.
Proof.
  intros h sigma n. subst h sigma n. unfold getVolatilityPerMinute.
  change (observed_span_seconds (qe_priceHistory q)) with (timeSpanSeconds (qe_priceHistory q)).
  repeat split.
  - intros Hn. apply Nat.ltb_lt in Hn. by rewrite Hn.
  - intros Hn Hs. apply Nat.ltb_ge in Hn. rewrite Hn.
    rewrite stdDev_pop_std_dev. unfold ticksPerMinute.
    by rewrite (proj2 (gtb_gt _ _) Hs).
  - intros Hn Hs. apply Nat.ltb_ge in Hn. rewrite Hn.
    rewrite stdDev_pop_std_dev. unfold ticksPerMinute.
    by rewrite (proj2 (gtb_ngt _ _) Hs), Q2R_60.
  - destruct (_ <? _)%nat; [lra | apply Rmax_l].
Qed.

Lemma volatility_per_minute_witness :
  getVolatilityPerMinute ex_engine_spread
  = Rmax 5 (pop_std_dev (first_differences (map pp_price (qe_priceHistory ex_engine_spread)))
            * sqrt (Q2R (inject_Z (Z.of_nat (length (qe_priceHistory ex_engine_spread)))
                         / observed_span_seconds (qe_priceHistory ex_engine_spread) * 60))).
Proof.
  apply (proj1 (proj2 (volatility_per_minute ex_engine_spread))).
  - cbn. lia.
  - reflexivity.
Defined.

(** C9 as stated fails: for five samples taken within one millisecond the
    observed span is 0, no number is [(n / span) * 60], and the code uses 60
    ticks per minute. *)
Lemma volatility_zero_span :
  let h := qe_priceHistory ex_engine_burst in
  (5 <= length h)%nat
  /\ observed_span_seconds h == 0
  /\ ~ (exists ticks_per_minute : Q,
          ticks_per_minute * observed_span_seconds h
          == inject_Z (Z.of_nat (length h)) * 60
          /\ getVolatilityPerMinute ex_engine_burst
             = Rmax 5 (pop_std_dev (first_differences (map pp_price h))
                       * sqrt (Q2R ticks_per_minute))).
Proof.
  cbn zeta. split; [cbn; lia|]. split; [reflexivity|].
  intros (t & Ht & _).
  assert (Hz : observed_span_seconds (qe_priceHistory ex_engine_burst) == 0) by reflexivity.
  rewrite Hz, Qmult_0_r in Ht. vm_compute in Ht. discriminate Ht.
Qed.

(** ** The circuit breaker *)

Lemma JSMap_get_elem {V} k (m : list (string * V)) v :
  JSMap.get k m = Some v -> (k, v) ∈ m.
Proof.
  induction m as [|[k0 v0] m IH]; cbn; [done|].
  case_bool_decide as Hk.
  - intros [= ->]. subst. by apply elem_of_cons; left.
  - intros Hg. apply elem_of_cons; right. by apply IH.
Qed.

Section Ledger.
Variable X : list string.

Lemma ledger_ok_mutate id f records :
  (forall r, JSMap.get id records = Some r ->
     (tr_side r = BUY -> tr_status r ≠ PENDING) ->
     (tr_side (f r) = BUY -> tr_status (f r) ≠ PENDING)
     /\ (is_filled_buy (f r) = true -> is_filled_buy r = true)) ->
  ledger_ok X records -> ledger_ok X (mutate id f records).
Proof.
  unfold ledger_ok, no_pending_buy.
  induction records as [|[k r] m IH]; cbn; [done|].
  intros Hf [Hnp Hfb]. apply Forall_cons in Hnp as [Hr Hnp].
  case_bool_decide as Hk; cbn in *.
  - destruct (Hf r eq_refl Hr) as [Hp Hb]. split.
    + by apply Forall_cons.
    + intros k0. destruct (is_filled_buy (f r)) eqn:E; cbn.
      * rewrite (Hb eq_refl) in Hfb. exact (Hfb k0).
      * intros Hin. apply Hfb. destruct (is_filled_buy r); cbn; [|done].
        by apply elem_of_cons; right.
  - destruct IH as [Hnp' Hfb']; [done| |].
    { split; [done|]. intros k0 Hin. apply Hfb.
      destruct (is_filled_buy r); cbn; [|done]. by apply elem_of_cons; right. }
    split; [by apply Forall_cons|].
    intros k0. destruct (is_filled_buy r) eqn:E; cbn; [|by apply Hfb'].
    intros [->|Hin]%elem_of_cons; [|by apply Hfb'].
    apply Hfb. by apply elem_of_cons; left.
Qed.

Lemma ledger_ok_set k r records :
  tr_side r ≠ BUY ->
  ledger_ok X records -> ledger_ok X (JSMap.set k r records).
Proof.
  unfold ledger_ok, no_pending_buy. intros Hs.
  assert (Hnb : is_filled_buy r = false).
  { unfold is_filled_buy. by rewrite (bool_decide_false _ Hs). }
  induction records as [|[k0 r0] m IH]; cbn.
  - intros _. rewrite Hnb. split; [|by intros ? ?%elem_of_nil].
    apply Forall_cons. split; [done | by apply Forall_nil].
  - intros [Hnp Hfb]. apply Forall_cons in Hnp as [Hr Hnp].
    case_bool_decide as Hk; cbn in *.
    + rewrite Hnb. split; [by apply Forall_cons|].
      intros k1 Hin. apply Hfb. destruct (is_filled_buy r0); cbn; [|done].
      by apply elem_of_cons; right.
    + destruct IH as [Hnp' Hfb'].
      { split; [done|]. intros k1 Hin. apply Hfb.
        destruct (is_filled_buy r0); cbn; [|done]. by apply elem_of_cons; right. }
      split; [by apply Forall_cons|].
      intros k1. destruct (is_filled_buy r0) eqn:E; cbn; [|by apply Hfb'].
      intros [->|Hin]%elem_of_cons; [|by apply Hfb'].
      apply Hfb. by apply elem_of_cons; left.
Qed.

Lemma ledger_ok_cancel id f records :
  (forall r, tr_side (f r) = tr_side r /\ tr_status (f r) = CANCELLED) ->
  ledger_ok X records -> ledger_ok X (mutate id f records).
Proof.
  intros Hf. apply ledger_ok_mutate. intros r _ _. destruct (Hf r) as [Hs Hst].
  split.
  - intros _. by rewrite Hst.
  - unfold is_filled_buy. rewrite Hst.
    rewrite (bool_decide_false (CANCELLED = FILLED)) by done. by rewrite andb_false_r.
Qed.

Lemma ledger_ok_flags id f records :
  (forall r, tr_side (f r) = tr_side r /\ tr_status (f r) = tr_status r) ->
  ledger_ok X records -> ledger_ok X (mutate id f records).
Proof.
  intros Hf. apply ledger_ok_mutate. intros r _ Hr. destruct (Hf r) as [Hs Hst].
  unfold is_filled_buy. rewrite Hs, Hst. done.
Qed.

End Ledger.

Section Monitor.
Variable cfg : Config.
Variable X : list string.

Lemma exitPosition_ledger id activePosition bet bid now s :
  ledger_ok X (tradeRecords s) ->
  ledger_ok X (tradeRecords (exitPosition cfg id activePosition bet bid now s)).
Proof.
  intros Hok. unfold exitPosition.
  set (s1 := match find_pendingSell id (JSMap.values (tradeRecords s)) with
             | Some pendingSell => _
             | None => s
             end).
  assert (H1 : ledger_ok X (tradeRecords s1)).
  { subst s1. destruct (find_pendingSell _ _) as [ps|]; [|done].
    destruct (cancelPaperOrder _ _) as [g b]. cbn.
    apply ledger_ok_cancel; [|done]. by intros r. }
  clearbody s1.
  destruct (executePaperFAK _ _ _ _ _ _) as [g sold].
  destruct sold; [|done].
  assert (H2 : ledger_ok X
                 (JSMap.set (next_trade_id (with_gateway g s1))
                    (mkTradeRecord (next_trade_id (with_gateway g s1)) now
                       (tr_marketSlug activePosition) SELL (tr_tokenId activePosition)
                       (tr_tokenType activePosition)
                       (Qmax (1 # 100) (bid - (2 # 100))) (tr_size activePosition)
                       ((if bet && JS.geb bid (tr_price activePosition - (5 # 1000))
                         then "BREAKEVEN" else "STOP_LOSS") +:+ "_" +:+ JS.show_Z now)%string
                       FILLED (Some id)
                       (Some (if bet && JS.geb bid (tr_price activePosition - (5 # 1000))
                              then BREAKEVEN else STOP_LOSS)) None None)
                    (tradeRecords s1))).
  { by apply ledger_ok_set. }
  by destruct (negb _).
Qed.


Lemma monitorPosition_ledger t books now id s :
  ledger_ok X (tradeRecords s) ->
  ledger_ok X (tradeRecords (monitorPosition cfg t books now id s)).
Proof.
  intros Hok. unfold monitorPosition.
  destruct (JSMap.get id (tradeRecords s)) as [ap|]; [|done].
  destruct (books (tr_tokenId ap)) as [ob|]; [|done].
  set (s1 := if negb (read_breakEvenTriggered ap) && _ then _ else s).
  assert (H1 : ledger_ok X (tradeRecords s1)).
  { subst s1. destruct (negb _ && _); [|done]. cbn.
    apply ledger_ok_flags; [|done]. by intros r. }
  clearbody s1.
  destruct (JS.gtb _ _ && JS.ltb _ _); [by apply exitPosition_ledger|].
  destruct t as [t|]; [|done].
  destruct (JS.ltb _ _ && JS.gtb _ _); [|done].
  destruct (find_pendingSell _ _) as [ps|]; [|done].
  destruct (cancelPaperOrder _ _) as [g b]. cbn.
  apply ledger_ok_cancel; [|done]. by intros r.
Qed.


Lemma syncRecord_ledger tradeId s :
  ledger_ok X (tradeRecords s) ->
  ledger_ok X (tradeRecords (syncRecord cfg tradeId s)).
Proof.
  intros Hok. unfold syncRecord.
  destruct (JSMap.get tradeId (tradeRecords s)) as [record|] eqn:Hget; [|done].
  destruct (bool_decide (tr_status record = PENDING)) eqn:Hp; cbn [andb]; [|done].
  apply bool_decide_eq_true in Hp.
  destruct (isOrderFilled _ _); [|done].
  assert (H1 : ledger_ok X (mutate tradeId (set_status FILLED) (tradeRecords s))).
  { apply ledger_ok_mutate; [|done]. intros r Hr Hnp.
    rewrite Hget in Hr. injection Hr as <-. split; [done|].
    unfold is_filled_buy. cbn. intros Hb. apply andb_true_iff in Hb as [Hb _].
    apply bool_decide_eq_true in Hb. by apply Hnp in Hb. }
  destruct (tr_side record); [done|].
  destruct (tr_pairedWith record) as [buyId|]; [|done].
  cbn. by destruct (JSMap.get buyId _).
Qed.


Lemma fold_monitor_ledger t books now ids :
  forall s, ledger_ok X (tradeRecords s) ->
    ledger_ok X (tradeRecords
      (fold_left (fun s id => monitorPosition cfg t books now id s) ids s)).
Proof.
  induction ids as [|id ids IH]; intros s Hok; cbn; [done|].
  by apply IH, monitorPosition_ledger.
Qed.


Lemma fold_sync_ledger ids :
  forall s, ledger_ok X (tradeRecords s) ->
    ledger_ok X (tradeRecords (fold_left (fun s tradeId => syncRecord cfg tradeId s) ids s)).
Proof.
  induction ids as [|id ids IH]; intros s Hok; cbn; [done|].
  by apply IH, syncRecord_ledger.
Qed.


Lemma updateOrderStatus_ledger t books now s :
  ledger_ok X (tradeRecords s) ->
  ledger_ok X (tradeRecords (updateOrderStatus cfg t books now s)).
Proof.
  intros Hok. unfold updateOrderStatus.
  set (s1 := if isCoolingDown (circuitBreaker s) && _ then _ else s).
  assert (H1 : ledger_ok X (tradeRecords s1)).
  { subst s1. destruct (_ && _); [|done]. by destruct (books _). }
  clearbody s1.
  destruct (_ =? _)%nat; [done|].
  by apply fold_sync_ledger, fold_monitor_ledger.
Qed.

End Monitor.



Lemma checkCircuitBreaker_counts cfg now bid c :
  isCoolingDown c = true ->
  ~ (0 < bid /\ bid < crashLowPrice c) ->
  let c' := fst (checkCircuitBreaker cfg now bid c) in
  isCoolingDown c' = true ->
  stabilityCounter c' = stability_count c bid /\ crashLowPrice c' = crashLowPrice c.
Proof.
  intros Hc Hnl. unfold checkCircuitBreaker, stability_count. rewrite Hc. cbn [negb].
  assert (El : JS.ltb bid (crashLowPrice c) && JS.gtb bid 0 = false).
  { destruct (JS.ltb _ _) eqn:E1; destruct (JS.gtb bid 0) eqn:E2; try done.
    exfalso. apply Hnl. split; [by apply gtb_gt | by apply ltb_lt]. }
  rewrite El.
  destruct (_ <? _)%Z.
  - destruct (JS.gtb bid (crashLowPrice c)); cbn; intros _; split; (done || lia).
  - destruct (JS.gtb bid (crashLowPrice c)); cbn [stabilityCounter];
      destruct (_ <=? _)%Z; cbn; intros Hx; try congruence; split; (done || lia).
Qed.

Lemma no_pending_buy_set k r records :
  (tr_side r = BUY -> tr_status r ≠ PENDING) ->
  no_pending_buy records -> no_pending_buy (JSMap.set k r records).
Proof.
  unfold no_pending_buy. intros Hr.
  induction records as [|[k0 r0] m IH]; cbn.
  - intros _. apply Forall_cons. split; [done | by apply Forall_nil].
  - intros [H0 Hm]%Forall_cons. case_bool_decide; apply Forall_cons; split; auto.
Qed.

Lemma shouldEnterTrade_frame cfg spot strike t prices now s :
  let s' := fst (shouldEnterTrade cfg spot strike t prices now s) in
  tradeRecords s' = tradeRecords s /\ circuitBreaker s' = circuitBreaker s.
Proof.
  unfold shouldEnterTrade.
  destruct (isSessionLocked _); [done|].
  set (s1 := match prices with Some p => _ | None => s end).
  assert (H1 : tradeRecords s1 = tradeRecords s /\ circuitBreaker s1 = circuitBreaker s).
  { subst s1. by destruct prices. }
  clearbody s1.
  destruct (match prices with Some p => _ | None => false end); [done|].
  cbn [with_quantEngine circuitBreaker]. destruct (isCoolingDown (circuitBreaker s1)); [done|].
  destruct (_ && _); [done|].
  destruct (hasPendingTrades _); [done|].
  by destruct (JS.leb _ _).
Qed.

Lemma executeTrade_no_pending_buy cfg market dir books now s :
  no_pending_buy (tradeRecords s) ->
  no_pending_buy (tradeRecords (fst (executeTrade cfg market dir books now s))).
Proof.
  intros Hnp. unfold executeTrade.
  destruct (hasPendingTrades s); [done|].
  destruct (isCoolingDown _); [done|].
  destruct (books _) as [ob|]; [|done].
  destruct (JS.leb _ _); [done|].
  destruct (JS.gtb _ _); [done|].
  destruct (_ && _); [done|].
  destruct (placeFOKOrder _ _ _ _ _ _) as [g [e|buyOrderId]]; [done|].
  destruct (negb (JS.truthy_str buyOrderId)); [done|].
  destruct (JS.ltb (bestAsk ob) (99 # 100)).
  - cbn. apply no_pending_buy_set; [cbn; discriminate|].
    apply no_pending_buy_set; [cbn; discriminate | done].
  - cbn. apply no_pending_buy_set; [cbn; discriminate | done].
Qed.


Lemma shouldEnterTrade_cooling cfg spot strike t prices now s :
  isCoolingDown (circuitBreaker s) = true ->
  snd (shouldEnterTrade cfg spot strike t prices now s) = reject.
Proof.
  intros Hc. unfold shouldEnterTrade.
  destruct (isSessionLocked _); [done|].
  set (s1 := match prices with Some p => _ | None => s end).
  assert (H1 : circuitBreaker s1 = circuitBreaker s).
  { subst s1. by destruct prices. }
  clearbody s1.
  destruct (match prices with Some p => _ | None => false end); [done|].
  cbn [with_quantEngine circuitBreaker]. by rewrite H1, Hc.
Qed.

Lemma ledger_ok_self s :
  no_pending_buy (tradeRecords s) -> ledger_ok (filledBuys s) (tradeRecords s).
Proof. intros H. by split. Qed.

Lemma reachable_no_pending_buy cfg s :
  reachable cfg s -> no_pending_buy (tradeRecords s).
Proof.
  induction 1 as [now bankroll|now books s s' _ IH Hstep|? ? ? ? s _ IH|now s _ IH].
  - by apply Forall_nil.
  - destruct Hstep.
    + done.
    + by apply (updateOrderStatus_ledger cfg (filledBuys s)), ledger_ok_self.
    + by rewrite (proj1 (shouldEnterTrade_frame cfg _ _ _ _ now s)).
    + by apply executeTrade_no_pending_buy.
  - done.
  - by apply Forall_nil.
Qed.

Lemma checkCircuitBreaker_stays_released cfg now bid c :
  isCoolingDown c = false -> fst (checkCircuitBreaker cfg now bid c) = c.
Proof. intros Hc. unfold checkCircuitBreaker. by rewrite Hc. Qed.

Lemma observe_released cfg obs :
  forall c, isCoolingDown c = false -> observe cfg obs c = c.
Proof.
  unfold observe. induction obs as [|o obs IH]; intros c Hc; cbn; [done|].
  rewrite checkCircuitBreaker_stays_released by done. by apply IH.
Qed.

(** While the breaker stays engaged and no new low is seen, its counter is
    the number of observations above the crash-low. *)
Lemma observe_counts cfg obs :
  forall c,
    isCoolingDown c = true ->
    Forall (fun o => ~ (0 < o.2 /\ o.2 < crashLowPrice c)) obs ->
    isCoolingDown (observe cfg obs c) = true ->
    stabilityCounter (observe cfg obs c)
    = (stabilityCounter c + count_above (crashLowPrice c) obs)%Z
    /\ crashLowPrice (observe cfg obs c) = crashLowPrice c.
Proof.
  unfold count_above.
  induction obs as [|[now bid] obs IH]; intros c Hc Hall Hend.
  - cbn. split; [lia | done].
  - apply Forall_cons in Hall as [Hnl Hall]. cbn [fst snd] in Hnl.
    change (observe cfg ((now, bid) :: obs) c)
      with (observe cfg obs (fst (checkCircuitBreaker cfg now bid c))) in *.
    destruct (isCoolingDown (fst (checkCircuitBreaker cfg now bid c))) eqn:Hmid.
    2:{ rewrite observe_released in Hend by done. congruence. }
    destruct (checkCircuitBreaker_counts cfg now bid c Hc Hnl Hmid) as [Hcnt Hlow].
    destruct (IH _ Hmid) as [IH1 IH2]; [by rewrite Hlow | done |].
    rewrite IH1, IH2, Hcnt, Hlow. split; [|done].
    unfold stability_count. cbn [List.filter snd].
    destruct (JS.gtb bid (crashLowPrice c)); cbn [length]; lia.
Qed.



(** A main tick is a sequence of tick steps. *)
Lemma mainTick_steps cfg market spot strike prices t books now s :
  rtc (tick_step cfg now books) s (mainTick cfg market spot strike prices t books now s).
Proof.
  unfold mainTick.
  set (s1 := match prices with Some p => _ | None => s end).
  assert (H1 : rtc (tick_step cfg now books) s s1).
  { subst s1. destruct prices as [p|]; [|apply rtc_refl].
    set (sa := if JS.gtb (upAsk p) 0 || JS.gtb (upBid p) 0 then _ else s).
    assert (Ha : rtc (tick_step cfg now books) s sa).
    { subst sa. destruct (_ || _); [|apply rtc_refl]. apply rtc_once, ts_checkFills. }
    clearbody sa. eapply rtc_trans; [exact Ha|].
    destruct (_ || _); [|apply rtc_refl]. apply rtc_once, ts_checkFills. }
  clearbody s1. eapply rtc_trans; [exact H1|].
  eapply rtc_l; [apply (ts_updateOrderStatus cfg now books (Some t))|].
  set (s2 := updateOrderStatus cfg (Some t) books now s1).
  eapply rtc_l; [apply (ts_shouldEnterTrade cfg now books spot strike t prices)|].
  destruct (shouldEnterTrade cfg spot strike t prices now s2) as [s3 chk]. cbn [fst].
  destruct (shouldTrade chk && _); [|apply rtc_refl].
  destruct (direction chk) as [dir|]; [|apply rtc_refl].
  apply rtc_once, ts_executeTrade.
Qed.

(** Over a whole main tick: a FILLED BUY is created only if the tick's own
    [updateOrderStatus] has released the breaker first. *)
Lemma mainTick_entry_after_release cfg market spot strike prices t books now s :
  reachable cfg s ->
  let fills :=
    match prices with
    | Some p =>
        let s :=
          if JS.gtb (upAsk p) 0 || JS.gtb (upBid p) 0
          then with_gateway
                 (fst (checkPaperFills (upTokenId market) (upAsk p) (upBid p) now
                         (executionGateway s))) s
          else s in
        if JS.gtb (downAsk p) 0 || JS.gtb (downBid p) 0
        then with_gateway
               (fst (checkPaperFills (downTokenId market) (downAsk p) (downBid p) now
                       (executionGateway s))) s
        else s
    | None => s
    end in
  isCoolingDown (circuitBreaker (updateOrderStatus cfg (Some t) books now fills)) = true ->
  forall k, k ∈ filledBuys (mainTick cfg market spot strike prices t books now s) ->
            k ∈ filledBuys s.
Proof.
  intros Hreach fills Hc k. unfold mainTick. fold fills.
  assert (Hf : tradeRecords fills = tradeRecords s).
  { subst fills. destruct prices as [p|]; [|done].
    destruct (_ || _); destruct (_ || _); done. }
  pose proof (reachable_no_pending_buy cfg s Hreach) as Hnp.
  assert (Hu : forall k, k ∈ filledBuys (updateOrderStatus cfg (Some t) books now fills)
                         -> k ∈ filledBuys s).
  { apply (updateOrderStatus_ledger cfg (filledBuys s)). split; rewrite Hf; [done|].
    by intros. }
  set (s2 := updateOrderStatus cfg (Some t) books now fills) in *.
  pose proof (shouldEnterTrade_cooling cfg spot strike t prices now s2 Hc) as Hrej.
  pose proof (shouldEnterTrade_frame cfg spot strike t prices now s2) as [Hrec _].
  destruct (shouldEnterTrade cfg spot strike t prices now s2) as [s3 chk].
  cbn [fst snd] in *. subst chk. cbn.
  unfold filledBuys. rewrite Hrec. apply Hu.
Qed.

(** * Further properties *)

(** ** Order ids of the paper gateway *)

Lemma to_uint_not_Nil n : Nat.to_uint n ≠ Decimal.Nil.
Proof.
  intros H. pose proof (DecimalNat.Unsigned.of_to n) as Hn. rewrite H in Hn.
  cbn in Hn. subst n. discriminate H.
Qed.

Lemma show_nat_inj n m : JS.show_nat n = JS.show_nat m -> n = m.
Proof.
  unfold JS.show_nat. intros H.
  apply DecimalNat.Unsigned.to_uint_inj.
  pose proof (NilZero.usu _ (to_uint_not_Nil n)) as Hn.
  pose proof (NilZero.usu _ (to_uint_not_Nil m)) as Hm.
  rewrite H in Hn. rewrite Hn in Hm. by injection Hm.
Qed.

Lemma paper_id_inj n m :
  ("PAPER_" +:+ JS.show_nat n)%string = ("PAPER_" +:+ JS.show_nat m)%string -> n = m.
Proof. intros H. cbn in H. injection H as H. by apply show_nat_inj. Qed.

Lemma fok_id_inj n m :
  ("PAPER_FOK_" +:+ JS.show_nat n)%string = ("PAPER_FOK_" +:+ JS.show_nat m)%string -> n = m.
Proof. intros H. cbn in H. injection H as H. by apply show_nat_inj. Qed.

Lemma issued_id_mono c c' k : (c <= c')%nat -> issued_id c k -> issued_id c' k.
Proof. intros Hle (n & Hn & Hk). exists n. split; [lia | done]. Qed.

Lemma paper_id_not_issued c :
  ~ issued_id c ("PAPER_" +:+ JS.show_nat c)%string.
Proof.
  intros (n & Hn & [Hk|Hk]).
  - apply paper_id_inj in Hk. lia.
  - symmetry in Hk. by apply fok_id_not_issued in Hk.
Qed.

Lemma fok_id_not_issued_below c :
  ~ issued_id c ("PAPER_FOK_" +:+ JS.show_nat c)%string.
Proof.
  intros (n & Hn & [Hk|Hk]).
  - by apply fok_id_not_issued in Hk.
  - apply fok_id_inj in Hk. lia.
Qed.

Lemma JSMap_set_fresh {V} k (v : V) m :
  k ∉ JSMap.keys m -> JSMap.set k v m = m ++ [(k, v)].
Proof.
  unfold JSMap.keys. induction m as [|[k0 v0] m IH]; cbn; [done|].
  intros Hk. apply not_elem_of_cons in Hk as [Hne Hk].
  rewrite bool_decide_false by done. by rewrite IH.
Qed.

Lemma JSMap_delete_fresh {V} k (m : list (string * V)) :
  k ∉ JSMap.keys m -> JSMap.delete k m = m.
Proof.
  unfold JSMap.keys. induction m as [|[k0 v0] m IH]; cbn; [done|].
  intros Hk. apply not_elem_of_cons in Hk as [Hne Hk].
  rewrite bool_decide_false by done. by rewrite IH.
Qed.

Lemma JSMap_delete_sublist {V} k (m : list (string * V)) :
  sublist (JSMap.delete k m) m.
Proof.
  induction m as [|[k0 v0] m IH]; cbn; [done|].
  case_bool_decide; [by apply sublist_cons | by apply sublist_skip].
Qed.

Lemma keys_sublist {V} (l k : list (string * V)) :
  sublist l k -> sublist (JSMap.keys l) (JSMap.keys k).
Proof.
  unfold JSMap.keys. induction 1; cbn; [done | by apply sublist_skip | by apply sublist_cons].
Qed.

Lemma elem_of_keys {V} (m : list (string * V)) k :
  k ∈ JSMap.keys m <-> exists e, e ∈ m /\ e.1 = k.
Proof.
  unfold JSMap.keys. induction m as [|[k0 v0] m IH]; cbn.
  - split; [by intros ?%elem_of_nil | by intros (e & ?%elem_of_nil & _)].
  - rewrite elem_of_cons, IH. split.
    + intros [->|(e & He & Hk)].
      * exists (k0, v0). split; [by apply elem_of_cons; left | done].
      * exists e. split; [by apply elem_of_cons; right | done].
    + intros (e & [->|He]%elem_of_cons & Hk); [by left | right; by exists e].
Qed.

Lemma loop_orders_sublist tokenId ask bid now entries :
  forall g,
    sublist (paperOrders (fst (checkPaperFills_loop tokenId ask bid now entries g)))
            (paperOrders g).
Proof.
  induction entries as [|[orderId order] rest IH]; intros g; cbn [checkPaperFills_loop];
    [done|].
  destruct (negb (bool_decide (order_tokenId order = tokenId))); [apply IH|].
  destruct (bool_decide (orderId ∈ filledPaperOrders g)).
  { etrans; [apply IH|]. cbn. apply JSMap_delete_sublist. }
  destruct (bool_decide (order_side order = BUY) && JS.gtb ask 0
            && JS.leb ask (order_price order)).
  { destruct (paperPositions _ !! tokenId); cbn; apply JSMap_delete_sublist. }
  destruct (bool_decide (order_side order = SELL) && JS.gtb bid 0
            && JS.geb bid (order_price order)).
  { destruct (paperPositions _ !! tokenId) as [p|]; cbn; [destruct (JS.leb _ _); cbn|];
      apply JSMap_delete_sublist. }
  apply IH.
Qed.

Lemma executePaperFAK_frame tokenId side price size now g :
  let g' := fst (executePaperFAK tokenId side price size now g) in
  paperOrders g' = paperOrders g
  /\ filledPaperOrders g' = filledPaperOrders g
  /\ paperOrderCounter g' = paperOrderCounter g
  /\ isExecutingTrade g' = isExecutingTrade g.
Proof.
  unfold executePaperFAK. destruct side.
  - destruct (JS.geb _ _); [|done]. cbn. by destruct (paperPositions g !! tokenId).
  - destruct (paperPositions g !! tokenId) as [p|]; [|done].
    destruct (JS.geb _ _); [|done]. by destruct (JS.ltb _ _).
Qed.

Lemma loop_counter tokenId ask bid now entries :
  forall g,
    paperOrderCounter (fst (checkPaperFills_loop tokenId ask bid now entries g))
    = paperOrderCounter g.
Proof.
  induction entries as [|[orderId order] rest IH]; intros g; cbn [checkPaperFills_loop];
    [done|].
  destruct (negb (bool_decide (order_tokenId order = tokenId))); [apply IH|].
  destruct (bool_decide (orderId ∈ filledPaperOrders g)); [by rewrite IH|].
  destruct (bool_decide (order_side order = BUY) && JS.gtb ask 0
            && JS.leb ask (order_price order)).
  { by destruct (paperPositions _ !! tokenId). }
  destruct (bool_decide (order_side order = SELL) && JS.gtb bid 0
            && JS.geb bid (order_price order)).
  { destruct (paperPositions _ !! tokenId) as [p|]; [destruct (JS.leb _ _)|]; done. }
  apply IH.
Qed.

Lemma placeFOKOrder_frame tokenId side amount price now g :
  let r := placeFOKOrder tokenId side amount price now g in
  paperOrders (fst r) = paperOrders g
  /\ match snd r with
     | inr orderId =>
         orderId = ("PAPER_FOK_" +:+ JS.show_nat (paperOrderCounter g))%string
         /\ filledPaperOrders (fst r) = filledPaperOrders g ∪ {[orderId]}
         /\ paperOrderCounter (fst r) = S (paperOrderCounter g)
     | inl _ =>
         filledPaperOrders (fst r) = filledPaperOrders g
         /\ paperOrderCounter (fst r) = paperOrderCounter g
     end.
Proof.
  unfold placeFOKOrder. destruct (isExecutingTrade g); [done|].
  pose proof (executePaperFAK_frame tokenId side (JS.num_or price (1 # 2))
                (match side with BUY => amount / JS.num_or price (1 # 2) | SELL => amount end)
                now (with_executing true g)) as (Ho & Hf & Hc & _).
  destruct (executePaperFAK _ _ _ _ _ _) as [g1 [|]]; cbn in *; by rewrite ?Ho, ?Hf, ?Hc.
Qed.

Lemma gateway_step_coherent g g' :
  gateway_step g g' -> ids_coherent g -> ids_coherent g'.
Proof.
  intros Hstep (Hnd & Hdis & Hiss). destruct Hstep.
  - (* placePaperOrder *)
    assert (Hfresh : ("PAPER_" +:+ JS.show_nat (paperOrderCounter g))%string
                     ∉ JSMap.keys (paperOrders g)).
    { intros Hin. by apply (paper_id_not_issued (paperOrderCounter g)), Hiss; left. }
    unfold ids_coherent. cbn. rewrite JSMap_set_fresh by done.
    unfold JSMap.keys in *. rewrite map_app. cbn [map fst]. split; [|split].
    + apply NoDup_app. split; [done|]. split; [|apply NoDup_singleton].
      intros k Hk ->%list_elem_of_singleton. done.
    + intros k [Hk| ->%list_elem_of_singleton]%elem_of_app; [by apply Hdis|].
      intros Hin. by apply (paper_id_not_issued (paperOrderCounter g)), Hiss; right.
    + intros k [[Hk| ->%list_elem_of_singleton]%elem_of_app|Hk].
      * apply (issued_id_mono (paperOrderCounter g)); [lia | by apply Hiss; left].
      * exists (paperOrderCounter g). split; [lia | by left].
      * apply (issued_id_mono (paperOrderCounter g)); [lia | by apply Hiss; right].
  - (* placeFOKOrder *)
    pose proof (placeFOKOrder_frame tokenId side amount price now g) as [Ho Hr].
    unfold ids_coherent. rewrite Ho.
    destruct (snd (placeFOKOrder tokenId side amount price now g)) as [e|orderId].
    + destruct Hr as [-> ->]. done.
    + destruct Hr as (-> & -> & ->). split; [done|]. split.
      * intros k Hk [Hin| ->%elem_of_singleton]%elem_of_union; [by apply (Hdis k)|].
        by apply (fok_id_not_issued_below (paperOrderCounter g)), Hiss; left.
      * intros k [Hk|[Hk| ->%elem_of_singleton]%elem_of_union].
        -- apply (issued_id_mono (paperOrderCounter g)); [lia | by apply Hiss; left].
        -- apply (issued_id_mono (paperOrderCounter g)); [lia | by apply Hiss; right].
        -- exists (paperOrderCounter g). split; [lia | by right].
  - (* cancelPaperOrder *)
    unfold cancelPaperOrder. destruct (JSMap.has _ _); [|done].
    unfold ids_coherent. cbn.
    pose proof (JSMap_delete_sublist orderId (paperOrders g)) as Hsub.
    split; [|split].
    + eapply sublist_NoDup; [exact Hnd | by apply keys_sublist].
    + intros k Hk. apply Hdis. by apply JSMap_keys_delete in Hk.
    + intros k [Hk|Hk]; apply Hiss; [left; by apply JSMap_keys_delete in Hk | by right].
  - (* executePaperFAK *)
    pose proof (executePaperFAK_frame tokenId side price size now g) as (Ho & Hf & Hc & _).
    unfold ids_coherent. by rewrite Ho, Hf, Hc.
  - (* checkPaperFills *)
    unfold checkPaperFills.
    pose proof (loop_orders_sublist tokenId ask bid now (paperOrders g) g) as Hsub.
    destruct (loop_after tokenId ask bid now (paperOrders g) g) as [Hel Hcase].
    unfold ids_coherent. rewrite loop_counter.
    assert (Hkeys : forall k,
              k ∈ JSMap.keys (paperOrders
                    (fst (checkPaperFills_loop tokenId ask bid now (paperOrders g) g))) ->
              k ∈ JSMap.keys (paperOrders g)).
    { intros k Hk. eapply elem_of_sublist; [exact Hk | by apply keys_sublist]. }
    split; [|split].
    + eapply sublist_NoDup; [exact Hnd | by apply keys_sublist].
    + intros k Hk. destruct Hcase as [[_ ->]|(e0 & Hin & _ & -> & Hne)]; [by apply Hdis, Hkeys|].
      intros [Hf| ->%elem_of_singleton]%elem_of_union; [exact (Hdis k (Hkeys k Hk) Hf)|].
      apply elem_of_keys in Hk as (e & He1 & He2). by apply (Hne e).
    + intros k [Hk|Hk]; [by apply Hiss; left; apply Hkeys|].
      destruct Hcase as [[_ Heq]|(e0 & Hin & _ & Heq & _)]; rewrite Heq in Hk;
        [by apply Hiss; right|].
      apply elem_of_union in Hk as [Hk| ->%elem_of_singleton]; [by apply Hiss; right|].
      apply Hiss. left. apply elem_of_keys. by exists e0.
  - (* clearAllState *)
    unfold ids_coherent. cbn. split; [apply NoDup_nil_2|]. split.
    + by intros k ?%elem_of_nil.
    + intros k [?%elem_of_nil|?%elem_of_empty]; done.
Qed.

Lemma gateway_reachable_coherent bankroll g :
  gateway_reachable bankroll g -> ids_coherent g.
Proof.
  induction 1 as [|g g' _ IH Hstep].
  - unfold ids_coherent. cbn. split; [apply NoDup_nil_2|]. split.
    + by intros k ?%elem_of_nil.
    + intros k [?%elem_of_nil|?%elem_of_empty]; done.
  - by apply (gateway_step_coherent g g').
Qed.

(** X1. In every state the paper gateway can reach, the open orders carry
    distinct ids, no open order id is in the filled index, and the ids that
    [placePaperOrder] and a successful [placeFOKOrder] hand out next are new:
    neither open nor filled. *)
Theorem gateway_ids_unique bankroll g :
  gateway_reachable bankroll g ->
  NoDup (JSMap.keys (paperOrders g))
  /\ (forall k, k ∈ JSMap.keys (paperOrders g) -> k ∉ filledPaperOrders g)
  /\ (forall tokenId side price size now,
        let id := snd (placePaperOrder tokenId side price size now g) in
        (id ∉ JSMap.keys (paperOrders g)) /\ (id ∉ filledPaperOrders g))
  /\ (forall tokenId side amount price now id,
        snd (placeFOKOrder tokenId side amount price now g) = inr id ->
        (id ∉ JSMap.keys (paperOrders g)) /\ (id ∉ filledPaperOrders g)).
Proof.
  intros Hreach.
  destruct (gateway_reachable_coherent bankroll g Hreach) as (Hnd & Hdis & Hiss).
  split; [done|]. split; [done|]. split.
  - intros tokenId side price size now. cbn.
    split; intros Hin; apply (paper_id_not_issued (paperOrderCounter g)), Hiss; auto.
  - intros tokenId side amount price now id Hr.
    pose proof (placeFOKOrder_frame tokenId side amount price now g) as [_ Hf].
    rewrite Hr in Hf. destruct Hf as (-> & _).
    split; intros Hin; apply (fok_id_not_issued_below (paperOrderCounter g)), Hiss; auto.
Qed.

Lemma gateway_ids_unique_witness :
  NoDup (JSMap.keys (paperOrders ex_gateway_one_buy))
  /\ (forall k, k ∈ JSMap.keys (paperOrders ex_gateway_one_buy) ->
        k ∉ filledPaperOrders ex_gateway_one_buy).
Proof.
  assert (Hr : gateway_reachable 20 ex_gateway_one_buy).
  { eapply gr_step; [apply gr_new | apply gs_placeLimit]. }
  destruct (gateway_ids_unique 20 ex_gateway_one_buy Hr) as (H1 & H2 & _).
  split; [exact H1 | exact H2].
Defined.

Lemma JSMap_keys_delete_self {V} k (m : list (string * V)) :
  k ∉ JSMap.keys (JSMap.delete k m).
Proof.
  unfold JSMap.keys. induction m as [|[k0 v0] m IH]; cbn; [by intros ?%elem_of_nil|].
  case_bool_decide as Hk; cbn; [done|].
  intros [->|Hin]%elem_of_cons; done.
Qed.

Lemma JSMap_has_set {V} k (v : V) m : JSMap.has k (JSMap.set k v m) = true.
Proof.
  unfold JSMap.has. induction m as [|[k0 v0] m IH]; cbn.
  - by rewrite bool_decide_true.
  - case_bool_decide as Hk; cbn.
    + by rewrite bool_decide_true.
    + by rewrite (bool_decide_false _ Hk).
Qed.

Lemma JSMap_delete_set_fresh {V} k (v : V) m :
  k ∉ JSMap.keys m -> JSMap.delete k (JSMap.set k v m) = m.
Proof.
  unfold JSMap.keys. induction m as [|[k0 v0] m IH]; cbn.
  - intros _. by rewrite bool_decide_true.
  - intros Hk. apply not_elem_of_cons in Hk as [Hne Hk].
    rewrite (bool_decide_false (k0 = k)) by done. cbn.
    rewrite (bool_decide_false (k0 = k)) by done. by rewrite IH.
Qed.

(** X2. In a reachable gateway, cancelling the order that [placePaperOrder]
    has just placed succeeds and puts the open orders back as they were;
    cash, positions and the filled index are untouched by the pair of calls. *)
Theorem place_then_cancel bankroll tokenId side price size now g :
  gateway_reachable bankroll g ->
  let placed := placePaperOrder tokenId side price size now g in
  let cancelled := cancelPaperOrder (snd placed) (fst placed) in
  snd cancelled = true
  /\ paperOrders (fst cancelled) = paperOrders g
  /\ paperCash (fst cancelled) = paperCash g
  /\ paperPositions (fst cancelled) = paperPositions g
  /\ filledPaperOrders (fst cancelled) = filledPaperOrders g.
Proof.
  intros Hreach placed cancelled.
  destruct (gateway_reachable_coherent bankroll g Hreach) as (_ & _ & Hiss).
  assert (Hk : snd (placePaperOrder tokenId side price size now g)
               ∉ JSMap.keys (paperOrders g)).
  { cbn. intros Hin. apply (paper_id_not_issued (paperOrderCounter g)), Hiss. auto. }
  subst cancelled placed. unfold cancelPaperOrder, placePaperOrder in *. cbn in *.
  rewrite JSMap_has_set. cbn. by rewrite JSMap_delete_set_fresh.
Qed.

Lemma place_then_cancel_witness :
  let placed := placePaperOrder "T" SELL (7 # 10) 3 5 ex_gateway_one_buy in
  let cancelled := cancelPaperOrder (snd placed) (fst placed) in
  snd cancelled = true
  /\ paperOrders (fst cancelled) = paperOrders ex_gateway_one_buy
  /\ paperCash (fst cancelled) = paperCash ex_gateway_one_buy
  /\ paperPositions (fst cancelled) = paperPositions ex_gateway_one_buy
  /\ filledPaperOrders (fst cancelled) = filledPaperOrders ex_gateway_one_buy.
Proof.
  apply (place_then_cancel 20 "T" SELL (7 # 10) 3 5 ex_gateway_one_buy).
  eapply gr_step; [apply gr_new | apply gs_placeLimit].
Defined.

Lemma gateway_step_counter g g' :
  gateway_step g g' -> (paperOrderCounter g <= paperOrderCounter g')%nat.
Proof.
  destruct 1.
  - cbn. lia.
  - pose proof (placeFOKOrder_frame tokenId side amount price now g) as [_ Hr].
    destruct (snd (placeFOKOrder tokenId side amount price now g));
      [destruct Hr as [_ ->] | destruct Hr as (_ & _ & ->)]; lia.
  - unfold cancelPaperOrder. destruct (JSMap.has _ _); cbn; lia.
  - pose proof (executePaperFAK_frame tokenId side price size now g) as (_ & _ & -> & _). lia.
  - unfold checkPaperFills. rewrite loop_counter. lia.
  - cbn. lia.
Qed.

Lemma gateway_step_retired k g g' :
  gateway_step g g' -> retired_id k g -> retired_id k g'.
Proof.
  intros Hstep (Hiss & Hno & Hnf).
  split; [exact (issued_id_mono _ _ _ (gateway_step_counter g g' Hstep) Hiss)|].
  destruct Hstep.
  - cbn. split; [|done]. intros [->|Hin]%JSMap_keys_set; [|done].
    by apply (paper_id_not_issued (paperOrderCounter g)).
  - pose proof (placeFOKOrder_frame tokenId side amount price now g) as [Ho Hr].
    rewrite Ho. split; [done|].
    destruct (snd (placeFOKOrder tokenId side amount price now g)) as [e|orderId].
    + by destruct Hr as [-> _].
    + destruct Hr as (-> & -> & _).
      intros [Hin| ->%elem_of_singleton]%elem_of_union; [done|].
      by apply (fok_id_not_issued_below (paperOrderCounter g)).
  - unfold cancelPaperOrder. destruct (JSMap.has _ _); cbn; [|done].
    split; [|done]. intros Hin. by apply JSMap_keys_delete in Hin.
  - pose proof (executePaperFAK_frame tokenId side price size now g) as (-> & -> & _). done.
  - unfold checkPaperFills. split.
    + intros Hin. by apply loop_orders_keys in Hin.
    + intros Hin. by apply loop_filled_from_entries in Hin as [?|?].
  - cbn. split; [by intros ?%elem_of_nil | by intros ?%elem_of_empty].
Qed.

(** X3. Once an open order of a reachable gateway has been cancelled, no
    later sequence of gateway calls ever fills it or makes it an open order
    again. *)
Theorem cancelled_order_never_fills bankroll orderId g g' :
  gateway_reachable bankroll g ->
  orderId ∈ JSMap.keys (paperOrders g) ->
  rtc gateway_step (fst (cancelPaperOrder orderId g)) g' ->
  isOrderFilled orderId g' = false /\ JSMap.has orderId (paperOrders g') = false.
Proof.
  intros Hreach Hopen Hrun.
  destruct (gateway_reachable_coherent bankroll g Hreach) as (_ & Hdis & Hiss).
  assert (Hret : retired_id orderId (fst (cancelPaperOrder orderId g))).
  { unfold cancelPaperOrder. destruct (JSMap.has orderId (paperOrders g)) eqn:Hhas; cbn.
    - split; [by apply Hiss; left|]. split; [apply JSMap_keys_delete_self | by apply Hdis].
    - exfalso. apply elem_of_keys in Hopen as ([k v] & He & Hk). cbn in Hk. subst k.
      revert Hhas He. unfold JSMap.has. generalize (paperOrders g).
      induction l as [|[k0 v0] m IH]; cbn; [by intros _ ?%elem_of_nil|].
      case_bool_decide as Hk; [done|].
      intros Hg [[= -> ->]|Hin]%elem_of_cons; [done | by apply IH]. }
  assert (Hfin : retired_id orderId g').
  { induction Hrun as [|g0 g1 g2 Hstep _ IH]; [done|].
    apply IH. by apply (gateway_step_retired orderId g0 g1). }
  destruct Hfin as (_ & Hno & Hnf). split.
  - unfold isOrderFilled. by apply bool_decide_eq_false.
  - destruct (JSMap.has orderId (paperOrders g')) eqn:Hh; [|done].
    by apply JSMap_has_keys in Hh.
Qed.

Lemma cancelled_order_never_fills_witness :
  let g' := fst (checkPaperFills "T" (49 # 100) (48 # 100) 9
                   (fst (cancelPaperOrder "PAPER_0" ex_gateway_one_buy))) in
  isOrderFilled "PAPER_0" g' = false /\ JSMap.has "PAPER_0" (paperOrders g') = false.
Proof.
  apply (cancelled_order_never_fills 20 "PAPER_0" ex_gateway_one_buy).
  - eapply gr_step; [apply gr_new | apply gs_placeLimit].
  - cbn. apply list_elem_of_singleton. reflexivity.
  - apply rtc_once. apply gs_checkFills.
Defined.

(** ** Fill-and-kill accounting *)

(** X4. A FAK BUY of [size] shares at [p] on a token without position, when
    the cash covers it, followed by a FAK SELL of the same [size] at [q]:
    both succeed, the position map is back to what it was, and the cash is
    the old cash plus [(q - p) * size]. *)
Theorem fak_round_trip tokenId p q size now now' g :
  paperPositions g !! tokenId = None ->
  p * size <= paperCash g ->
  let bought := executePaperFAK tokenId BUY p size now g in
  let sold := executePaperFAK tokenId SELL q size now' (fst bought) in
  snd bought = true /\ snd sold = true
  /\ paperPositions (fst sold) = paperPositions g
  /\ paperCash (fst sold) == paperCash g + (q - p) * size.
Proof.
  intros Hnone Hcash bought sold. subst sold bought.
  assert (Hb : executePaperFAK tokenId BUY p size now g
               = (with_positions (<[tokenId := mkPosition tokenId size p now]> (paperPositions g))
                    (with_cash (paperCash g - p * size) g), true)).
  { unfold executePaperFAK. rewrite (proj2 (geb_ge _ _) Hcash).
    cbn [with_cash paperPositions]. by rewrite Hnone. }
  rewrite Hb. cbn [fst snd].
  unfold executePaperFAK. cbn [with_positions with_cash paperPositions paperCash].
  rewrite lookup_insert_eq. cbn [pos_shares].
  rewrite (proj2 (geb_ge size size)) by apply Qle_refl.
  assert (Hz : JS.ltb (size - size) (1 # 1000000) = true).
  { apply ltb_lt. Lqa.lra. }
  rewrite Hz. cbn [fst snd with_positions with_cash paperPositions paperCash].
  repeat split.
  - rewrite delete_insert_eq. by apply delete_id.
  - Lqa.lra.
Qed.

Lemma fak_round_trip_witness :
  let bought := executePaperFAK "T" BUY (7 # 10) 2 1 (newGateway 20) in
  let sold := executePaperFAK "T" SELL (72 # 100) 2 2 (fst bought) in
  snd bought = true /\ snd sold = true
  /\ paperPositions (fst sold) = paperPositions (newGateway 20)
  /\ paperCash (fst sold) == paperCash (newGateway 20) + ((72 # 100) - (7 # 10)) * 2.
Proof.
  apply (fak_round_trip "T" (7 # 10) (72 # 100) 2 1 2 (newGateway 20)).
  - reflexivity.
  - discriminate.
Defined.

(** X5. A FAK BUY keeps the cost basis: on a token already held, the new
    position has the sum of the shares and its entry price times its shares
    is the old cost plus [price * size]; on a token not held, the position
    is [size] shares at [price].  The cash goes down by [price * size] and
    does not go below 0. *)
Theorem fak_buy_cost_basis tokenId price size now g :
  price * size <= paperCash g ->
  let r := executePaperFAK tokenId BUY price size now g in
  snd r = true
  /\ paperCash (fst r) = paperCash g - price * size
  /\ 0 <= paperCash (fst r)
  /\ exists p', paperPositions (fst r) !! tokenId = Some p'
       /\ pos_entryTime p' = now
       /\ match paperPositions g !! tokenId with
          | Some existing =>
              pos_shares p' = pos_shares existing + size
              /\ (~ pos_shares existing + size == 0 ->
                  pos_entryPrice p' * pos_shares p'
                  == pos_entryPrice existing * pos_shares existing + price * size)
          | None => pos_shares p' = size /\ pos_entryPrice p' = price
          end.
Proof.
  intros Hcash r. subst r. unfold executePaperFAK.
  rewrite (proj2 (geb_ge _ _) Hcash). cbn [with_cash paperPositions].
  destruct (paperPositions g !! tokenId) as [existing|]; cbn.
  - repeat split; [Lqa.lra|]. eexists. rewrite lookup_insert_eq. split; [done|].
    cbn. repeat split. intros Hnz. field. done.
  - repeat split; [Lqa.lra|]. eexists. rewrite lookup_insert_eq. done.
Qed.

Lemma fak_buy_cost_basis_witness :
  let r := executePaperFAK "T" BUY (7 # 10) 2 1 (newGateway 20) in
  snd r = true
  /\ paperCash (fst r) = paperCash (newGateway 20) - (7 # 10) * 2
  /\ 0 <= paperCash (fst r)
  /\ exists p', paperPositions (fst r) !! "T"%string = Some p'
       /\ pos_entryTime p' = 1%Z
       /\ match paperPositions (newGateway 20) !! "T"%string with
          | Some existing =>
              pos_shares p' = pos_shares existing + 2
              /\ (~ pos_shares existing + 2 == 0 ->
                  pos_entryPrice p' * pos_shares p'
                  == pos_entryPrice existing * pos_shares existing + (7 # 10) * 2)
          | None => pos_shares p' = 2 /\ pos_entryPrice p' = 7 # 10
          end.
Proof.
  apply (fak_buy_cost_basis "T" (7 # 10) 2 1 (newGateway 20)). discriminate.
Defined.



(** ** What one fill-check pass touches *)

Lemma JSMap_delete_keeps {V} k (m : list (string * V)) e :
  e ∈ m -> e.1 ≠ k -> e ∈ JSMap.delete k m.
Proof.
  induction m as [|[k0 v0] m IH]; cbn; [done|].
  intros [->|Hin]%elem_of_cons Hne.
  - cbn in Hne. rewrite bool_decide_false by done. by apply elem_of_cons; left.
  - case_bool_decide; [by apply IH|]. apply elem_of_cons; right. by apply IH.
Qed.

Lemma loop_keeps_entry tokenId ask bid now e entries :
  forall g,
    (forall k o, (k, o) ∈ entries -> order_tokenId o = tokenId -> e.1 ≠ k) ->
    e ∈ paperOrders g ->
    e ∈ paperOrders (fst (checkPaperFills_loop tokenId ask bid now entries g)).
Proof.
  induction entries as [|[orderId order] rest IH]; intros g Hk He; cbn [checkPaperFills_loop];
    [done|].
  assert (Hrest : forall k o, (k, o) ∈ rest -> order_tokenId o = tokenId -> e.1 ≠ k).
  { intros k o Hin. apply Hk. by apply elem_of_cons; right. }
  destruct (bool_decide (order_tokenId order = tokenId)) eqn:Htok; cbn [negb];
    [|by apply IH].
  apply bool_decide_eq_true in Htok.
  assert (Hne : e.1 ≠ orderId).
  { apply (Hk orderId order); [by apply elem_of_cons; left | done]. }
  destruct (bool_decide (orderId ∈ filledPaperOrders g)).
  { apply IH; [done|]. cbn. by apply JSMap_delete_keeps. }
  destruct (bool_decide (order_side order = BUY) && JS.gtb ask 0
            && JS.leb ask (order_price order)).
  { destruct (paperPositions _ !! tokenId); cbn; by apply JSMap_delete_keeps. }
  destruct (bool_decide (order_side order = SELL) && JS.gtb bid 0
            && JS.geb bid (order_price order)).
  { destruct (paperPositions _ !! tokenId) as [p|]; cbn; [destruct (JS.leb _ _); cbn|];
      by apply JSMap_delete_keeps. }
  by apply IH.
Qed.

Lemma loop_other_positions tokenId ask bid now t entries :
  t ≠ tokenId ->
  forall g,
    paperPositions (fst (checkPaperFills_loop tokenId ask bid now entries g)) !! t
    = paperPositions g !! t.
Proof.
  intros Hne. induction entries as [|[orderId order] rest IH]; intros g;
    cbn [checkPaperFills_loop]; [done|].
  destruct (negb (bool_decide (order_tokenId order = tokenId))); [apply IH|].
  destruct (bool_decide (orderId ∈ filledPaperOrders g)); [by rewrite IH|].
  destruct (bool_decide (order_side order = BUY) && JS.gtb ask 0
            && JS.leb ask (order_price order)).
  { destruct (paperPositions _ !! tokenId); cbn; by rewrite lookup_insert_ne. }
  destruct (bool_decide (order_side order = SELL) && JS.gtb bid 0
            && JS.geb bid (order_price order)).
  { destruct (paperPositions _ !! tokenId) as [p|]; cbn; [destruct (JS.leb _ _); cbn|];
      by rewrite ?lookup_insert_ne, ?lookup_delete_ne. }
  apply IH.
Qed.

Lemma NoDup_keys_same {V} (m : list (string * V)) e1 e2 :
  NoDup (JSMap.keys m) -> e1 ∈ m -> e2 ∈ m -> e1.1 = e2.1 -> e1 = e2.
Proof.
  unfold JSMap.keys. induction m as [|[k0 v0] m IH]; cbn; [by intros _ ?%elem_of_nil|].
  intros [Hnin Hnd]%NoDup_cons [->|H1]%elem_of_cons [->|H2]%elem_of_cons Hk; cbn in *.
  - done.
  - exfalso. apply Hnin. subst k0. apply (elem_of_keys m). by exists e2.
  - exfalso. apply Hnin. subst k0. apply (elem_of_keys m). by exists e1.
  - by apply IH.
Qed.

(** X7. One pass of [checkPaperFills] for a token fills at most one order,
    and that order is an open order of this token; it leaves every open
    order of another token open, and every position of another token as it
    was. *)
Theorem fill_pass_scope tokenId ask bid now g :
  NoDup (JSMap.keys (paperOrders g)) ->
  let g' := fst (checkPaperFills tokenId ask bid now g) in
  (filledPaperOrders g' = filledPaperOrders g
   \/ exists e, e ∈ paperOrders g /\ order_tokenId e.2 = tokenId
        /\ filledPaperOrders g' = filledPaperOrders g ∪ {[e.1]})
  /\ (forall e, e ∈ paperOrders g -> order_tokenId e.2 ≠ tokenId -> e ∈ paperOrders g')
  /\ (forall t, t ≠ tokenId -> paperPositions g' !! t = paperPositions g !! t).
Proof.
  intros Hnd g'. subst g'. unfold checkPaperFills. split; [|split].
  - destruct (loop_after tokenId ask bid now (paperOrders g) g) as [_ Hcase].
    destruct Hcase as [[_ Heq]|(e0 & Hin & Hf & Heq & _)]; [by left|].
    right. exists e0. split; [done|]. split; [|done].
    unfold fillableb in Hf. destruct (bool_decide (order_tokenId e0.2 = tokenId)) eqn:E;
      [by apply bool_decide_eq_true in E | done].
  - intros e He Htok. apply loop_keeps_entry; [|done].
    intros k o Hin Ho Hk. apply Htok.
    assert (e = (k, o)) as -> by (by apply (NoDup_keys_same (paperOrders g))). done.
  - intros t Ht. by apply loop_other_positions.
Qed.

Lemma fill_pass_scope_witness :
  let g' := fst (checkPaperFills "T" (49 # 100) (48 # 100) 1 ex_gateway_two_buys) in
  (filledPaperOrders g' = filledPaperOrders ex_gateway_two_buys
   \/ exists e, e ∈ paperOrders ex_gateway_two_buys /\ order_tokenId e.2 = "T"%string
        /\ filledPaperOrders g' = filledPaperOrders ex_gateway_two_buys ∪ {[e.1]})
  /\ (forall e, e ∈ paperOrders ex_gateway_two_buys -> order_tokenId e.2 ≠ "T"%string ->
        e ∈ paperOrders g')
  /\ (forall t, t ≠ "T"%string ->
        paperPositions g' !! t = paperPositions ex_gateway_two_buys !! t).
Proof.
  apply (fill_pass_scope "T" (49 # 100) (48 # 100) 1 ex_gateway_two_buys).
  cbn. apply NoDup_cons. split.
  - intros H%list_elem_of_singleton. discriminate H.
  - apply NoDup_singleton.
Defined.

(** ** Positions hold positive shares *)

Lemma positions_positive_insert tokenId p g :
  0 < pos_shares p -> positions_positive g ->
  positions_positive (with_positions (<[tokenId := p]> (paperPositions g)) g).
Proof.
  intros Hp Hpos t p0. cbn. rewrite lookup_insert.
  case_decide; [by intros [= <-] | apply Hpos].
Qed.

Lemma positions_positive_delete tokenId g :
  positions_positive g ->
  positions_positive (with_positions (delete tokenId (paperPositions g)) g).
Proof.
  intros Hpos t p0. cbn. rewrite lookup_delete.
  case_decide; [done | apply Hpos].
Qed.

Lemma executePaperFAK_positive tokenId side price size now g :
  0 < size -> positions_positive g ->
  positions_positive (fst (executePaperFAK tokenId side price size now g)).
Proof.
  intros Hs Hpos. unfold executePaperFAK. destruct side.
  - destruct (JS.geb _ _); [|done]. cbn [with_cash paperPositions].
    destruct (paperPositions g !! tokenId) as [existing|] eqn:He; cbn [fst].
    + apply (positions_positive_insert tokenId _ (with_cash _ g)); [|done].
      cbn. pose proof (Hpos _ _ He). Lqa.lra.
    + by apply (positions_positive_insert tokenId _ (with_cash _ g)).
  - destruct (paperPositions g !! tokenId) as [position|] eqn:He; [|done].
    destruct (JS.geb _ _); [|done].
    destruct (JS.ltb _ _) eqn:El; cbn [fst].
    + by apply (positions_positive_delete tokenId (with_cash _ g)).
    + apply (positions_positive_insert tokenId _ (with_cash _ g)); [|done].
      cbn. apply ltb_nlt in El. Lqa.lra.
Qed.

Lemma loop_positive tokenId ask bid now entries :
  forall g,
    Forall (fun e => 0 < order_size e.2) entries ->
    positions_positive g ->
    positions_positive (fst (checkPaperFills_loop tokenId ask bid now entries g)).
Proof.
  induction entries as [|[orderId order] rest IH]; intros g Hall Hpos;
    cbn [checkPaperFills_loop]; [done|].
  apply Forall_cons in Hall as [Hs Hall]. cbn in Hs.
  destruct (negb (bool_decide (order_tokenId order = tokenId))); [by apply IH|].
  destruct (bool_decide (orderId ∈ filledPaperOrders g)); [by apply IH|].
  destruct (bool_decide (order_side order = BUY) && JS.gtb ask 0
            && JS.leb ask (order_price order)).
  { cbn [with_cash paperPositions].
    destruct (paperPositions g !! tokenId) as [existing|] eqn:He; cbn [fst].
    - intros t p0. cbn. rewrite lookup_insert. case_decide; [|apply Hpos].
      intros [= <-]. cbn. pose proof (Hpos _ _ He). Lqa.lra.
    - intros t p0. cbn. rewrite lookup_insert. case_decide; [|apply Hpos].
      by intros [= <-]. }
  destruct (bool_decide (order_side order = SELL) && JS.gtb bid 0
            && JS.geb bid (order_price order)).
  { cbn [with_cash paperPositions].
    destruct (paperPositions g !! tokenId) as [position|] eqn:He; cbn [fst]; [|done].
    destruct (JS.leb _ _) eqn:El; cbn.
    - intros t p0. cbn. rewrite lookup_delete. case_decide; [done | apply Hpos].
    - intros t p0. cbn. rewrite lookup_insert. case_decide; [|apply Hpos].
      intros [= <-]. cbn. apply leb_nle in El. Lqa.lra. }
  by apply IH.
Qed.

Lemma Forall_of_sublist {A} (P : A -> Prop) (l k : list A) :
  sublist l k -> Forall P k -> Forall P l.
Proof.
  intros Hsub Hk. apply Forall_forall. intros x Hx.
  apply (proj1 (Forall_forall P k) Hk). by apply (elem_of_sublist l k).
Qed.

(** X8. As long as every order is placed or executed with a positive size,
    every position of the paper gateway holds a positive number of shares
    (a token whose shares are sold out has no position), and every open
    order has a positive size. *)
Theorem positions_stay_positive g g' :
  gateway_step_sized g g' ->
  positions_positive g /\ orders_positive g ->
  positions_positive g' /\ orders_positive g'.
Proof.
  unfold orders_positive. intros Hstep [Hpos Hord]. destruct Hstep.
  - split; [done|]. cbn.
    induction (paperOrders g) as [|[k0 o0] m IH]; cbn.
    + apply Forall_cons. split; [done | by apply Forall_nil].
    + apply Forall_cons in Hord as [H0 Hm].
      case_bool_decide; apply Forall_cons; split; auto.
  - pose proof (placeFOKOrder_frame tokenId BUY amount price now g) as [Ho _].
    rewrite Ho. split; [|done].
    unfold placeFOKOrder. destruct (isExecutingTrade g); [done|].
    pose proof (executePaperFAK_positive tokenId BUY (JS.num_or price (1 # 2))
                  (amount / JS.num_or price (1 # 2)) now (with_executing true g)) as Hp.
    destruct (executePaperFAK _ _ _ _ _ _) as [g1 [|]]; cbn in *; intros t p0; apply Hp;
      try done; apply Qlt_shift_div_l; try done; Lqa.lra.
  - pose proof (placeFOKOrder_frame tokenId SELL amount price now g) as [Ho _].
    rewrite Ho. split; [|done].
    unfold placeFOKOrder. destruct (isExecutingTrade g); [done|].
    pose proof (executePaperFAK_positive tokenId SELL (JS.num_or price (1 # 2))
                  amount now (with_executing true g)) as Hp.
    destruct (executePaperFAK _ _ _ _ _ _) as [g1 [|]]; cbn in *; intros t p0; by apply Hp.
  - unfold cancelPaperOrder. destruct (JSMap.has _ _); cbn; [|done]. split; [done|].
    eapply Forall_of_sublist; [apply JSMap_delete_sublist | done].
  - split; [by apply executePaperFAK_positive|].
    by rewrite (proj1 (executePaperFAK_frame tokenId side price size now g)).
  - split; [by apply loop_positive|].
    eapply Forall_of_sublist; [apply loop_orders_sublist | done].
  - split; [|by apply Forall_nil]. intros t p0. cbn. by rewrite lookup_empty.
Qed.

Lemma positions_stay_positive_witness :
  positions_positive (fst (executePaperFAK "T" BUY (7 # 10) 2 1 (newGateway 20)))
  /\ orders_positive (fst (executePaperFAK "T" BUY (7 # 10) 2 1 (newGateway 20))).
Proof.
  apply (positions_stay_positive (newGateway 20)).
  - apply gss_executeFAK. reflexivity.
  - split.
    + intros t p0. cbn. by rewrite lookup_empty.
    + by apply Forall_nil.
Defined.

(** ** The session lock *)

(** X9. [updateSessionPnL] adds the change to the session P&L and counts
    the trade; afterwards the session is locked exactly when it was locked
    before, or the new P&L has reached the profit target, or it has fallen to
    the loss limit.  It never unlocks. *)
Theorem session_lock_rule cfg pnlChange (x : SessionState) :
  let x' := updateSessionPnL cfg pnlChange x in
  sessionPnL x' = sessionPnL x + pnlChange
  /\ tradesThisSession x' = (tradesThisSession x + 1)%Z
  /\ sessionStartTime x' = sessionStartTime x
  /\ (isSessionLocked x' = true
      <-> isSessionLocked x = true
          \/ SESSION_PROFIT_TARGET cfg <= sessionPnL x + pnlChange
          \/ sessionPnL x + pnlChange <= - SESSION_LOSS_LIMIT cfg).
Proof.
  unfold updateSessionPnL.
  destruct (JS.geb _ _) eqn:Eg; destruct (JS.leb _ _) eqn:El; cbn;
    (split; [done|]); (split; [done|]); (split; [done|]).
  - split; [intros _|done]. right. left. by apply geb_ge.
  - split; [intros _|done]. right. left. by apply geb_ge.
  - split; [intros _|done]. right. right. by apply leb_le.
  - split; [by left|]. intros [H|[H|H]]; [done | |].
    + apply geb_nge in Eg. contradiction.
    + apply leb_nle in El. contradiction.
Qed.


Section Locked.
Variable cfg : Config.





End Locked.



(** ** Entry decisions *)

(** X11. When [shouldEnterTrade] accepts with book prices at hand, the
    direction is UP exactly when the spot is above the strike; and if the
    ask of the chosen token is positive, it lies inside
    [MIN_ENTRY_PRICE, MAX_ENTRY_PRICE] and the safe-zone filter
    [isInKillZone] lets the tick through. *)
Theorem accepted_entry_is_in_safe_zone cfg spot strike t p now s :
  shouldTrade (snd (shouldEnterTrade cfg spot strike t (Some p) now s)) = true ->
  let dir := if JS.gtb (spot - strike) 0 then UP else DOWN in
  let ask := match dir with UP => upAsk p | DOWN => downAsk p end in
  direction (snd (shouldEnterTrade cfg spot strike t (Some p) now s)) = Some dir
  /\ 150 < t
  /\ (0 < ask ->
      MIN_ENTRY_PRICE cfg <= ask /\ ask <= MAX_ENTRY_PRICE cfg
      /\ isInKillZone cfg p = false).
Proof.
  unfold shouldEnterTrade.
  destruct (isSessionLocked _); [done|].
  set (dir := if JS.gtb (spot - strike) 0 then UP else DOWN).
  set (ask := match dir with UP => upAsk p | DOWN => downAsk p end).
  destruct (JS.gtb ask 0 && JS.ltb ask (MIN_ENTRY_PRICE cfg)
            || JS.gtb ask 0 && JS.gtb ask (MAX_ENTRY_PRICE cfg)) eqn:Egate; [done|].
  cbn [with_quantEngine circuitBreaker with_priceHistory].
  destruct (isCoolingDown _); [done|].
  destruct ((0 <? _)%Z && _); [done|].
  destruct (hasPendingTrades _); [done|].
  destruct (JS.leb t 150) eqn:Et; [done|].
  intros _. cbn zeta. cbn [snd direction].
  split; [done|]. split; [by apply Qnot_le_lt, leb_nle|].
  intros Hpos. apply gtb_gt in Hpos. rewrite Hpos in Egate. cbn in Egate.
  apply orb_false_iff in Egate as [E1 E2].
  apply ltb_nlt, Qnot_lt_le in E1. apply gtb_ngt, Qnot_lt_le in E2.
  split; [done|]. split; [done|].
  unfold isInKillZone. subst ask. destruct dir.
  - rewrite Hpos, (proj2 (geb_ge _ _) E1), (proj2 (leb_le _ _) E2). done.
  - rewrite Hpos, (proj2 (geb_ge _ _) E1), (proj2 (leb_le _ _) E2). cbn.
    by rewrite andb_false_r.
Qed.

Lemma accepted_entry_is_in_safe_zone_witness :
  let r := snd (shouldEnterTrade defaultConfig 89800 89750 400 (Some ex_prices) 1000
                  (newStrategy defaultConfig 0 (newGateway 20))) in
  direction r = Some UP /\ 150 < 400
  /\ (0 < upAsk ex_prices ->
      MIN_ENTRY_PRICE defaultConfig <= upAsk ex_prices
      /\ upAsk ex_prices <= MAX_ENTRY_PRICE defaultConfig
      /\ isInKillZone defaultConfig ex_prices = false).
Proof.
  apply (accepted_entry_is_in_safe_zone defaultConfig 89800 89750 400 ex_prices 1000
           (newStrategy defaultConfig 0 (newGateway 20))).
  vm_compute. reflexivity.
Defined.

Lemma executePaperFAK_false tokenId side price size now g :
  snd (executePaperFAK tokenId side price size now g) = false ->
  fst (executePaperFAK tokenId side price size now g) = g.
Proof.
  unfold executePaperFAK. destruct side.
  - destruct (JS.geb _ _); [|done]. cbn. by destruct (paperPositions g !! tokenId).
  - destruct (paperPositions g !! tokenId) as [p|]; [|done].
    destruct (JS.geb _ _); [|done]. by destruct (JS.ltb _ _).
Qed.

Lemma placeFOKOrder_failed tokenId side amount price now g e :
  snd (placeFOKOrder tokenId side amount price now g) = inl e ->
  let g' := fst (placeFOKOrder tokenId side amount price now g) in
  paperCash g' = paperCash g
  /\ paperPositions g' = paperPositions g
  /\ paperOrders g' = paperOrders g
  /\ filledPaperOrders g' = filledPaperOrders g
  /\ paperOrderCounter g' = paperOrderCounter g.
Proof.
  unfold placeFOKOrder. destruct (isExecutingTrade g); [done|].
  pose proof (executePaperFAK_false tokenId side (JS.num_or price (1 # 2))
                (match side with BUY => amount / JS.num_or price (1 # 2) | SELL => amount end)
                now (with_executing true g)) as Hf.
  destruct (executePaperFAK _ _ _ _ _ _) as [g1 [|]]; [done|].
  cbn in *. intros _. by rewrite Hf.
Qed.

Lemma placeFOKOrder_id_truthy tokenId side amount price now g id :
  snd (placeFOKOrder tokenId side amount price now g) = inr id ->
  JS.truthy_str id = true.
Proof.
  intros Hr. pose proof (placeFOKOrder_frame tokenId side amount price now g) as [_ Hid].
  rewrite Hr in Hid. destruct Hid as (-> & _). reflexivity.
Qed.

(** X12. When [executeTrade] returns null, nothing was traded: the ledger,
    the active-position index, the record counter, the circuit breaker, the
    session state, and the gateway's cash, positions, open orders, filled
    index and id counter are all as before. *)
Theorem executeTrade_null_changes_nothing cfg market dir books now s :
  snd (executeTrade cfg market dir books now s) = None ->
  let s' := fst (executeTrade cfg market dir books now s) in
  tradeRecords s' = tradeRecords s
  /\ activePositions s' = activePositions s
  /\ orderCounter s' = orderCounter s
  /\ circuitBreaker s' = circuitBreaker s
  /\ sessionState s' = sessionState s
  /\ paperCash (executionGateway s') = paperCash (executionGateway s)
  /\ paperPositions (executionGateway s') = paperPositions (executionGateway s)
  /\ paperOrders (executionGateway s') = paperOrders (executionGateway s)
  /\ filledPaperOrders (executionGateway s') = filledPaperOrders (executionGateway s)
  /\ paperOrderCounter (executionGateway s') = paperOrderCounter (executionGateway s).
Proof.
  unfold executeTrade.
  destruct (hasPendingTrades s); [done|].
  destruct (isCoolingDown _); [done|].
  destruct (books _) as [ob|]; [|done].
  destruct (JS.leb _ _); [done|].
  destruct (JS.gtb _ _); [done|].
  destruct (_ && _); [done|].
  cbn [with_lock executionGateway].
  match goal with
  | |- context [placeFOKOrder ?a ?b ?c ?d ?e ?f] =>
      pose proof (fun x => placeFOKOrder_failed a b c d e f x) as Hfail;
      pose proof (placeFOKOrder_id_truthy a b c d e f) as Htr;
      destruct (placeFOKOrder a b c d e f) as [g [e0|buyOrderId]]
  end.
  - intros _. destruct (Hfail e0 eq_refl) as (?&?&?&?&?). cbn in *. done.
  - rewrite (Htr buyOrderId eq_refl). cbn [negb].
    by destruct (JS.ltb (bestAsk ob) (99 # 100)).
Qed.

Lemma executeTrade_null_changes_nothing_witness :
  let s := ex_poor in
  let s' := fst (executeTrade defaultConfig ex_market UP (ex_books (68 # 100) (66 # 100)) 1000 s) in
  tradeRecords s' = tradeRecords s
  /\ activePositions s' = activePositions s
  /\ orderCounter s' = orderCounter s
  /\ circuitBreaker s' = circuitBreaker s
  /\ sessionState s' = sessionState s
  /\ paperCash (executionGateway s') = paperCash (executionGateway s)
  /\ paperPositions (executionGateway s') = paperPositions (executionGateway s)
  /\ paperOrders (executionGateway s') = paperOrders (executionGateway s)
  /\ filledPaperOrders (executionGateway s') = filledPaperOrders (executionGateway s)
  /\ paperOrderCounter (executionGateway s') = paperOrderCounter (executionGateway s).
Proof.
  apply (executeTrade_null_changes_nothing defaultConfig ex_market UP
           (ex_books (68 # 100) (66 # 100)) 1000 ex_poor).
  vm_compute. reflexivity.
Defined.

Lemma placeFOKOrder_buy_ok tokenId amount price now g id :
  snd (placeFOKOrder tokenId BUY amount price now g) = inr id ->
  let g' := fst (placeFOKOrder tokenId BUY amount price now g) in
  paperCash g' == paperCash g - amount
  /\ 0 <= paperCash g'
  /\ id ∈ filledPaperOrders g'
  /\ is_Some (paperPositions g' !! tokenId).
Proof.
  unfold placeFOKOrder. destruct (isExecutingTrade g); [done|].
  pose proof (fok_buy_cost price amount) as Hcost.
  unfold executePaperFAK. cbn [with_executing paperCash].
  destruct (JS.geb (paperCash g) _) eqn:Hge; [|done].
  apply geb_ge in Hge. rewrite Hcost in Hge.
  cbn [with_cash paperPositions with_executing].
  destruct (paperPositions g !! tokenId); cbn; intros [= <-].
  all: repeat split; try (rewrite Hcost; Lqa.lra); try Lqa.lra;
    try (apply elem_of_union; right; by apply elem_of_singleton);
    rewrite lookup_insert_eq; eauto.
Qed.

Lemma JSMap_get_set_eq {V} k (v : V) m : JSMap.get k (JSMap.set k v m) = Some v.
Proof.
  induction m as [|[k0 v0] m IH]; cbn.
  - by rewrite bool_decide_true.
  - case_bool_decide as Hk; cbn.
    + by rewrite bool_decide_true.
    + by rewrite (bool_decide_false _ Hk).
Qed.

Lemma JSMap_get_set_ne {V} k k' (v : V) m :
  k ≠ k' -> JSMap.get k' (JSMap.set k v m) = JSMap.get k' m.
Proof.
  intros Hne. induction m as [|[k0 v0] m IH]; cbn.
  - by rewrite bool_decide_false.
  - case_bool_decide as Hk; cbn.
    + subst k0. by rewrite !(bool_decide_false (k = k')).
    + case_bool_decide; [done | apply IH].
Qed.

Lemma trade_id_inj n m :
  ("trade_" +:+ JS.show_nat n)%string = ("trade_" +:+ JS.show_nat m)%string -> n = m.
Proof. intros H. cbn in H. injection H as H. by apply show_nat_inj. Qed.

(** X13. When [executeTrade] returns a pair of order ids, the book of the
    chosen token had a positive ask and a spread within
    [MAX_ALLOWED_SPREAD]; the ledger holds, under a new record id, a FILLED
    BUY at the ask rounded to 4 decimals carrying the configured stop
    distance; that record id is active; the FOK id reads as filled; the cash
    is down by exactly [price * size] of that record and not negative; and
    the time of the trade is stamped.  If the ask is below 0.99 the gateway
    also holds a resting SELL of the same size at [min(round4(price +
    FIXED_PROFIT_TARGET), 0.99)], the ledger holds the PENDING SELL paired
    with the BUY, and the trading lock stays on; otherwise no SELL is placed
    and the lock is released. *)
Theorem executeTrade_success cfg market dir books now s buyOrderId sellOrderId :
  snd (executeTrade cfg market dir books now s) = Some (buyOrderId, sellOrderId) ->
  let s' := fst (executeTrade cfg market dir books now s) in
  let tokenId := match dir with UP => upTokenId market | DOWN => downTokenId market end in
  let buyId := next_trade_id s in
  exists ob size,
    books tokenId = Some ob
    /\ 0 < bestAsk ob
    /\ bestAsk ob - bestBid ob <= MAX_ALLOWED_SPREAD cfg
    /\ JSMap.get buyId (tradeRecords s')
       = Some (mkTradeRecord buyId now (eventSlug market) BUY tokenId dir
                 (JS.round4 (bestAsk ob)) size buyOrderId FILLED None None
                 (Some (FIXED_STOP_LOSS cfg)) None)
    /\ activePositions s' = [buyId]
    /\ isOrderFilled buyOrderId (executionGateway s') = true
    /\ paperCash (executionGateway s')
       == paperCash (executionGateway s) - JS.round4 (bestAsk ob) * size
    /\ 0 <= paperCash (executionGateway s')
    /\ lastTradeTime (circuitBreaker s') = now
    /\ if JS.ltb (bestAsk ob) (99 # 100)
       then isTradingLocked s' = true
            /\ JSMap.get sellOrderId (paperOrders (executionGateway s'))
               = Some (mkOrder sellOrderId tokenId SELL
                         (Qmin (JS.round4 (JS.round4 (bestAsk ob) + FIXED_PROFIT_TARGET cfg))
                               (99 # 100))
                         size now)
            /\ exists sellId,
                 JSMap.get sellId (tradeRecords s')
                 = Some (mkTradeRecord sellId now (eventSlug market) SELL tokenId dir
                           (Qmin (JS.round4 (JS.round4 (bestAsk ob) + FIXED_PROFIT_TARGET cfg))
                                 (99 # 100))
                           size sellOrderId PENDING (Some buyId) (Some LIMIT) None None)
       else isTradingLocked s' = false /\ sellOrderId = ""%string.
Proof.
  unfold executeTrade.
  destruct (hasPendingTrades s) eqn:Hpend; [done|].
  destruct (isCoolingDown _); [done|].
  assert (Hact : activePositions s = []).
  { revert Hpend. unfold hasPendingTrades. destruct (isTradingLocked s); [done|].
    destruct (existsb _ _); [done|].
    destruct (activePositions s); [done|]. cbn. done. }
  destruct (books _) as [ob|] eqn:Hbook; [|done].
  destruct (JS.leb (bestAsk ob) 0) eqn:Hask; [done|].
  destruct (JS.gtb _ (MAX_ALLOWED_SPREAD cfg)) eqn:Hspread; [done|].
  destruct (_ && _); [done|].
  cbn [with_lock executionGateway].
  match goal with
  | |- context [placeFOKOrder ?a ?b ?c ?d ?e ?f] =>
      pose proof (placeFOKOrder_buy_ok a c d e f) as Hok;
      pose proof (placeFOKOrder_id_truthy a b c d e f) as Htr;
      pose proof (placeFOKOrder_frame a b c d e f) as [Hord _];
      destruct (placeFOKOrder a b c d e f) as [g [e0|fokId]]
  end; [done|].
  rewrite (Htr fokId eq_refl). cbn [negb].
  destruct (Hok fokId eq_refl) as (Hcash & Hnn & Hfilled & _). cbn [fst] in *.
  set (size := JS.round4 (_ / bestAsk ob)) in *.
  apply leb_nle, Qnot_le_lt in Hask. apply gtb_ngt, Qnot_lt_le in Hspread.
  unfold next_trade_id.
  destruct (JS.ltb (bestAsk ob) (99 # 100)) eqn:E99; cbn.
  - intros [= <- <-]. exists ob, size. rewrite Hact, E99. cbn.
    repeat split; try done.
    + rewrite JSMap_get_set_ne, JSMap_get_set_eq; [done|].
      intros H%trade_id_inj. lia.
    + unfold isOrderFilled. by apply bool_decide_eq_true.
    + apply JSMap_get_set_eq.
    + eexists. apply JSMap_get_set_eq.
  - intros [= <- <-]. exists ob, size. rewrite Hact, E99. cbn.
    repeat split; try done.
    + apply JSMap_get_set_eq.
    + unfold isOrderFilled. by apply bool_decide_eq_true.
Qed.

Lemma executeTrade_success_witness :
  exists ob size,
    ex_books (75 # 100) (74 # 100) (upTokenId ex_market) = Some ob
    /\ 0 < bestAsk ob
    /\ JSMap.get "trade_0" (tradeRecords ex_entered)
       = Some (mkTradeRecord "trade_0" 1000 (eventSlug ex_market) BUY (upTokenId ex_market) UP
                 (JS.round4 (bestAsk ob)) size "PAPER_FOK_0" FILLED None None
                 (Some (FIXED_STOP_LOSS defaultConfig)) None)
    /\ activePositions ex_entered = ["trade_0"%string].
Proof.
  destruct (executeTrade_success defaultConfig ex_market UP (ex_books (75 # 100) (74 # 100))
              1000 (newStrategy defaultConfig 0 (newGateway 20)) "PAPER_FOK_0" "PAPER_1")
    as (ob & size & H1 & H2 & _ & H4 & H5 & _).
  - vm_compute. reflexivity.
  - exists ob, size. repeat split; assumption.
Defined.

(** ** One position at a time *)

Lemma active_delete_length id a : (length (active_delete id a) <= length a)%nat.
Proof. unfold active_delete. apply length_filter. Qed.

Section OnePosition.
Variable cfg : Config.

Lemma exitPosition_active id activePosition bet bid now s :
  (length (activePositions (exitPosition cfg id activePosition bet bid now s))
   <= length (activePositions s))%nat.
Proof.
  unfold exitPosition.
  set (s1 := match find_pendingSell id (JSMap.values (tradeRecords s)) with
             | Some pendingSell => _
             | None => s
             end).
  assert (H1 : activePositions s1 = activePositions s).
  { subst s1. destruct (find_pendingSell _ _) as [ps|]; [|done].
    by destruct (cancelPaperOrder _ _) as [g b]. }
  clearbody s1. rewrite <- H1.
  destruct (executePaperFAK _ _ _ _ _ _) as [g sold].
  destruct sold; [|done].
  destruct (negb _); cbn; apply active_delete_length.
Qed.

Lemma monitorPosition_active t books now id s :
  (length (activePositions (monitorPosition cfg t books now id s))
   <= length (activePositions s))%nat.
Proof.
  unfold monitorPosition.
  destruct (JSMap.get id (tradeRecords s)) as [ap|]; [|done].
  destruct (books (tr_tokenId ap)) as [ob|]; [|done].
  set (s1 := if negb (read_breakEvenTriggered ap) && _ then _ else s).
  assert (H1 : activePositions s1 = activePositions s).
  { subst s1. by destruct (negb _ && _). }
  clearbody s1. rewrite <- H1.
  destruct (JS.gtb _ _ && JS.ltb _ _); [apply exitPosition_active|].
  destruct t as [t|]; [|done].
  destruct (JS.ltb _ _ && JS.gtb _ _); [|done].
  destruct (find_pendingSell _ _) as [ps|]; [|done].
  by destruct (cancelPaperOrder _ _) as [g b].
Qed.

Lemma syncRecord_active tradeId s :
  no_pending_buy (tradeRecords s) ->
  (length (activePositions (syncRecord cfg tradeId s)) <= length (activePositions s))%nat.
Proof.
  intros Hnp. unfold syncRecord.
  destruct (JSMap.get tradeId (tradeRecords s)) as [record|] eqn:Hget; [|done].
  destruct (bool_decide (tr_status record = PENDING)) eqn:Hp; cbn [andb]; [|done].
  apply bool_decide_eq_true in Hp.
  destruct (isOrderFilled _ _); [|done].
  destruct (tr_side record) eqn:Hside.
  - exfalso. apply JSMap_get_elem in Hget.
    pose proof (proj1 (Forall_forall _ _) Hnp _ Hget) as Hrec. by apply Hrec.
  - destruct (tr_pairedWith record) as [buyId|]; [|done].
    cbn. destruct (JSMap.get buyId _); cbn; apply active_delete_length.
Qed.

Lemma updateOrderStatus_active t books now s :
  no_pending_buy (tradeRecords s) ->
  (length (activePositions (updateOrderStatus cfg t books now s))
   <= length (activePositions s))%nat.
Proof.
  intros Hnp. unfold updateOrderStatus.
  set (s1 := if isCoolingDown (circuitBreaker s) && _ then _ else s).
  assert (H1 : activePositions s1 = activePositions s /\ tradeRecords s1 = tradeRecords s).
  { subst s1. destruct (_ && _); [|done]. by destruct (books _). }
  destruct H1 as [Ha Hr]. rewrite <- Ha. rewrite <- Hr in Hnp. clearbody s1.
  destruct (_ =? _)%nat; [done|].
  assert (Hm : forall ids s0, ledger_ok (filledBuys s1) (tradeRecords s0) ->
             let s2 := fold_left (fun s id => monitorPosition cfg t books now id s) ids s0 in
             ledger_ok (filledBuys s1) (tradeRecords s2)
             /\ (length (activePositions s2) <= length (activePositions s0))%nat).
  { induction ids as [|i ids IH]; intros s0 H0; cbn; [by split|].
    destruct (IH (monitorPosition cfg t books now i s0)) as [Hl Hle].
    { by apply monitorPosition_ledger. }
    split; [done|]. etrans; [exact Hle | apply monitorPosition_active]. }
  assert (Hs : forall ids s0, ledger_ok (filledBuys s1) (tradeRecords s0) ->
             (length (activePositions
                (fold_left (fun s tradeId => syncRecord cfg tradeId s) ids s0))
              <= length (activePositions s0))%nat).
  { induction ids as [|i ids IH]; intros s0 H0; cbn; [done|].
    etrans; [apply IH; by apply syncRecord_ledger|].
    apply syncRecord_active. by destruct H0. }
  destruct (Hm (activePositions s1) s1 (ledger_ok_self s1 Hnp)) as [Hl Hle].
  etrans; [by apply Hs | exact Hle].
Qed.

Lemma shouldEnterTrade_active spot strike t prices now s :
  activePositions (fst (shouldEnterTrade cfg spot strike t prices now s))
  = activePositions s.
Proof.
  unfold shouldEnterTrade.
  destruct (isSessionLocked _); [done|].
  set (s1 := match prices with Some p => _ | None => s end).
  assert (H1 : activePositions s1 = activePositions s).
  { subst s1. by destruct prices. }
  clearbody s1.
  destruct (match prices with Some p => _ | None => false end); [done|].
  cbn [with_quantEngine circuitBreaker]. destruct (isCoolingDown (circuitBreaker s1)); [done|].
  destruct (_ && _); [done|].
  destruct (hasPendingTrades _); [done|].
  by destruct (JS.leb _ _).
Qed.

Lemma executeTrade_active market dir books now s :
  (length (activePositions s) <= 1)%nat ->
  (length (activePositions (fst (executeTrade cfg market dir books now s))) <= 1)%nat.
Proof.
  intros Hle. unfold executeTrade.
  destruct (hasPendingTrades s) eqn:Hpend; [done|].
  destruct (isCoolingDown _); [done|].
  assert (Hact : activePositions s = []).
  { revert Hpend. unfold hasPendingTrades. destruct (isTradingLocked s); [done|].
    destruct (existsb _ _); [done|].
    destruct (activePositions s); [done|]. cbn. done. }
  destruct (books _) as [ob|]; [|done].
  destruct (JS.leb _ _); [done|].
  destruct (JS.gtb _ _); [done|].
  destruct (_ && _); [done|].
  destruct (placeFOKOrder _ _ _ _ _ _) as [g [e|buyOrderId]]; [done|].
  destruct (negb (JS.truthy_str buyOrderId)); [done|].
  assert (Hone : forall id, (length (active_set id []) <= 1)%nat).
  { intros id. unfold active_set. rewrite bool_decide_eq_false_2 by apply not_elem_of_nil.
    cbn. lia. }
  destruct (JS.ltb (bestAsk ob) (99 # 100)); cbn; rewrite Hact; apply Hone.
Qed.

End OnePosition.

(** X14. In every reachable state the strategy has at most one active
    position. *)
Theorem one_position_at_a_time cfg s :
  reachable cfg s -> (length (activePositions s) <= 1)%nat.
Proof.
  induction 1 as [now bankroll|now books s s' Hreach IH Hstep|? ? ? ? s _ IH|now s _ IH].
  - cbn. lia.
  - pose proof (reachable_no_pending_buy cfg s Hreach) as Hnp.
    destruct Hstep.
    + done.
    + etrans; [by apply updateOrderStatus_active | done].
    + by rewrite shouldEnterTrade_active.
    + by apply executeTrade_active.
  - done.
  - cbn. lia.
Qed.

Lemma one_position_at_a_time_witness : (length (activePositions ex_entered) <= 1)%nat.
Proof.
  apply (one_position_at_a_time defaultConfig).
  apply (reach_tick defaultConfig 1000 (ex_books (75 # 100) (74 # 100))
           (newStrategy defaultConfig 0 (newGateway 20)));
    [apply reach_new | apply ts_executeTrade].
Defined.

(** ** The strategy never overdraws the paper account *)

Lemma round4_nonneg x : 0 <= x -> 0 <= JS.round4 x.
Proof.
  intros Hx. unfold JS.round4, JS.Math_round.
  assert (H0 : (0 <= Qfloor (x * 10000 + (1 # 2)))%Z).
  { change 0%Z with (Qfloor 0). apply Qfloor_resp_le. Lqa.lra. }
  apply Qle_shift_div_l; [Lqa.lra|]. rewrite Qmult_0_l.
  change 0 with (inject_Z 0). by rewrite <- Zle_Qle.
Qed.

Lemma Qdiv_nonneg a b : 0 <= a -> 0 < b -> 0 <= a / b.
Proof. intros Ha Hb. apply Qle_shift_div_l; [done|]. by rewrite Qmult_0_l. Qed.

Lemma num_or_pos price d :
  0 < d -> (forall q, price = Some q -> 0 <= q) -> 0 < JS.num_or price d.
Proof.
  intros Hd Hq. destruct price as [q|]; cbn; [|done].
  destruct (Qeq_bool q 0) eqn:E; [done|].
  pose proof (Hq q eq_refl) as H0.
  apply Qeq_bool_neq in E. apply Qle_lt_or_eq in H0 as [H0|H0]; [done|].
  exfalso. apply E. by symmetry.
Qed.

Lemma Forall_JSMap_set {V} (P : string * V -> Prop) k v m :
  P (k, v) -> Forall P m -> Forall P (JSMap.set k v m).
Proof.
  intros Hk. induction m as [|[k' v'] m IH]; cbn; intros Hm.
  - by apply Forall_cons.
  - apply Forall_cons in Hm as [H1 H2]. case_bool_decide; apply Forall_cons; auto.
Qed.

Lemma ledger_sized_mutate id f records :
  (forall r, tr_size (f r) = tr_size r) ->
  ledger_sized records -> ledger_sized (mutate id f records).
Proof.
  intros Hf. unfold ledger_sized.
  induction records as [|[k r] m IH]; cbn; [done|].
  intros [Hr Hm]%Forall_cons. case_bool_decide; apply Forall_cons; cbn in *.
  - by rewrite Hf.
  - split; [done | by apply IH].
Qed.

Ltac gw_simpl :=
  cbn [fst snd paperCash paperOrders paperPositions filledPaperOrders
       with_cash with_positions with_orders with_filled with_counter with_executing].

Lemma executePaperFAK_sound tokenId side price size now g :
  0 <= price -> 0 <= size -> account_sound g ->
  account_sound (fst (executePaperFAK tokenId side price size now g)).
Proof.
  intros Hp Hs (Hc & Ho & Hpos).
  pose proof (Qmult_le_0_compat _ _ Hp Hs) as Hps.
  unfold executePaperFAK. destruct side.
  - destruct (JS.geb _ _) eqn:Hge; [|done]. apply geb_ge in Hge.
    cbn [with_cash paperPositions].
    destruct (paperPositions g !! tokenId) as [existing|] eqn:He; cbn [fst].
    + split; [gw_simpl; Lqa.lra|]. split; [done|].
      intros t p0. gw_simpl. rewrite lookup_insert. case_decide; [|apply Hpos].
      intros [= <-]. cbn [pos_shares]. pose proof (Hpos _ _ He). Lqa.lra.
    + split; [gw_simpl; Lqa.lra|]. split; [done|].
      intros t p0. gw_simpl. rewrite lookup_insert. case_decide; [|apply Hpos].
      by intros [= <-].
  - destruct (paperPositions g !! tokenId) as [position|] eqn:He; [|done].
    destruct (JS.geb _ _); [|done].
    destruct (JS.ltb _ _) eqn:El; cbn [fst].
    + split; [gw_simpl; Lqa.lra|]. split; [done|].
      intros t p0. gw_simpl. rewrite lookup_delete. case_decide; [done | apply Hpos].
    + split; [gw_simpl; Lqa.lra|]. split; [done|].
      intros t p0. gw_simpl. rewrite lookup_insert. case_decide; [|apply Hpos].
      intros [= <-]. cbn [pos_shares]. apply ltb_nlt in El. Lqa.lra.
Qed.

Lemma placeFOKOrder_buy_sound tokenId amount price now g :
  0 <= amount -> (forall q, price = Some q -> 0 <= q) -> account_sound g ->
  account_sound (fst (placeFOKOrder tokenId BUY amount price now g)).
Proof.
  intros Ha Hq Hg. unfold placeFOKOrder. destruct (isExecutingTrade g); [done|].
  pose proof (num_or_pos price (1 # 2) eq_refl Hq) as Hpos.
  pose proof (executePaperFAK_sound tokenId BUY (JS.num_or price (1 # 2))
                (amount / JS.num_or price (1 # 2)) now (with_executing true g)) as Hf.
  destruct (executePaperFAK _ _ _ _ _ _) as [g1 [|]]; cbn in *;
    apply Hf; try done; try Lqa.lra; by apply Qdiv_nonneg.
Qed.

Lemma cancelPaperOrder_sound orderId g :
  account_sound g -> account_sound (fst (cancelPaperOrder orderId g)).
Proof.
  intros (Hc & Ho & Hpos). unfold cancelPaperOrder.
  destruct (JSMap.has _ _); [|done]. split; [done|]. split; [|done].
  cbn. eapply Forall_of_sublist; [apply JSMap_delete_sublist | done].
Qed.

Lemma loop_sound tokenId ask bid now entries :
  forall g,
    Forall (fun e => order_side e.2 = SELL /\ 0 <= order_size e.2) entries ->
    account_sound g ->
    account_sound (fst (checkPaperFills_loop tokenId ask bid now entries g)).
Proof.
  induction entries as [|[orderId order] rest IH]; intros g Hall Hg;
    cbn [checkPaperFills_loop]; [done|].
  apply Forall_cons in Hall as [[Hside Hs] Hall]. cbn in Hside, Hs.
  destruct (negb (bool_decide (order_tokenId order = tokenId))); [by apply IH|].
  destruct (bool_decide (orderId ∈ filledPaperOrders g)).
  { apply IH; [done|]. destruct Hg as (Hc & Ho & Hpos). split; [done|]. split; [|done].
    cbn. eapply Forall_of_sublist; [apply JSMap_delete_sublist | done]. }
  rewrite (bool_decide_eq_false_2 (order_side order = BUY)) by (by rewrite Hside).
  cbn [andb].
  destruct (bool_decide (order_side order = SELL) && JS.gtb bid 0
            && JS.geb bid (order_price order)) eqn:E; [|by apply IH].
  apply andb_true_iff in E as [E _]. apply andb_true_iff in E as [_ Hb].
  apply gtb_gt in Hb. destruct Hg as (Hc & Ho & Hpos).
  assert (Hfp : 0 <= Qmax bid (order_price order) * order_size order).
  { apply Qmult_le_0_compat; [|done].
    pose proof (Q.le_max_l bid (order_price order)). Lqa.lra. }
  assert (Hdel : Forall (fun e => order_side e.2 = SELL /\ 0 <= order_size e.2)
                   (JSMap.delete orderId (paperOrders g))).
  { eapply Forall_of_sublist; [apply JSMap_delete_sublist | done]. }
  cbn [with_cash paperPositions].
  destruct (paperPositions g !! tokenId) as [position|] eqn:He; cbn [fst].
  - destruct (JS.leb _ _) eqn:El; unfold account_sound; gw_simpl.
    + split; [Lqa.lra|]. split; [done|].
      intros t p0. rewrite lookup_delete. case_decide; [done | apply Hpos].
    + split; [Lqa.lra|]. split; [done|].
      intros t p0. rewrite lookup_insert. case_decide; [|apply Hpos].
      intros [= <-]. cbn [pos_shares]. apply leb_nle in El. Lqa.lra.
  - unfold account_sound; gw_simpl. split; [Lqa.lra|]. by split.
Qed.

Lemma emergencyExit_sound market tokenId p books now g :
  paperPositions g !! tokenId = Some p ->
  account_sound g -> account_sound (emergencyExit market p books now g).
Proof.
  intros Hp Hg. unfold emergencyExit.
  destruct (books _) as [ob|]; [|done].
  apply executePaperFAK_sound; [| |done].
  - destruct (JS.gtb _ _) eqn:E; [|done]. apply gtb_gt in E. Lqa.lra.
  - destruct Hg as (_ & _ & Hpos). by apply (Hpos tokenId).
Qed.

Section Sound.
Variable cfg : Config.

Lemma exitPosition_sound id activePosition bet bid now s :
  0 <= tr_size activePosition ->
  strategy_sound s -> strategy_sound (exitPosition cfg id activePosition bet bid now s).
Proof.
  intros Hsz Hs. unfold exitPosition.
  set (s1 := match find_pendingSell id (JSMap.values (tradeRecords s)) with
             | Some pendingSell => _
             | None => s
             end).
  assert (H1 : strategy_sound s1).
  { subst s1. destruct (find_pendingSell _ _) as [ps|]; [|done].
    pose proof (cancelPaperOrder_sound (tr_orderId ps) (executionGateway s)) as Hcan.
    destruct (cancelPaperOrder _ _) as [g b]. destruct Hs as [Hg Hl].
    split; cbn; [by apply Hcan | by apply ledger_sized_mutate]. }
  clearbody s1. destruct H1 as [Hg1 Hl1].
  pose proof (executePaperFAK_sound (tr_tokenId activePosition) SELL
                (Qmax (1 # 100) (bid - (2 # 100))) (tr_size activePosition) now
                (executionGateway s1)) as Hf.
  destruct (executePaperFAK _ _ _ _ _ _) as [g sold]. cbn [fst] in Hf.
  assert (Hg : account_sound g).
  { apply Hf; [|done|done].
    pose proof (Q.le_max_l (1 # 100) (bid - (2 # 100))). Lqa.lra. }
  destruct sold; [|by split].
  destruct (negb _); split; cbn; try done; by apply Forall_JSMap_set.
Qed.

Lemma monitorPosition_sound t books now id s :
  strategy_sound s -> strategy_sound (monitorPosition cfg t books now id s).
Proof.
  intros Hs. unfold monitorPosition.
  destruct (JSMap.get id (tradeRecords s)) as [ap|] eqn:Hget; [|done].
  assert (Hsz : 0 <= tr_size ap).
  { apply JSMap_get_elem in Hget. destruct Hs as [_ Hl].
    exact (proj1 (Forall_forall _ _) Hl _ Hget). }
  destruct (books (tr_tokenId ap)) as [ob|]; [|done].
  set (s1 := if negb (read_breakEvenTriggered ap) && _ then _ else s).
  assert (H1 : strategy_sound s1).
  { subst s1. destruct (negb _ && _); [|done]. destruct Hs as [Hg Hl].
    split; [done|]. cbn. by apply ledger_sized_mutate. }
  clearbody s1.
  destruct (JS.gtb _ _ && JS.ltb _ _); [by apply exitPosition_sound|].
  destruct t as [t|]; [|done].
  destruct (JS.ltb _ _ && JS.gtb _ _); [|done].
  destruct (find_pendingSell _ _) as [ps|]; [|done].
  pose proof (cancelPaperOrder_sound (tr_orderId ps) (executionGateway s1)) as Hcan.
  destruct (cancelPaperOrder _ _) as [g b]. destruct H1 as [Hg Hl].
  split; cbn; [by apply Hcan | by apply ledger_sized_mutate].
Qed.

Lemma syncRecord_sound tradeId s :
  strategy_sound s -> strategy_sound (syncRecord cfg tradeId s).
Proof.
  intros [Hg Hl]. unfold syncRecord.
  destruct (JSMap.get tradeId (tradeRecords s)) as [record|]; [|done].
  destruct (_ && _); [|done].
  assert (Hm : ledger_sized (mutate tradeId (set_status FILLED) (tradeRecords s)))
    by by apply ledger_sized_mutate.
  destruct (tr_side record); [by split|].
  destruct (tr_pairedWith record); [|by split].
  cbn. destruct (JSMap.get _ _); by split.
Qed.

Lemma updateOrderStatus_sound t books now s :
  strategy_sound s -> strategy_sound (updateOrderStatus cfg t books now s).
Proof.
  intros Hs. unfold updateOrderStatus.
  set (s1 := if isCoolingDown (circuitBreaker s) && _ then _ else s).
  assert (H1 : strategy_sound s1).
  { subst s1. destruct (_ && _); [|done]. by destruct (books _). }
  clearbody s1.
  destruct (_ =? _)%nat; [done|].
  assert (Hm : forall ids s0, strategy_sound s0 ->
             strategy_sound
               (fold_left (fun s id => monitorPosition cfg t books now id s) ids s0)).
  { induction ids as [|i ids IH]; intros s0 H0; cbn; [done|].
    by apply IH, monitorPosition_sound. }
  assert (Hy : forall ids s0, strategy_sound s0 ->
             strategy_sound (fold_left (fun s tradeId => syncRecord cfg tradeId s) ids s0)).
  { induction ids as [|i ids IH]; intros s0 H0; cbn; [done|].
    by apply IH, syncRecord_sound. }
  by apply Hy, Hm.
Qed.

Lemma shouldEnterTrade_sound spot strike t prices now s :
  strategy_sound s ->
  strategy_sound (fst (shouldEnterTrade cfg spot strike t prices now s)).
Proof.
  intros Hs. unfold shouldEnterTrade.
  destruct (isSessionLocked _); [done|].
  set (s1 := match prices with Some p => _ | None => s end).
  assert (H1 : strategy_sound s1).
  { subst s1. by destruct prices. }
  clearbody s1.
  destruct (match prices with Some p => _ | None => false end); [done|].
  cbn [with_quantEngine circuitBreaker]. destruct (isCoolingDown (circuitBreaker s1)); [done|].
  destruct (_ && _); [done|].
  destruct (hasPendingTrades _); [done|].
  by destruct (JS.leb _ _).
Qed.

Lemma executeTrade_sound market dir books now s :
  0 <= MIN_ORDER_SIZE cfg ->
  strategy_sound s -> strategy_sound (fst (executeTrade cfg market dir books now s)).
Proof.
  intros Hmin [Hg Hl]. unfold executeTrade.
  destruct (hasPendingTrades s); [by split|].
  destruct (isCoolingDown _); [by split|].
  destruct (books _) as [ob|]; [|by split].
  destruct (JS.leb (bestAsk ob) 0) eqn:Hask; [by split|].
  apply leb_nle, Qnot_le_lt in Hask.
  destruct (JS.gtb _ (MAX_ALLOWED_SPREAD cfg)); [by split|].
  destruct (_ && _); [by split|].
  cbn [with_lock executionGateway].
  set (amount := if JS.ltb _ (MIN_ORDER_SIZE cfg) then MIN_ORDER_SIZE cfg else _).
  assert (Ha : 0 <= amount).
  { subst amount. destruct (JS.ltb _ _) eqn:E2; [done|]. apply ltb_nlt in E2. Lqa.lra. }
  clearbody amount.
  set (size := JS.round4 (amount / bestAsk ob)).
  assert (Hsz : 0 <= size) by by apply round4_nonneg, Qdiv_nonneg.
  clearbody size.
  assert (Hrp : 0 <= JS.round4 (bestAsk ob)) by (apply round4_nonneg; Lqa.lra).
  match goal with
  | |- context [placeFOKOrder ?a ?b ?c ?d ?e ?f] =>
      pose proof (placeFOKOrder_buy_sound a c d e f) as Hok;
      destruct (placeFOKOrder a b c d e f) as [g [e0|fokId]]
  end; cbn [fst] in Hok.
  all: assert (Hg' : account_sound g)
         by (apply Hok; [by apply Qmult_le_0_compat | by intros q [= <-] | done]).
  { by split. }
  destruct (negb (JS.truthy_str fokId)); [by split|].
  destruct (JS.ltb (bestAsk ob) (99 # 100)); cbn.
  - destruct Hg' as (Hc & Ho & Hpos). split; cbn.
    + split; [done|]. split; [|done]. by apply Forall_JSMap_set.
    + apply Forall_JSMap_set; [done|]. by apply Forall_JSMap_set.
  - split; cbn; [done|]. by apply Forall_JSMap_set.
Qed.

End Sound.

(** X15. Started on a bankroll that is not negative and with a minimum
    order size that is not negative, the strategy never overdraws the paper
    account: after any run of tick steps, emergency exits and market
    rotations the cash is not negative, every open order is a SELL, and no
    position or recorded trade has a negative size. *)
Theorem strategy_never_overdraws cfg s :
  0 <= MIN_ORDER_SIZE cfg ->
  traded cfg s ->
  0 <= getPaperCash (executionGateway s)
  /\ Forall (fun e => order_side e.2 = SELL) (paperOrders (executionGateway s))
  /\ strategy_sound s.
Proof.
  intros Hmin Hrun.
  assert (Hs : strategy_sound s).
  { induction Hrun as [now bankroll Hb|now books s s' _ IH Hstep
                       |market tokenId p books now s _ IH Hp|now s _ IH].
    - split; [|by apply Forall_nil]. split; [done|]. split; [by apply Forall_nil|].
      intros t p. cbn. by rewrite lookup_empty.
    - destruct Hstep.
      + destruct IH as [Hg Hl]. split; [|done]. cbn.
        apply loop_sound; [by destruct Hg as (_ & ? & _) | done].
      + by apply updateOrderStatus_sound.
      + by apply shouldEnterTrade_sound.
      + by apply executeTrade_sound.
    - destruct IH as [Hg Hl]. split; [|done]. cbn. by apply (emergencyExit_sound _ tokenId).
    - destruct IH as [(Hc & _ & _) _]. split; [|by apply Forall_nil].
      split; [done|]. split; [by apply Forall_nil|].
      intros t p. cbn. by rewrite lookup_empty. }
  split; [by destruct Hs as [(? & _) _]|]. split; [|done].
  destruct Hs as [(_ & Ho & _) _]. eapply Forall_impl; [exact Ho|]. by intros e [? _].
Qed.

Lemma strategy_never_overdraws_witness :
  0 <= getPaperCash (executionGateway ex_entered)
  /\ Forall (fun e => order_side e.2 = SELL) (paperOrders (executionGateway ex_entered))
  /\ strategy_sound ex_entered.
Proof.
  apply (strategy_never_overdraws defaultConfig); [vm_compute; discriminate|].
  apply (traded_tick defaultConfig 1000 (ex_books (75 # 100) (74 # 100))
           (newStrategy defaultConfig 0 (newGateway 20)));
    [apply traded_new; vm_compute; discriminate | apply ts_executeTrade].
Defined.

(** ** The quant engine *)

Lemma ring_step {A} (n : nat) (pre : list A) (x : A) :
  let h := drop (length pre - n) pre ++ [x] in
  (if (n <? length h)%nat then shift h else h)
  = drop (length (pre ++ [x]) - n) (pre ++ [x]).
Proof.
  cbn zeta. rewrite !length_app, length_drop. cbn [length].
  destruct (Nat.ltb_spec n (length pre - (length pre - n) + 1)) as [Hlt|Hge].
  - assert (Hn : (n <= length pre)%nat) by lia.
    replace (length pre + 1 - n)%nat with (S (length pre - n)) by lia.
    unfold shift. rewrite <- drop_app_le by (rewrite ?length_drop; lia).
    generalize (pre ++ [x]). generalize (length pre - n)%nat. clear.
    intros k l. revert l. induction k as [|k IH]; intros [|a l]; cbn; done.
  - replace (length pre - n)%nat with 0%nat by lia.
    replace (length pre + 1 - n)%nat with 0%nat by lia. done.
Qed.

(** X16. Fed any series of samples, a fresh quant engine holds the last 60
    of them, in the order they came; its history length is the number of
    samples capped at 60, and it reports a minimum history exactly from the
    fifth sample on. *)
Theorem quant_ring_keeps_last_60 (samples : list PricePoint) :
  let q := feed samples (mkQuantEngine []) in
  qe_priceHistory q = drop (length samples - 60) samples
  /\ getHistoryLength q = Nat.min (length samples) 60
  /\ (hasMinimumHistory q = true <-> (5 <= length samples)%nat).
Proof.
  cbn zeta.
  assert (Hq : qe_priceHistory (feed samples (mkQuantEngine []))
               = drop (length samples - 60) samples); cycle 1.
  { unfold getHistoryLength, hasMinimumHistory. rewrite Hq, length_drop.
    split; [done|]. split; [lia|]. rewrite Nat.leb_le. lia. }
  assert (H : forall samples pre q,
             qe_priceHistory q = drop (length pre - 60) pre ->
             qe_priceHistory (feed samples q)
             = drop (length (pre ++ samples) - 60) (pre ++ samples)).
  { clear. induction samples as [|p samples IH]; intros pre q Hq; cbn.
    - by rewrite app_nil_r.
    - rewrite (IH (pre ++ [p])); [by rewrite <- app_assoc|].
      unfold updatePrice. cbn [qe_priceHistory]. rewrite Hq.
      destruct p as [price ts]. cbn [pp_price pp_timestamp].
      apply (ring_step 60 pre (mkPricePoint price ts)). }
  apply (H samples [] (mkQuantEngine [])). done.
Qed.

Lemma Qsum_const l c :
  Forall (fun d => d == c) l -> Qsum l == inject_Z (Z.of_nat (length l)) * c.
Proof.
  induction 1 as [|x l Hx _ IH]; cbn [Qsum length].
  - change (0 == 0 * c). Lqa.lra.
  - rewrite Nat2Z.inj_succ, <- Z.add_1_r, inject_Z_plus, IH, Hx.
    change (inject_Z 1) with 1. Lqa.lra.
Qed.

Lemma pop_variance_const l c :
  Forall (fun d => d == c) l -> pop_variance l == 0.
Proof.
  intros Hl. unfold pop_variance.
  destruct l as [|x0 l0] eqn:El; [done|]. rewrite <- El in *.
  assert (Hn : ~ inject_Z (Z.of_nat (length l)) == 0).
  { rewrite El. cbn [length]. rewrite Nat2Z.inj_succ, <- Z.add_1_r, inject_Z_plus.
    pose proof (Nat2Z.is_nonneg (length l0)) as H0. rewrite Zle_Qle in H0.
    change (inject_Z 0) with 0 in H0. change (inject_Z 1) with 1. Lqa.lra. }
  assert (Hm : pop_mean l == c).
  { unfold pop_mean. rewrite (Qsum_const l c Hl), Qmult_comm. by apply Qdiv_mult_l. }
  assert (Hs : forall m k, m == c -> Forall (fun d => d == c) k ->
                 Qsum (map (fun x => (x - m) ^ 2) k) == 0).
  { clear. intros m k Hm. induction 1 as [|x k Hx _ IH]; cbn [map Qsum]; [done|].
    rewrite IH, Hx, Hm. change ((c - c) ^ 2) with ((c - c) * (c - c)). Lqa.lra. }
  rewrite (Hs _ _ Hm Hl). unfold Qdiv. apply Qmult_0_l.
Qed.

(** X17. The volatility is that of the price changes, not of the price
    levels: when the sampled price moved by the same amount at every tick
    (a steady trend, or no move at all), the engine with at least 5 samples
    reports the floor of 5. *)
Theorem steady_trend_has_floor_volatility (q : QuantEngine) (c : Q) :
  (5 <= length (qe_priceHistory q))%nat ->
  Forall (fun d => d == c) (first_differences (map pp_price (qe_priceHistory q))) ->
  getVolatilityPerMinute q = 5%R.
Proof.
  intros Hlen Hall. unfold getVolatilityPerMinute.
  destruct (Nat.ltb_spec (length (qe_priceHistory q)) 5) as [?|_]; [lia|].
  rewrite price_changes_first_differences.
  rewrite (Qeq_eqR _ _ (variance_pop_variance _)).
  rewrite (Qeq_eqR _ _ (pop_variance_const _ c Hall)).
  replace (Q2R 0) with 0%R by (unfold Q2R; cbn; lra).
  rewrite sqrt_0, Rmult_0_l. apply Rmax_left. lra.
Qed.

Lemma steady_trend_has_floor_volatility_witness :
  getVolatilityPerMinute ex_engine_trend = 5%R.
Proof.
  apply (steady_trend_has_floor_volatility ex_engine_trend 2).
  - cbn. lia.
  - cbn. repeat constructor.
Defined.

Lemma normalCDF_opp z : z <> 0%R -> normalCDF (- z) = (1 - normalCDF z)%R.
Proof.
  intros Hz. unfold normalCDF. rewrite Rabs_Ropp.
  replace (- - z * - z / 2)%R with (- z * z / 2)%R by lra.
  destruct (Rle_dec 0 z) as [H1|H1], (Rle_dec 0 (- z)) as [H2|H2]; try lra.
Qed.

(** X18. The fair values of the two sides are complementary: whenever the
    spot price differs from the strike, the fair value of UP and that of DOWN
    sum to 1 (with time left, for a volatility other than 0).  At expiry with
    the spot on the strike both sides are worth 0. *)
Theorem fair_values_are_complementary (spotPrice strikePrice timeRemainingSeconds volatility : R) :
  (spotPrice <> strikePrice ->
   (0 < timeRemainingSeconds -> volatility <> 0)%R ->
   calculateFairValue spotPrice strikePrice timeRemainingSeconds volatility UP
   + calculateFairValue spotPrice strikePrice timeRemainingSeconds volatility DOWN = 1)%R
  /\ ((timeRemainingSeconds <= 0)%R ->
      calculateFairValue spotPrice spotPrice timeRemainingSeconds volatility UP = 0%R
      /\ calculateFairValue spotPrice spotPrice timeRemainingSeconds volatility DOWN = 0%R).
Proof.
  split.
  - intros Hne Hvol. unfold calculateFairValue.
    destruct (Rle_dec timeRemainingSeconds 0) as [Ht|Ht].
    + destruct (Rgt_dec spotPrice strikePrice), (Rlt_dec spotPrice strikePrice); lra.
    + assert (Hv : volatility <> 0%R) by (apply Hvol; lra).
      set (tf := sqrt (Rmax 0.01 (timeRemainingSeconds / 60))).
      assert (Htf : (0 < tf)%R).
      { apply sqrt_lt_R0. eapply Rlt_le_trans; [|apply Rmax_l]. lra. }
      assert (Hm : (volatility * tf)%R <> 0%R) by (apply Rmult_integral_contrapositive; lra).
      replace ((strikePrice - spotPrice) / (volatility * tf))%R
        with (- ((spotPrice - strikePrice) / (volatility * tf)))%R by (field; lra).
      rewrite normalCDF_opp; [lra|].
      intros H0. apply Rmult_integral in H0 as [H0|H0]; [lra|].
      by apply Rinv_neq_0_compat in H0.
  - intros Ht. unfold calculateFairValue.
    destruct (Rle_dec timeRemainingSeconds 0) as [_|?]; [|lra].
    destruct (Rgt_dec spotPrice spotPrice), (Rlt_dec spotPrice spotPrice); split; lra.
Qed.

Lemma fair_values_are_complementary_witness :
  (calculateFairValue 89800 89750 120 5 UP + calculateFairValue 89800 89750 120 5 DOWN = 1)%R.
Proof.
  apply (proj1 (fair_values_are_complementary 89800 89750 120 5)); intros; lra.
Defined.

(** ** The trend buffer *)

Lemma push_bounded_ring (M : Z) (pre : list Q) (x : Q) :
  push_bounded M x (drop (length pre - Z.to_nat M) pre)
  = drop (length (pre ++ [x]) - Z.to_nat M) (pre ++ [x]).
Proof.
  unfold push_bounded. rewrite <- (ring_step (Z.to_nat M) pre x). cbn zeta.
  set (h := drop _ pre ++ [x]).
  assert (Hlen : (1 <= length h)%nat) by (subst h; rewrite length_app; cbn; lia).
  destruct (Z.ltb_spec M (Z.of_nat (length h))), (Nat.ltb_spec (Z.to_nat M) (length h));
    try done; lia.
Qed.

Lemma observeBids_ring obs :
  forall preU preD p,
    upBids p = drop (length preU - Z.to_nat (maxSize p)) preU ->
    downBids p = drop (length preD - Z.to_nat (maxSize p)) preD ->
    let p' := observeBids obs p in
    let ups := preU ++ positive_bids (map fst obs) in
    let downs := preD ++ positive_bids (map snd obs) in
    maxSize p' = maxSize p
    /\ upBids p' = drop (length ups - Z.to_nat (maxSize p)) ups
    /\ downBids p' = drop (length downs - Z.to_nat (maxSize p)) downs.
Proof.
  unfold observeBids, positive_bids.
  induction obs as [|[u d] obs IH]; intros preU preD p HU HD; cbn zeta.
  - cbn. by rewrite !app_nil_r.
  - cbn [fold_left map List.filter fst snd].
    set (p1 := updatePriceHistory u d p).
    assert (Hm : maxSize p1 = maxSize p) by done.
    destruct (IH (if JS.gtb u 0 then preU ++ [u] else preU)
                 (if JS.gtb d 0 then preD ++ [d] else preD) p1) as (H1 & H2 & H3).
    + rewrite Hm. subst p1. unfold updatePriceHistory. cbn [upBids].
      destruct (JS.gtb u 0); [|done]. rewrite HU. apply push_bounded_ring.
    + rewrite Hm. subst p1. unfold updatePriceHistory. cbn [downBids].
      destruct (JS.gtb d 0); [|done]. rewrite HD. apply push_bounded_ring.
    + rewrite Hm in *. split; [done|].
      rewrite H2, H3. destruct (JS.gtb u 0), (JS.gtb d 0); by rewrite <- ?app_assoc.
Qed.

(** X19. The trend buffer of a strategy holds, for each token, the last
    [TREND_LOOKBACK_TICKS] positive bids it was shown, oldest first; a bid
    that is not positive is skipped. *)
Theorem trend_buffer_keeps_last_bids cfg (obs : list (Q * Q)) :
  let p := observeBids obs (initialPriceHistory cfg) in
  let n := Z.to_nat (TREND_LOOKBACK_TICKS cfg) in
  let ups := positive_bids (map fst obs) in
  let downs := positive_bids (map snd obs) in
  upBids p = drop (length ups - n) ups
  /\ downBids p = drop (length downs - n) downs.
Proof.
  destruct (observeBids_ring obs [] [] (initialPriceHistory cfg)) as (_ & H2 & H3); done.
Qed.

(** X20. With a positive look-back [n], the trend of a token is confirmed
    exactly when the buffer has been shown at least [n] positive bids of it
    and the newest of them lies at least [MIN_TREND_DELTA] above the one
    [n - 1] positive bids earlier. *)
Theorem trend_confirmed_iff cfg rc (direction : TokenType) (obs : list (Q * Q)) :
  (0 < TREND_LOOKBACK_TICKS cfg)%Z ->
  let p := observeBids obs (initialPriceHistory cfg) in
  let n := Z.to_nat (TREND_LOOKBACK_TICKS cfg) in
  let bids := positive_bids (map (match direction with UP => fst | DOWN => snd end) obs) in
  confirmed (checkTrendConfirmation cfg rc direction p) = true
  <-> (n <= length bids)%nat
      /\ exists oldest newest,
           bids !! (length bids - n)%nat = Some oldest
           /\ last bids = Some newest
           /\ MIN_TREND_DELTA rc <= newest - oldest.
Proof.
  intros HN p n bids.
  destruct (observeBids_ring obs [] [] (initialPriceHistory cfg) eq_refl eq_refl)
    as (_ & HU & HD).
  cbn [app] in HU, HD.
  change (maxSize (initialPriceHistory cfg)) with (TREND_LOOKBACK_TICKS cfg) in HU, HD.
  assert (Hh : match direction with UP => upBids p | DOWN => downBids p end
               = drop (length bids - n) bids).
  { subst p n bids. by destruct direction. }
  unfold checkTrendConfirmation. rewrite Hh. clear HU HD Hh.
  rewrite length_drop.
  destruct (Z.ltb_spec (Z.of_nat (length bids - (length bids - n)))
              (TREND_LOOKBACK_TICKS cfg)) as [Hlt|Hge].
  - cbn. split; [done|]. intros [Hn _]. lia.
  - assert (Hn : (n <= length bids)%nat) by lia.
    rewrite head_lookup, (last_lookup (drop _ _)), !lookup_drop, length_drop.
    replace (length bids - n + Init.Nat.pred (length bids - (length bids - n)))%nat
      with (Init.Nat.pred (length bids)) by lia.
    rewrite <- last_lookup, Nat.add_0_r.
    destruct (bids !! (length bids - n)%nat) as [oldest|];
      [destruct (last bids) as [newest|]|].
    + destruct (JS.geb (newest - oldest) (MIN_TREND_DELTA rc)) eqn:E; cbn; split.
      * intros _. split; [done|]. exists oldest, newest. by apply geb_ge in E.
      * done.
      * done.
      * intros (_ & o & w & [= <-] & [= <-] & Hd). by apply geb_nge in E.
    + cbn. split; [done|]. by intros (_ & o & w & _ & [=] & _).
    + cbn. split; [done|]. by intros (_ & o & w & [=] & _).
Qed.

Lemma trend_confirmed_iff_witness :
  confirmed
    (checkTrendConfirmation defaultConfig defaultRiskConfig UP
       (observeBids [(60 # 100, 40 # 100); (61 # 100, 39 # 100); (62 # 100, 38 # 100);
                     (63 # 100, 37 # 100); (64 # 100, 36 # 100)]
          (initialPriceHistory defaultConfig))) = true.
Proof.
  apply (trend_confirmed_iff defaultConfig defaultRiskConfig UP); [reflexivity|].
  split; [vm_compute; lia|].
  exists (60 # 100), (64 # 100). repeat split; vm_compute; (reflexivity || discriminate).
Defined.

(** ** The market clock *)

(** X21. Of the four slugs [getActiveMarket] tries, which are four
    consecutive 15-minute boundaries in descending order, exactly one names a
    market whose 15-minute window contains the current time: the first. *)
Theorem first_slug_is_the_running_window (now : Z) :
  slugsToTry now
  = [(currentBoundary now + 900)%Z; currentBoundary now;
     (currentBoundary now - 900)%Z; (currentBoundary now - 1800)%Z]
  /\ (currentBoundary now mod 900 = 0)%Z
  /\ forall timestamp, timestamp ∈ slugsToTry now ->
       (window_contains timestamp now <-> timestamp = nextBoundary now).
Proof.
  assert (Hb : (currentBoundary now * 1000 <= now
                /\ now < (currentBoundary now + 900) * 1000)%Z).
  { unfold currentBoundary, nowSec, interval. change (15 * 60)%Z with 900%Z.
    Z.div_mod_to_equations. lia. }
  split; [|split].
  - unfold slugsToTry, nextBoundary, prevBoundary, interval. change (15 * 60)%Z with 900%Z.
    by replace (currentBoundary now - 900 - 900)%Z with (currentBoundary now - 1800)%Z by lia.
  - unfold currentBoundary, interval. change (15 * 60)%Z with 900%Z. apply Z.mod_mul. lia.
  - intros timestamp Hin. unfold window_contains, slugsToTry, nextBoundary, prevBoundary,
      interval in *. change (15 * 60)%Z with 900%Z in *.
    rewrite !elem_of_cons in Hin.
    destruct Hin as [->|[->|[->|[->|Hin]]]]; [| | | |by apply elem_of_nil in Hin]; lia.
Qed.

Lemma shouldEnterTrade_time cfg spot strike t prices now s :
  shouldTrade (snd (shouldEnterTrade cfg spot strike t prices now s)) = true -> 150 < t.
Proof.
  unfold shouldEnterTrade.
  destruct (isSessionLocked _); [done|].
  destruct (match prices with Some p => _ | None => false end); [done|].
  cbn [with_quantEngine circuitBreaker].
  destruct (isCoolingDown _); [done|].
  destruct (_ && _); [done|].
  destruct (hasPendingTrades _); [done|].
  destruct (JS.leb t 150) eqn:E; [done|]. intros _.
  by apply leb_nle, Qnot_le_lt in E.
Qed.

(** X22. Fed the time that the market clock reports, as the tick does, the
    strategy accepts no entry in the last 150 seconds of a market or after its
    end: an accepted entry means that more than 150000 ms are left, that the
    market is valid and that it is not expiring within 150 seconds. *)
Theorem no_entry_in_the_last_150_seconds cfg spot strike endDate clock prices now s :
  shouldTrade
    (snd (shouldEnterTrade cfg spot strike (getTimeRemaining endDate clock * 60) prices now s))
  = true ->
  (150000 < endDate - clock)%Z
  /\ isMarketValid endDate clock = true
  /\ isMarketExpiring endDate 150 clock = false.
Proof.
  intros Hacc. apply shouldEnterTrade_time in Hacc.
  assert (Hd : (150000 < endDate - clock)%Z).
  { revert Hacc. unfold getTimeRemaining.
    destruct (Z.leb_spec (endDate - clock) 0) as [?|Hpos]; [Lqa.lra|].
    intros Hacc. apply Z.lt_nge. intros Hle. rewrite Zle_Qle in Hle.
    change (inject_Z 150000) with 150000 in Hle.
    assert (inject_Z (endDate - clock) / 1000 / 60 * 60
            == inject_Z (endDate - clock) / 1000) as He by (field; done).
    rewrite He in Hacc.
    apply (Qmult_lt_compat_r _ _ 1000) in Hacc; [|done].
    assert (inject_Z (endDate - clock) / 1000 * 1000 == inject_Z (endDate - clock)) as He2
      by (field; done).
    rewrite He2 in Hacc. Lqa.lra. }
  split; [done|]. split.
  - unfold isMarketValid. apply Z.ltb_lt. lia.
  - unfold isMarketExpiring. apply ltb_nlt. intros Hlt.
    rewrite Zlt_Qlt in Hd. change (inject_Z 150000) with 150000 in Hd. Lqa.lra.
Qed.

Lemma no_entry_in_the_last_150_seconds_witness :
  (150000 < 400000 - 0)%Z
  /\ isMarketValid 400000 0 = true
  /\ isMarketExpiring 400000 150 0 = false.
Proof.
  apply (no_entry_in_the_last_150_seconds defaultConfig 89800 89750 400000 0
           (Some ex_prices) 1000 (newStrategy defaultConfig 0 (newGateway 20))).
  vm_compute. reflexivity.
Defined.

(** ** Statistics *)

Lemma filter_side_length (records : list TradeRecord) :
  length records
  = (length (List.filter (fun r => bool_decide (tr_side r = BUY)) records)
     + length (List.filter (fun r => bool_decide (tr_side r = SELL)) records))%nat.
Proof.
  induction records as [|r records IH]; [done|]. cbn [List.filter].
  destruct (tr_side r).
  - rewrite (bool_decide_eq_true_2 (BUY = BUY)), (bool_decide_eq_false_2 (BUY = SELL)) by done.
    cbn [length]. lia.
  - rewrite (bool_decide_eq_false_2 (SELL = BUY)), (bool_decide_eq_true_2 (SELL = SELL)) by done.
    cbn [length]. lia.
Qed.

(** X23. The statistics count every record once, as a BUY or as a SELL, and
    without a usable bid (no prices given, as in the rotation summary, or
    bids that are not positive) they value the naked positions at cost: the
    unrealized P&L is 0 and the net P&L is the realized one. *)
Theorem stats_without_bids_value_at_cost (currentPrices : option Prices) (s : Strategy) :
  (forall p, currentPrices = Some p -> upBid p <= 0 /\ downBid p <= 0) ->
  let stats := getStats currentPrices s in
  unrealizedPNL stats == 0
  /\ netPNL stats == realizedPNL stats
  /\ totalTrades stats = (totalBuyOrders stats + totalSellOrders stats)%nat.
Proof.
  intros Hbids stats.
  assert (Hmv : forall pos, marketValue currentPrices pos == tr_price pos * tr_size pos).
  { intros pos. unfold marketValue. destruct currentPrices as [p|]; [|done].
    destruct (Hbids p eq_refl) as [Hu Hd].
    destruct (JS.gtb _ 0) eqn:E; [|done]. apply gtb_gt in E.
    destruct (tr_tokenType pos); Lqa.lra. }
  assert (Hfold : forall l a,
            fold_left (fun acc pos =>
                         acc + (marketValue currentPrices pos - tr_price pos * tr_size pos))
              l a == a).
  { induction l as [|x l IH]; intros a; cbn [fold_left]; [done|].
    rewrite IH, Hmv. Lqa.lra. }
  assert (Hu : unrealizedPNL stats == 0) by (subst stats; cbn; apply Hfold).
  split; [done|]. split.
  - subst stats. unfold getStats in *. cbn [netPNL realizedPNL unrealizedPNL] in *.
    rewrite Hu. Lqa.lra.
  - subst stats. cbn. apply filter_side_length.
Qed.

Lemma stats_without_bids_value_at_cost_witness :
  unrealizedPNL (getStats None ex_entered) == 0
  /\ netPNL (getStats None ex_entered) == realizedPNL (getStats None ex_entered)
  /\ totalTrades (getStats None ex_entered)
     = (totalBuyOrders (getStats None ex_entered)
        + totalSellOrders (getStats None ex_entered))%nat.
Proof.
  apply (stats_without_bids_value_at_cost None ex_entered). intros p [=].
Defined.

(** ** The stop-loss exit *)

Lemma updateSessionPnL_pnl cfg pnlChange x :
  sessionPnL (updateSessionPnL cfg pnlChange x) = sessionPnL x + pnlChange.
Proof. unfold updateSessionPnL. destruct (JS.geb _ _), (JS.leb _ _); done. Qed.

Lemma active_delete_gone id a : id ∉ active_delete id a.
Proof.
  unfold active_delete. intros Hin. apply list_elem_of_filter in Hin as [Hne _]. done.
Qed.

(** X24. When the monitor finds the bid of a held position above 0 and
    below its stop, and the gateway holds the shares, the position is sold
    fill-and-kill at [max(0.01, bid - 0.02)]: the cash goes up by that price
    times the size, the position leaves the active index, the trading lock is
    released, a FILLED SELL record paired with the position is written under
    the next trade id, and the session P&L moves by [(exit - entry) * size].
    Unless the exit counts as a breakeven exit, which a stop distance of at
    least 0.005 rules out, the record says STOP_LOSS and the circuit breaker
    is engaged on the token with the bid as the crash low. *)
Theorem stop_loss_exit cfg t books now id ap ob pos s :
  JSMap.get id (tradeRecords s) = Some ap ->
  books (tr_tokenId ap) = Some ob ->
  0 < bestBid ob ->
  bestBid ob < stopLossPrice cfg ap (bestBid ob) ->
  paperPositions (executionGateway s) !! tr_tokenId ap = Some pos ->
  tr_size ap <= pos_shares pos ->
  (read_breakEvenTriggered ap = true -> 5 # 1000 <= stored_stopDistance cfg ap) ->
  let s' := monitorPosition cfg t books now id s in
  let exitPrice := Qmax (1 # 100) (bestBid ob - (2 # 100)) in
  paperCash (executionGateway s') = paperCash (executionGateway s) + exitPrice * tr_size ap
  /\ (id ∉ activePositions s')
  /\ isTradingLocked s' = false
  /\ JSMap.get (next_trade_id s) (tradeRecords s')
     = Some (mkTradeRecord (next_trade_id s) now (tr_marketSlug ap) SELL (tr_tokenId ap)
               (tr_tokenType ap) exitPrice (tr_size ap)
               ("STOP_LOSS" +:+ "_" +:+ JS.show_Z now)%string
               FILLED (Some id) (Some STOP_LOSS) None None)
  /\ sessionPnL (sessionState s')
     = sessionPnL (sessionState s) + (exitPrice - tr_price ap) * tr_size ap
  /\ circuitBreaker s'
     = mkCircuitBreaker true (bestBid ob) 0 now (tr_tokenId ap)
         (lastTradeTime (circuitBreaker s)).
Proof.
  intros Hget Hbook Hbid Hstop Hpos Hsz Hbe s' exitPrice. subst s'.
  unfold monitorPosition. rewrite Hget, Hbook.
  rewrite (proj2 (gtb_gt _ _) Hbid), (proj2 (ltb_lt _ _) Hstop). cbn [andb].
  assert (Hnb : read_breakEvenTriggered ap
                && JS.geb (bestBid ob) (tr_price ap - (5 # 1000)) = false).
  { destruct (read_breakEvenTriggered ap) eqn:Eb; [|done]. cbn [andb].
    apply geb_nge. intros Hge. specialize (Hbe eq_refl).
    revert Hstop. unfold stopLossPrice. rewrite Eb. cbn [negb andb]. Lqa.lra. }
  set (s1 := if negb (read_breakEvenTriggered ap) && _ then _ else s).
  assert (H1 : executionGateway s1 = executionGateway s
               /\ activePositions s1 = activePositions s
               /\ orderCounter s1 = orderCounter s
               /\ sessionState s1 = sessionState s
               /\ circuitBreaker s1 = circuitBreaker s).
  { subst s1. by destruct (negb _ && _). }
  destruct H1 as (Hg1 & Ha1 & Hc1 & Hs1 & Hb1).
  unfold next_trade_id. rewrite <- Hg1, <- Hc1, <- Hs1, <- Hb1.
  assert (Hpos1 : paperPositions (executionGateway s1) !! tr_tokenId ap = Some pos)
    by by rewrite Hg1.
  clearbody s1. clear Hpos Hg1 Ha1 Hc1 Hs1 Hb1.
  unfold exitPosition. rewrite Hnb. cbn [negb].
  set (s2 := match find_pendingSell id (JSMap.values (tradeRecords s1)) with
             | Some pendingSell => _
             | None => s1
             end).
  assert (H2 : paperCash (executionGateway s2) = paperCash (executionGateway s1)
               /\ paperPositions (executionGateway s2) = paperPositions (executionGateway s1)
               /\ orderCounter s2 = orderCounter s1
               /\ sessionState s2 = sessionState s1
               /\ circuitBreaker s2 = circuitBreaker s1).
  { subst s2. destruct (find_pendingSell _ _) as [ps|]; [|done].
    unfold cancelPaperOrder. by destruct (JSMap.has _ _). }
  destruct H2 as (Hg2 & Hp2 & Hc2 & Hs2 & Hb2).
  rewrite <- Hg2, <- Hc2, <- Hs2, <- Hb2. rewrite <- Hp2 in Hpos1.
  clearbody s2. clear Hg2 Hp2 Hc2 Hs2 Hb2.
  unfold executePaperFAK. rewrite Hpos1.
  rewrite (proj2 (geb_ge _ _) Hsz).
  destruct (JS.ltb (pos_shares pos - tr_size ap) (1 # 1000000)); cbn;
    (split; [done|]); (split; [apply active_delete_gone|]); (split; [done|]);
    (split; [apply JSMap_get_set_eq|]); (split; [apply updateSessionPnL_pnl|]); done.
Qed.

Lemma stop_loss_exit_witness :
  let s' := monitorPosition defaultConfig (Some 400) (ex_books (71 # 100) (70 # 100)) 2000
              "trade_0" ex_entered in
  ("trade_0"%string ∉ activePositions s')
  /\ isTradingLocked s' = false
  /\ isCoolingDown (circuitBreaker s') = true.
Proof.
  destruct (stop_loss_exit defaultConfig (Some 400) (ex_books (71 # 100) (70 # 100)) 2000
              "trade_0" ex_entry_record (mkOrderBook (71 # 100) (70 # 100))
              ex_entry_position ex_entered)
    as (_ & H2 & H3 & _ & _ & H6).
  - vm_compute. reflexivity.
  - reflexivity.
  - reflexivity.
  - reflexivity.
  - vm_compute. reflexivity.
  - vm_compute. discriminate.
  - intros H. vm_compute in H. discriminate.
  - split; [exact H2|]. split; [exact H3|]. cbv zeta. rewrite H6. reflexivity.
Defined.

(** ** The fill of the resting SELL *)

Lemma JSMap_get_mutate_eq id f (m : list (string * TradeRecord)) r :
  JSMap.get id m = Some r -> JSMap.get id (mutate id f m) = Some (f r).
Proof.
  induction m as [|[k r0] m IH]; cbn; [done|].
  destruct (bool_decide (k = id)) eqn:E; cbn; rewrite E; [by intros [= ->] | exact IH].
Qed.

Lemma JSMap_get_mutate_ne id k f (m : list (string * TradeRecord)) :
  k <> id -> JSMap.get k (mutate id f m) = JSMap.get k m.
Proof.
  intros Hne. induction m as [|[k0 r0] m IH]; cbn; [done|].
  destruct (bool_decide (k0 = id)) eqn:E; cbn.
  - apply bool_decide_eq_true in E. subst k0.
    by rewrite (bool_decide_eq_false_2 (id = k)).
  - by rewrite IH.
Qed.



(** ** Active positions and the ledger *)

Lemma keys_mutate id f m : JSMap.keys (mutate id f m) = JSMap.keys m.
Proof.
  unfold JSMap.keys. induction m as [|[k r] m IH]; cbn; [done|].
  case_bool_decide; cbn; [done | by rewrite IH].
Qed.

Lemma ledger_keyed_mutate c id f m :
  (forall r, tr_id (f r) = tr_id r) -> ledger_keyed c m -> ledger_keyed c (mutate id f m).
Proof.
  intros Hf [Hnd Hall]. split; [by rewrite keys_mutate|]. clear Hnd.
  induction m as [|[k r] m IH]; cbn; [done|].
  apply Forall_cons in Hall as [[H1 H2] Hall]. cbn in H1, H2.
  case_bool_decide; apply Forall_cons; cbn.
  - split; [|done]. split; [by rewrite Hf | done].
  - split; [by split | by apply IH].
Qed.

Lemma ledger_keyed_mono c c' m : (c <= c')%nat -> ledger_keyed c m -> ledger_keyed c' m.
Proof.
  intros Hle [Hnd Hall]. split; [done|]. eapply Forall_impl; [exact Hall|].
  intros [k r] [H1 (n & Hn & H2)]. split; [done|]. exists n. split; [lia | done].
Qed.

Lemma trade_id_fresh c m :
  ledger_keyed c m -> ("trade_" +:+ JS.show_nat c)%string ∉ JSMap.keys m.
Proof.
  intros [_ Hall] Hin. apply elem_of_keys in Hin as ([k r] & He & Hk). cbn in Hk. subst k.
  destruct (proj1 (Forall_forall _ _) Hall _ He) as [_ (n & Hn & Heq)].
  apply trade_id_inj in Heq. lia.
Qed.

Lemma ledger_keyed_set c m v :
  ledger_keyed c m -> tr_id v = ("trade_" +:+ JS.show_nat c)%string ->
  ledger_keyed (S c) (JSMap.set ("trade_" +:+ JS.show_nat c)%string v m).
Proof.
  intros Hk Hv. pose proof (trade_id_fresh c m Hk) as Hfresh.
  rewrite JSMap_set_fresh by done.
  destruct (ledger_keyed_mono c (S c) m ltac:(lia) Hk) as [Hnd Hall]. split.
  - unfold JSMap.keys in *. rewrite map_app. apply NoDup_app. split; [done|]. split.
    + intros x Hx [->|Hn]%elem_of_cons; [done | by apply elem_of_nil in Hn].
    + apply NoDup_singleton.
  - apply Forall_app. split; [done|]. apply Forall_cons. split; [|by apply Forall_nil].
    split; [done|]. exists c. split; [lia | done].
Qed.

Lemma get_of_elem {V} (m : list (string * V)) k r :
  NoDup (JSMap.keys m) -> (k, r) ∈ m -> JSMap.get k m = Some r.
Proof.
  unfold JSMap.keys. induction m as [|[k0 r0] m IH]; cbn; [by intros _ ?%elem_of_nil|].
  intros [Hn Hnd]%NoDup_cons [[= -> ->]|Hin]%elem_of_cons.
  - by rewrite bool_decide_eq_true_2.
  - case_bool_decide as Hk; [|by apply IH]. subst k0. exfalso. apply Hn.
    apply (elem_of_keys m k). by exists (k, r).
Qed.

Lemma get_keys {V} (m : list (string * V)) k r :
  JSMap.get k m = Some r -> k ∈ JSMap.keys m.
Proof. intros Hg%JSMap_get_elem. apply elem_of_keys. by exists (k, r). Qed.

Lemma afb_mutate active m k f :
  active_filled_buys active m ->
  (forall r, tr_id (f r) = tr_id r /\ tr_side (f r) = tr_side r) ->
  ((forall r, tr_status (f r) = tr_status r)
   \/ (forall r, JSMap.get k m = Some r -> ~ (tr_side r = BUY /\ tr_status r = FILLED))) ->
  active_filled_buys active (mutate k f m).
Proof.
  intros Ha Hf Hs id Hin. destruct (Ha id Hin) as (r & Hg & Hi & Hb & Hst).
  destruct (decide (id = k)) as [->|Hne].
  - exists (f r). rewrite (JSMap_get_mutate_eq _ _ _ _ Hg). destruct (Hf r) as [H1 H2].
    split; [done|]. split; [congruence|]. split; [congruence|].
    destruct Hs as [Hs|Hs]; [by rewrite Hs | exfalso; by apply (Hs r)].
  - exists r. by rewrite JSMap_get_mutate_ne.
Qed.

Lemma afb_set_fresh active m k v :
  active_filled_buys active m -> k ∉ JSMap.keys m ->
  active_filled_buys active (JSMap.set k v m).
Proof.
  intros Ha Hk id Hin. destruct (Ha id Hin) as (r & Hg & Hrest). exists r.
  split; [|done]. rewrite JSMap_get_set_ne; [done|]. intros ->. apply Hk. by eapply get_keys.
Qed.

Lemma afb_sub active active' m :
  (forall id, id ∈ active' -> id ∈ active) ->
  active_filled_buys active m -> active_filled_buys active' m.
Proof. intros Hsub Ha id Hin. by apply Ha, Hsub. Qed.

Lemma active_delete_sub id a x : x ∈ active_delete id a -> x ∈ a.
Proof. unfold active_delete. by intros [_ ?]%list_elem_of_filter. Qed.

Lemma find_pendingSell_spec id (m : list (string * TradeRecord)) ps :
  find_pendingSell id (JSMap.values m) = Some ps ->
  (exists k, (k, ps) ∈ m) /\ tr_side ps = SELL /\ tr_status ps = PENDING.
Proof.
  unfold find_pendingSell, JSMap.values. intros H. apply find_some in H as [Hin Hb].
  apply andb_true_iff in Hb as [Hb H3]. apply andb_true_iff in Hb as [_ H2].
  apply bool_decide_eq_true in H2, H3. split; [|done].
  apply in_map_iff in Hin as ([k r] & Hr & Hin). cbn in Hr. subst r.
  exists k. by apply list_elem_of_In.
Qed.

Lemma afb_cancel active c m id ps f :
  ledger_keyed c m -> active_filled_buys active m ->
  find_pendingSell id (JSMap.values m) = Some ps ->
  (forall r, tr_id (f r) = tr_id r /\ tr_side (f r) = tr_side r) ->
  active_filled_buys active (mutate (tr_id ps) f m).
Proof.
  intros [Hnd Hall] Ha Hfind Hf. apply afb_mutate; [done|done|right].
  intros r Hg [Hb _].
  destruct (find_pendingSell_spec id m ps Hfind) as ((k & Hin) & Hside & _).
  destruct (proj1 (Forall_forall _ _) Hall _ Hin) as [Hid _]. cbn in Hid.
  rewrite Hid in Hg. rewrite (get_of_elem m k ps Hnd Hin) in Hg.
  injection Hg as <-. congruence.
Qed.

Section Consistent.
Variable cfg : Config.

Lemma exitPosition_consistent id activePosition bet bid now s :
  ledger_consistent s -> ledger_consistent (exitPosition cfg id activePosition bet bid now s).
Proof.
  intros Hs. unfold exitPosition.
  set (s1 := match find_pendingSell id (JSMap.values (tradeRecords s)) with
             | Some pendingSell => _
             | None => s
             end).
  assert (H1 : ledger_consistent s1).
  { subst s1. destruct (find_pendingSell _ _) as [ps|] eqn:Hfind; [|done].
    destruct (cancelPaperOrder _ _) as [g b]. destruct Hs as [Hk Ha]. split; cbn.
    - by apply ledger_keyed_mutate.
    - by apply (afb_cancel _ (orderCounter s) _ id). }
  clearbody s1. destruct H1 as [Hk Ha].
  destruct (executePaperFAK _ _ _ _ _ _) as [g sold].
  destruct sold; [|by split].
  pose proof (trade_id_fresh _ _ Hk) as Hfresh.
  unfold next_trade_id.
  destruct (negb _); split; cbn;
    try (by apply ledger_keyed_set);
    (eapply afb_sub; [intros x; apply active_delete_sub | by apply afb_set_fresh]).
Qed.

Lemma monitorPosition_consistent t books now id s :
  ledger_consistent s -> ledger_consistent (monitorPosition cfg t books now id s).
Proof.
  intros Hs. unfold monitorPosition.
  destruct (JSMap.get id (tradeRecords s)) as [ap|]; [|done].
  destruct (books (tr_tokenId ap)) as [ob|]; [|done].
  set (s1 := if negb (read_breakEvenTriggered ap) && _ then _ else s).
  assert (H1 : ledger_consistent s1).
  { subst s1. destruct (negb _ && _); [|done]. destruct Hs as [Hk Ha]. split; cbn.
    - by apply ledger_keyed_mutate.
    - apply afb_mutate; [done|done|by left]. }
  clearbody s1.
  destruct (JS.gtb _ _ && JS.ltb _ _); [by apply exitPosition_consistent|].
  destruct t as [t|]; [|done].
  destruct (JS.ltb _ _ && JS.gtb _ _); [|done].
  destruct (find_pendingSell _ _) as [ps|] eqn:Hfind; [|done].
  destruct (cancelPaperOrder _ _) as [g b]. destruct H1 as [Hk Ha]. split; cbn.
  - by apply ledger_keyed_mutate.
  - by apply (afb_cancel _ (orderCounter s1) _ id).
Qed.

Lemma syncRecord_consistent tradeId s :
  ledger_consistent s -> ledger_consistent (syncRecord cfg tradeId s).
Proof.
  intros [Hk Ha]. unfold syncRecord.
  destruct (JSMap.get tradeId (tradeRecords s)) as [record|] eqn:Hget; [|done].
  destruct (bool_decide (tr_status record = PENDING)) eqn:Hp; cbn [andb]; [|done].
  apply bool_decide_eq_true in Hp.
  destruct (isOrderFilled _ _); [|done].
  assert (Hk' : ledger_keyed (orderCounter s)
                  (mutate tradeId (set_status FILLED) (tradeRecords s)))
    by by apply ledger_keyed_mutate.
  assert (Ha' : active_filled_buys (activePositions s)
                  (mutate tradeId (set_status FILLED) (tradeRecords s))).
  { apply afb_mutate; [done|done|right]. intros r Hr [_ Hst]. congruence. }
  assert (Hid : tr_id record = tradeId).
  { destruct Hk as [_ Hall]. apply JSMap_get_elem in Hget.
    by destruct (proj1 (Forall_forall _ _) Hall _ Hget). }
  destruct (tr_side record) eqn:Hside.
  - split; cbn; [done|]. intros id Hin. unfold active_set in Hin.
    case_bool_decide; [by apply Ha'|].
    apply elem_of_app in Hin as [Hin|Hin]; [by apply Ha'|].
    apply list_elem_of_singleton in Hin. subst id. rewrite Hid.
    exists (set_status FILLED record). by rewrite (JSMap_get_mutate_eq _ _ _ _ Hget).
  - destruct (tr_pairedWith record) as [buyId|]; [|by split].
    cbn. destruct (JSMap.get buyId _); split; cbn; try done;
      (eapply afb_sub; [intros x; apply active_delete_sub | done]).
Qed.

Lemma updateOrderStatus_consistent t books now s :
  ledger_consistent s -> ledger_consistent (updateOrderStatus cfg t books now s).
Proof.
  intros Hs. unfold updateOrderStatus.
  set (s1 := if isCoolingDown (circuitBreaker s) && _ then _ else s).
  assert (H1 : ledger_consistent s1).
  { subst s1. destruct (_ && _); [|done]. by destruct (books _). }
  clearbody s1.
  destruct (_ =? _)%nat; [done|].
  assert (Hm : forall ids s0, ledger_consistent s0 ->
             ledger_consistent
               (fold_left (fun s id => monitorPosition cfg t books now id s) ids s0)).
  { induction ids as [|i ids IH]; intros s0 H0; cbn; [done|].
    by apply IH, monitorPosition_consistent. }
  assert (Hy : forall ids s0, ledger_consistent s0 ->
             ledger_consistent
               (fold_left (fun s tradeId => syncRecord cfg tradeId s) ids s0)).
  { induction ids as [|i ids IH]; intros s0 H0; cbn; [done|].
    by apply IH, syncRecord_consistent. }
  by apply Hy, Hm.
Qed.

Lemma shouldEnterTrade_consistent spot strike t prices now s :
  ledger_consistent s ->
  ledger_consistent (fst (shouldEnterTrade cfg spot strike t prices now s)).
Proof.
  intros Hs. unfold shouldEnterTrade.
  destruct (isSessionLocked _); [done|].
  set (s1 := match prices with Some p => _ | None => s end).
  assert (H1 : ledger_consistent s1).
  { subst s1. by destruct prices. }
  clearbody s1.
  destruct (match prices with Some p => _ | None => false end); [done|].
  cbn [with_quantEngine circuitBreaker]. destruct (isCoolingDown (circuitBreaker s1)); [done|].
  destruct (_ && _); [done|].
  destruct (hasPendingTrades _); [done|].
  by destruct (JS.leb _ _).
Qed.

Lemma executeTrade_consistent market dir books now s :
  ledger_consistent s -> ledger_consistent (fst (executeTrade cfg market dir books now s)).
Proof.
  intros [Hk Ha]. unfold executeTrade.
  destruct (hasPendingTrades s); [by split|].
  destruct (isCoolingDown _); [by split|].
  destruct (books _) as [ob|]; [|by split].
  destruct (JS.leb (bestAsk ob) 0); [by split|].
  destruct (JS.gtb _ (MAX_ALLOWED_SPREAD cfg)); [by split|].
  destruct (_ && _); [by split|].
  destruct (placeFOKOrder _ _ _ _ _ _) as [g [e0|fokId]]; [by split|].
  destruct (negb (JS.truthy_str fokId)); [by split|].
  pose proof (trade_id_fresh _ _ Hk) as Hfresh.
  assert (Hbuy : forall buyId v,
            buyId = ("trade_" +:+ JS.show_nat (orderCounter s))%string ->
            tr_id v = buyId -> tr_side v = BUY -> tr_status v = FILLED ->
            ledger_keyed (S (orderCounter s)) (JSMap.set buyId v (tradeRecords s))
            /\ active_filled_buys (active_set buyId (activePositions s))
                 (JSMap.set buyId v (tradeRecords s))).
  { intros buyId v Hb Hv Hside Hst. rewrite <- Hb in Hfresh. split.
    { rewrite Hb. apply ledger_keyed_set; [done | by rewrite <- Hb]. }
    intros id Hin. unfold active_set in Hin.
    assert (Hold : id ∈ activePositions s ->
              exists r, JSMap.get id (JSMap.set buyId v (tradeRecords s)) = Some r
                        /\ tr_id r = id /\ tr_side r = BUY /\ tr_status r = FILLED)
      by (intros Hi; by apply (afb_set_fresh (activePositions s))).
    case_bool_decide; [by apply Hold|].
    apply elem_of_app in Hin as [Hin|Hin]; [by apply Hold|].
    apply list_elem_of_singleton in Hin. subst id.
    exists v. by rewrite JSMap_get_set_eq. }
  unfold next_trade_id.
  destruct (JS.ltb (bestAsk ob) (99 # 100)); cbn.
  - match goal with
    | |- context [JSMap.set ?k ?v (tradeRecords s)] =>
        destruct (Hbuy k v eq_refl eq_refl eq_refl eq_refl) as [Hk1 Ha1]
    end.
    split; cbn.
    + by apply ledger_keyed_set.
    + apply afb_set_fresh; [done|]. by apply trade_id_fresh in Hk1.
  - match goal with
    | |- context [JSMap.set ?k ?v (tradeRecords s)] =>
        destruct (Hbuy k v eq_refl eq_refl eq_refl eq_refl) as [Hk1 Ha1]
    end.
    by split.
Qed.

End Consistent.

(** X26. In every state the strategy can reach, the ledger has no trade id
    twice, every record is stored under its own id, and every active position
    is a FILLED BUY record of the ledger. *)
Theorem active_positions_are_filled_buys cfg s :
  reachable cfg s ->
  NoDup (JSMap.keys (tradeRecords s))
  /\ Forall (fun kr => tr_id kr.2 = kr.1) (tradeRecords s)
  /\ forall id, id ∈ activePositions s ->
       exists r, JSMap.get id (tradeRecords s) = Some r
                 /\ tr_side r = BUY /\ tr_status r = FILLED.
Proof.
  intros Hreach.
  assert (Hs : ledger_consistent s).
  { induction Hreach as [now bankroll|now books s s' _ IH Hstep|? ? ? ? s _ IH|now s _ IH].
    - split; [split; [apply NoDup_nil_2 | by apply Forall_nil]|].
      by intros id ?%elem_of_nil.
    - destruct Hstep.
      + done.
      + by apply updateOrderStatus_consistent.
      + by apply shouldEnterTrade_consistent.
      + by apply executeTrade_consistent.
    - done.
    - split; [split; [apply NoDup_nil_2 | by apply Forall_nil]|].
      by intros id ?%elem_of_nil. }
  destruct Hs as [[Hnd Hall] Ha]. split; [done|]. split.
  - eapply Forall_impl; [exact Hall|]. by intros kr [? _].
  - intros id Hin. destruct (Ha id Hin) as (r & Hg & _ & Hb & Hst). by exists r.
Qed.

Lemma active_positions_are_filled_buys_witness :
  NoDup (JSMap.keys (tradeRecords ex_entered))
  /\ Forall (fun kr => tr_id kr.2 = kr.1) (tradeRecords ex_entered)
  /\ forall id, id ∈ activePositions ex_entered ->
       exists r, JSMap.get id (tradeRecords ex_entered) = Some r
                 /\ tr_side r = BUY /\ tr_status r = FILLED.
Proof.
  apply (active_positions_are_filled_buys defaultConfig).
  apply (reach_tick defaultConfig 1000 (ex_books (75 # 100) (74 # 100))
           (newStrategy defaultConfig 0 (newGateway 20)));
    [apply reach_new | apply ts_executeTrade].
Defined.

(** ** Hold to maturity *)

Lemma find_pendingSell_mutate_buy k id f (m : list (string * TradeRecord)) ap :
  JSMap.get id m = Some ap -> tr_side ap = BUY ->
  (forall r, tr_side (f r) = tr_side r) ->
  find_pendingSell k (JSMap.values (mutate id f m)) = find_pendingSell k (JSMap.values m).
Proof.
  intros Hget Hbuy Hf. unfold find_pendingSell, JSMap.values. revert Hget.
  induction m as [|[k0 r0] m IH]; cbn; [done|].
  destruct (bool_decide (k0 = id)) eqn:E; cbn.
  - intros [= ->]. rewrite Hf, Hbuy.
    rewrite (bool_decide_eq_false_2 (BUY = SELL)) by done.
    by rewrite !andb_false_r.
  - intros Hget. by rewrite IH.
Qed.

(** X27. With less than 45 seconds left and the bid of a held position
    above 0.94 (and not below its stop), the monitor gives up the resting
    SELL of the position: the order is no longer open at the gateway, its
    record is CANCELLED with exit type HOLD_TO_MATURITY, and the trading lock
    is released, while the position stays active and the cash and the
    positions of the gateway are untouched. *)
Theorem hold_to_maturity cfg t books now id ap ob ps s :
  JSMap.get id (tradeRecords s) = Some ap ->
  tr_side ap = BUY ->
  books (tr_tokenId ap) = Some ob ->
  stopLossPrice cfg ap (bestBid ob) <= bestBid ob ->
  t < 45 ->
  94 # 100 < bestBid ob ->
  find_pendingSell id (JSMap.values (tradeRecords s)) = Some ps ->
  tr_id ps <> id ->
  JSMap.get (tr_id ps) (tradeRecords s) = Some ps ->
  let s' := monitorPosition cfg (Some t) books now id s in
  JSMap.has (tr_orderId ps) (paperOrders (executionGateway s')) = false
  /\ JSMap.get (tr_id ps) (tradeRecords s')
     = Some (set_exitType HOLD_TO_MATURITY (set_status CANCELLED ps))
  /\ isTradingLocked s' = false
  /\ activePositions s' = activePositions s
  /\ paperCash (executionGateway s') = paperCash (executionGateway s)
  /\ paperPositions (executionGateway s') = paperPositions (executionGateway s).
Proof.
  intros Hget Hbuy Hbook Hstop Ht Hbid Hfind Hne Hps s'. subst s'.
  unfold monitorPosition. rewrite Hget, Hbook.
  rewrite (proj2 (ltb_nlt _ _) (Qle_not_lt _ _ Hstop)), andb_false_r.
  rewrite (proj2 (ltb_lt _ _) Ht), (proj2 (gtb_gt _ _) Hbid). cbn [andb].
  set (s1 := if negb (read_breakEvenTriggered ap) && _ then _ else s).
  assert (H1 : executionGateway s1 = executionGateway s
               /\ activePositions s1 = activePositions s
               /\ find_pendingSell id (JSMap.values (tradeRecords s1)) = Some ps
               /\ JSMap.get (tr_id ps) (tradeRecords s1) = Some ps).
  { subst s1. destruct (negb _ && _); [|done].
    cbn [tradeRecords with_records executionGateway activePositions].
    split; [done|]. split; [done|]. split.
    - by rewrite (find_pendingSell_mutate_buy id id _ _ ap).
    - by rewrite JSMap_get_mutate_ne. }
  destruct H1 as (Hg1 & Ha1 & Hf1 & Hp1). rewrite <- Hg1, <- Ha1. clearbody s1.
  rewrite Hf1. unfold cancelPaperOrder.
  destruct (JSMap.has (tr_orderId ps) (paperOrders (executionGateway s1))) eqn:Hhas; cbn.
  - split; [apply JSMap_has_delete|]. split; [|done].
    exact (JSMap_get_mutate_eq _
             (fun r => set_exitType HOLD_TO_MATURITY (set_status CANCELLED r)) _ _ Hp1).
  - split; [done|]. split; [|done].
    exact (JSMap_get_mutate_eq _
             (fun r => set_exitType HOLD_TO_MATURITY (set_status CANCELLED r)) _ _ Hp1).
Qed.

Lemma hold_to_maturity_witness :
  JSMap.has "PAPER_1" (paperOrders (executionGateway ex_held_to_maturity)) = false
  /\ JSMap.get "trade_1" (tradeRecords ex_held_to_maturity)
     = Some (set_exitType HOLD_TO_MATURITY (set_status CANCELLED ex_sell_record))
  /\ isTradingLocked ex_held_to_maturity = false
  /\ activePositions ex_held_to_maturity = activePositions ex_entered.
Proof.
  destruct (hold_to_maturity defaultConfig 30 (ex_books (96 # 100) (95 # 100)) 800000
              "trade_0" ex_entry_record (mkOrderBook (96 # 100) (95 # 100))
              ex_sell_record ex_entered) as (H1 & H2 & H3 & H4 & _).
  - vm_compute. reflexivity.
  - reflexivity.
  - reflexivity.
  - vm_compute. discriminate.
  - reflexivity.
  - reflexivity.
  - vm_compute. reflexivity.
  - discriminate.
  - vm_compute. reflexivity.
  - split; [exact H1|]. split; [exact H2|]. split; [exact H3 | exact H4].
Defined.
